(** * End-to-end UI scenarios of [testsprite_tests]: a shallow embedding

    Every script under [testsprite_tests/] is one coroutine [run_test]:
    three locals initialised to [None], a [try] block that starts
    Playwright, launches Chromium, opens a context and a page, navigates,
    waits best-effort for the load state of the page and of its frames,
    then performs a straight line of clicks, fills, navigations, sleeps and
    visibility assertions, and a [finally] block that closes whatever was
    acquired.  The nine files differ only in the straight line, so
    [run_test] is embedded once and each file contributes its [Scenario].

    The browser and the application are external: every call into the
    Playwright API is answered by an environment, which either returns a
    value or raises.  The run records the calls and their replies in a
    trace; all properties below are stated on the outcome and the trace. *)

From Stdlib Require Import String ZArith List Bool Arith Lia.
Import ListNotations.
Local Open Scope string_scope.
Local Open Scope Z_scope.
Local Open Scope list_scope.

(** ** Exceptions *)

(** The exception classes the scripts distinguish: [async_api.Error] with
    its subclass [TimeoutError], the builtin [AssertionError] (raised by
    [expect] and by the scripts themselves), and everything else. *)
Inductive ExnClass : Type :=
| PlaywrightError
| PlaywrightTimeoutError
| AssertionError
| OtherException.

Record Exn : Type := mkExn { exn_class : ExnClass; exn_msg : string }.

(** [except async_api.Error] *)
Definition is_async_api_Error (e : Exn) : bool :=
  match exn_class e with
  | PlaywrightError | PlaywrightTimeoutError => true
  | _ => false
  end.

(** [except AssertionError] *)
Definition is_AssertionError (e : Exn) : bool :=
  match exn_class e with
  | AssertionError => true
  | _ => false
  end.

Definition is_TimeoutError (e : Exn) : bool :=
  match exn_class e with
  | PlaywrightTimeoutError => true
  | _ => false
  end.

(** ** Calls into the automation API *)

(** [.nth(0)], [.first], or the locator as it is. *)
Inductive Pick : Type := Nth0 | First | Whole.

Record Locator : Type := Loc { selector : string; pick : Pick }.

(** One constructor per API call a script makes.  [Log] stands for a line
    written by [print] or [logging]; no script contains such a statement,
    the constructor exists so that its absence can be stated. *)
Inductive Call : Type :=
| PwStart
| ChromiumLaunch (headless : bool) (args : list string)
| NewContext
| SetDefaultTimeout (ms : Z)
| NewPage
| Goto (url : string) (wait_until : option string) (timeout : Z)
| PageWaitForLoadState (state : string) (timeout : Z)
| PageFrames
| FrameWaitForLoadState (frame : nat) (state : string) (timeout : Z)
| ContextPages
| WaitForTimeout (ms : Z)
| LocatorClick (l : Locator) (timeout : Z)
| LocatorFill (l : Locator) (text : string)
| ExpectToBeVisible (l : Locator) (timeout : Z)
| AsyncioSleep (secs : Z)
| ContextClose
| BrowserClose
| PwStop
| Log (line : string).

Inductive Reply : Type :=
| Returns (v : nat)
| Raises (e : Exn).

Definition Event : Type := (Call * Reply)%type.

(** The environment answers the [n]-th call of a run. *)
Definition Env : Type := nat -> Call -> Reply.

(** ** Scenarios *)

(** The statements of the straight line, as they occur in the scripts. *)
Inductive Step : Type :=
| Click (xpath : string) (timeout : Z)
| Fill (xpath : string) (text : string)
| Navigate (url : string) (timeout : Z)
| Sleep (secs : Z)
| LastPage
| AssertVisible (l : Locator) (timeout : Z)
| AssertVisibleOr (l : Locator) (timeout : Z) (diagnostic : string).

Record Scenario : Type :=
  { name : string; entry_url : string; steps : list Step }.

Inductive Verdict : Type :=
| Pass
| Fail (diagnostic : string).

(** ** The state of a run *)

(** The locals [pw], [browser], [context] that the [finally] block reads,
    and the trace of calls made so far, oldest first. *)
Record State : Type := mkState
  { pw : option nat;
    browser : option nat;
    context : option nat;
    trace : list Event }.

(** [pw = None; browser = None; context = None] *)
Definition init : State :=
  {| pw := None; browser := None; context := None; trace := [] |}.

Definition Result (A : Type) : Type := (Exn + A)%type.

Definition M (A : Type) : Type := State -> Result A * State.

Definition ret {A : Type} (a : A) : M A := fun st => (inr a, st).

Definition bind {A B : Type} (m : M A) (k : A -> M B) : M B :=
  fun st =>
    match m st with
    | (inr a, st') => k a st'
    | (inl e, st') => (inl e, st')
    end.

Definition raise {A : Type} (e : Exn) : M A := fun st => (inl e, st).

Declare Scope run_scope.
Delimit Scope run_scope with run.
Notation "x <- m ;; k" := (bind m (fun x => k))
  (at level 61, m at next level, right associativity) : run_scope.
Notation "m ;; k" := (bind m (fun _ => k))
  (at level 61, right associativity) : run_scope.
Local Open Scope run_scope.

(** [try: body except <catches>: handler] *)
Definition try_except {A : Type}
  (body : M A) (catches : Exn -> bool) (handler : M A) : M A :=
  fun st =>
    match body st with
    | (inl e, st') => if catches e then handler st' else (inl e, st')
    | ok => ok
    end.

(** [try: body finally: fin].  The [finally] block always runs; when it
    raises, its exception replaces the outcome of the body. *)
Definition try_finally {A : Type} (body : M A) (fin : M unit) : M A :=
  fun st =>
    match body st with
    | (r, st') =>
      match fin st' with
      | (inl e, st'') => (inl e, st'')
      | (inr _, st'') => (r, st'')
      end
    end.

Definition set_pw (v : nat) : M unit :=
  fun st => (inr tt, {| pw := Some v; browser := browser st;
                        context := context st; trace := trace st |}).

Definition set_browser (v : nat) : M unit :=
  fun st => (inr tt, {| pw := pw st; browser := Some v;
                        context := context st; trace := trace st |}).

Definition set_context (v : nat) : M unit :=
  fun st => (inr tt, {| pw := pw st; browser := browser st;
                        context := Some v; trace := trace st |}).

Definition get {A : Type} (f : State -> A) : M A := fun st => (inr (f st), st).

Definition record (ev : Event) (st : State) : State :=
  {| pw := pw st; browser := browser st; context := context st;
     trace := trace st ++ [ev] |}.

(** [for x in xs: f x] *)
Fixpoint for_each {A : Type} (xs : list A) (f : A -> M unit) : M unit :=
  match xs with
  | [] => ret tt
  | x :: xs' => f x ;; for_each xs' f
  end.

(** [if v: m] on an object-or-[None] local. *)
Definition when_set (v : option nat) (m : M unit) : M unit :=
  match v with
  | Some _ => m
  | None => ret tt
  end.

Definition launch_args : list string :=
  ["--window-size=1280,720"; "--disable-dev-shm-usage"; "--ipc=host";
   "--single-process"].

(** The fixed delay in front of every click and fill. *)
Definition settle_delay : Z := 3000.

Section Runner.

Variable env : Env.

(** An awaited (or synchronous) API call: ask the environment, record the
    event, return the value or raise. *)
Definition call (c : Call) : M nat :=
  fun st =>
    let r := env (length (trace st)) c in
    match r with
    | Returns v => (inr v, record (c, r) st)
    | Raises e => (inl e, record (c, r) st)
    end.

Definition call_ (c : Call) : M unit := call c ;; ret tt.

(** [try: await x.wait_for_load_state(...) except async_api.Error: pass] *)
Definition best_effort (c : Call) : M unit :=
  try_except (call_ c) is_async_api_Error (ret tt).

Definition exec_step (s : Step) : M unit :=
  match s with
  | Click xpath timeout =>
      (* frame = context.pages[-1]
         elem = frame.locator(xpath).nth(0)
         await page.wait_for_timeout(3000); await elem.click(timeout=5000) *)
      call_ ContextPages ;;
      call_ (WaitForTimeout settle_delay) ;;
      call_ (LocatorClick (Loc xpath Nth0) timeout)
  | Fill xpath text =>
      call_ ContextPages ;;
      call_ (WaitForTimeout settle_delay) ;;
      call_ (LocatorFill (Loc xpath Nth0) text)
  | Navigate url timeout =>
      call_ (Goto url None timeout)
  | Sleep secs =>
      call_ (AsyncioSleep secs)
  | LastPage =>
      call_ ContextPages
  | AssertVisible l timeout =>
      call_ (ExpectToBeVisible l timeout)
  | AssertVisibleOr l timeout diagnostic =>
      (* try: await expect(...).to_be_visible(timeout=...)
         except AssertionError: raise AssertionError(diagnostic) *)
      try_except (call_ (ExpectToBeVisible l timeout))
                 is_AssertionError
                 (raise (mkExn AssertionError diagnostic))
  end.

Definition exec_steps (ss : list Step) : M unit := for_each ss exec_step.

(** The [try] block of [run_test]. *)
Definition body (sc : Scenario) : M unit :=
  p <- call PwStart ;; set_pw p ;;
  b <- call (ChromiumLaunch true launch_args) ;; set_browser b ;;
  c <- call NewContext ;; set_context c ;;
  call_ (SetDefaultTimeout 5000) ;;
  call_ NewPage ;;
  call_ (Goto (entry_url sc) (Some "commit") 10000) ;;
  best_effort (PageWaitForLoadState "domcontentloaded" 3000) ;;
  n <- call PageFrames ;;
  for_each (seq 0 n)
    (fun i => best_effort (FrameWaitForLoadState i "domcontentloaded" 3000)) ;;
  exec_steps (steps sc).

(** The [finally] block of [run_test]. *)
Definition teardown : M unit :=
  c <- get context ;; when_set c (call_ ContextClose) ;;
  b <- get browser ;; when_set b (call_ BrowserClose) ;;
  p <- get pw ;; when_set p (call_ PwStop).

Definition run_test (sc : Scenario) : Result unit * State :=
  try_finally (body sc) teardown init.

(** The [try] block alone, from the initial locals. *)
Definition run_body (sc : Scenario) : Result unit * State :=
  body sc init.

End Runner.

(** [asyncio.run(run_test())] at module level: the script passes when the
    coroutine returns and fails with the message of the exception that
    leaves it. *)
Definition verdict_of (r : Result unit) : Verdict :=
  match r with
  | inr _ => Pass
  | inl e => Fail (exn_msg e)
  end.

Definition verdict (env : Env) (sc : Scenario) : Verdict :=
  verdict_of (fst (run_test env sc)).

Definition final_trace (env : Env) (sc : Scenario) : list Event :=
  trace (snd (run_test env sc)).

(** [TC001_Authentication_success_with_valid_employee_credentials.py] *)
Definition TC001 : Scenario :=
  {| name := "TC001_Authentication_success_with_valid_employee_credentials";
     entry_url := "http://localhost:3000/fleet";
     steps :=
  [ Click "xpath=html/body/div[2]/nav/div[2]/div/div/div/a" 5000;
    Fill "xpath=html/body/div[2]/div[2]/div[3]/div/form/div/input" "admin@mpdee.co.uk";
    Fill "xpath=html/body/div[2]/div[2]/div[3]/div/form/div[2]/input" "Q-0ww9qe?";
    Click "xpath=html/body/div[2]/div[2]/div[3]/div/form/button" 5000;
    Click "xpath=html/body/div[2]/nav/div[2]/div/div[2]/div[2]/button" 5000;
    Fill "xpath=html/body/div[2]/div[2]/div[3]/div/form/div/input" "admin@mpdee.co.uk";
    Fill "xpath=html/body/div[2]/div[2]/div[3]/div/form/div[2]/input" "Q-0ww9qe?";
    Click "xpath=html/body/div[2]/div[2]/div[3]/div/form/button" 5000;
    Click "xpath=html/body/div[2]/nav/div[2]/div/div[2]/div[2]/button" 5000;
    Fill "xpath=html/body/div[2]/div[2]/div[3]/div/form/div/input" "admin@mpdee.co.uk";
    Fill "xpath=html/body/div[2]/div[2]/div[3]/div/form/div[2]/input" "Q-0ww9qe?";
    Click "xpath=html/body/div[2]/div[2]/div[3]/div/form/button" 5000;
    Click "xpath=html/body/div[2]/div[4]/main/div/div[2]/div/div" 5000;
    Click "xpath=html/body/div[2]/div[4]/main/div/div[2]/div/div[2]" 5000;
    Click "xpath=html/body/div[2]/div[4]/main/div/div[2]/div/div[3]" 5000;
    LastPage;
    AssertVisibleOr (Loc "text=Employee Dashboard Access Granted" First) 30000
      "Test case failed: Employee authentication using Supabase Auth did not succeed or dashboard with appropriate permissions was not displayed as expected.";
    Sleep 5 ] |}.

(** [TC002_Workshop_task_creation_with_two_tier_taxonomy.py] *)
Definition TC002 : Scenario :=
  {| name := "TC002_Workshop_task_creation_with_two_tier_taxonomy";
     entry_url := "http://localhost:3000/fleet";
     steps :=
  [ Click "xpath=html/body/div[2]/nav/div[2]/div/div[2]/div[2]/button" 5000;
    Fill "xpath=html/body/div[2]/div[2]/div[3]/div/form/div/input" "admin@mpdee.co.uk";
    Fill "xpath=html/body/div[2]/div[2]/div[3]/div/form/div[2]/input" "Q-0ww9qe?";
    Click "xpath=html/body/div[2]/div[2]/div[3]/div/form/button" 5000;
    Click "xpath=html/body/div[2]/div[4]/main/div/div[2]/div/a[6]" 5000;
    Click "xpath=html/body/div[2]/div[4]/main/div/div/div/button" 5000;
    Click "xpath=html/body/div[5]/div[2]/div/button" 5000;
    Click "xpath=html/body/div[6]/div/div/div" 5000;
    Click "xpath=html/body/div[5]/div[2]/div[2]/button" 5000;
    Click "xpath=html/body/div[6]/div/div/div[2]" 5000;
    Click "xpath=html/body/div[5]/div[2]/div[3]/button" 5000;
    Click "xpath=html/body/div[6]/div/div/div[3]" 5000;
    Fill "xpath=html/body/div[5]/div[2]/div[4]/input" "12345";
    Fill "xpath=html/body/div[5]/div[2]/div[5]/textarea" "Electrical system requires inspection and repair.";
    Click "xpath=html/body/div[5]" 5000;
    LastPage;
    AssertVisibleOr (Loc "text=Nonexistent Category Badge" First) 1000
      "Test case failed: The test plan execution failed to create a new workshop task with correct category and subcategory badges, colors, and icons as expected.";
    Sleep 5 ] |}.

(** [TC003_Workshop_task_comments_timeline_CRUD_for_author.py] *)
Definition TC003 : Scenario :=
  {| name := "TC003_Workshop_task_comments_timeline_CRUD_for_author";
     entry_url := "http://localhost:3000/fleet";
     steps :=
  [ Click "xpath=html/body/div[2]/nav/div[2]/div/div[2]/div[2]/button" 5000;
    Fill "xpath=html/body/div[2]/div[2]/div[3]/div/form/div/input" "admin@mpdee.co.uk";
    Fill "xpath=html/body/div[2]/div[2]/div[3]/div/form/div[2]/input" "Q-0ww9qe?";
    Click "xpath=html/body/div[2]/div[2]/div[3]/div/form/button" 5000;
    Click "xpath=html/body/div[2]/nav/div[2]/div/div/div/a[7]" 5000;
    Click "xpath=html/body/div[2]/div[4]/main/div/div[2]/div[2]/div[3]/div/div/div/div/div/div/div/div[2]/button" 5000;
    Fill "xpath=html/body/div[5]/div[3]/textarea" "This is a test comment.";
    Click "xpath=html/body/div[5]/button" 5000;
    Click "xpath=html/body/div[2]/div[4]/main/div/div[2]/div[2]/div[3]/div/div/div/div/div/div/div/div[2]/button[3]" 5000;
    Click "xpath=html/body/div[5]/button" 5000;
    Click "xpath=html/body/div[2]/div[4]/main/div/div[2]/div[2]/div[3]/div/div/div/div/div/div/div/div[2]/button[2]" 5000;
    Click "xpath=html/body/div[5]/div[3]/button" 5000;
    LastPage;
    AssertVisibleOr (Loc "text=Comment Added Successfully" First) 1000
      "Test case failed: The test plan execution for adding, editing, and deleting comments on a workshop task timeline did not complete successfully. The comment was not found with correct author and timestamp, or the edit/delete operations did not reflect properly.";
    Sleep 5 ] |}.

(** [TC006_Fleet_page_tab_navigation_and_data_loading.py] *)
Definition TC006 : Scenario :=
  {| name := "TC006_Fleet_page_tab_navigation_and_data_loading";
     entry_url := "http://localhost:3000/fleet";
     steps :=
  [ Click "xpath=html/body/div[2]/nav/div[2]/div/div[2]/div[2]/button" 5000;
    Fill "xpath=html/body/div[2]/div[2]/div[3]/div/form/div/input" "admin@mpdee.co.uk";
    Fill "xpath=html/body/div[2]/div[2]/div[3]/div/form/div[2]/input" "Q-0ww9qe?";
    Click "xpath=html/body/div[2]/div[2]/div[3]/div/form/button" 5000;
    Click "xpath=html/body/div[2]/nav/div[2]/div/div/div/a[6]" 5000;
    Click "xpath=html/body/div[2]/nav/div[2]/div/div[2]/div[2]/button" 5000;
    Fill "xpath=html/body/div[2]/div[2]/div[3]/div/form/div/input" "admin@mpdee.co.uk";
    Fill "xpath=html/body/div[2]/div[2]/div[3]/div/form/div[2]/input" "Q-0ww9qe?";
    Click "xpath=html/body/div[2]/div[2]/div[3]/div/form/button" 5000;
    Click "xpath=html/body/div[2]/nav/div[2]/div/div/div/a[6]" 5000;
    Click "xpath=html/body/div[2]/nav/div[2]/div/div[2]/div[2]/button" 5000;
    Fill "xpath=html/body/div[2]/div[2]/div[3]/div/form/div/input" "admin@mpdee.co.uk";
    Fill "xpath=html/body/div[2]/div[2]/div[3]/div/form/div[2]/input" "Q-0ww9qe?";
    Click "xpath=html/body/div[2]/div[2]/div[3]/div/form/button" 5000;
    Click "xpath=html/body/div[2]/nav/div[2]/div/div/div/a[6]" 5000;
    Click "xpath=html/body/div[2]/div[4]/main/div/div[2]/div/button[2]" 5000;
    Click "xpath=html/body/div[2]/div[4]/main/div/div[2]/div/button[3]" 5000;
    Click "xpath=html/body/div[2]/div[4]/main/div/div[2]/div/button[4]" 5000;
    Click "xpath=html/body/div[2]/nav/div[2]/div/div[2]/div[2]/button" 5000;
    LastPage;
    AssertVisible (Loc "text=Maintenance" First) 2000;
    AssertVisible (Loc "text=Vehicles" First) 2000;
    AssertVisible (Loc "text=Categories" First) 2000;
    AssertVisible (Loc "text=Settings" First) 2000;
    AssertVisible (Loc "text=Contact your administrator for account access" First) 30000;
    Sleep 5 ] |}.

(** [TC010_Digital_vehicle_inspection_form_defect_submission_and_PDF_export.py] *)
Definition TC010 : Scenario :=
  {| name := "TC010_Digital_vehicle_inspection_form_defect_submission_and_PDF_export";
     entry_url := "http://localhost:3000/fleet";
     steps :=
  [ Click "xpath=html/body/div[2]/nav/div[2]/div/div[2]/div[2]/button" 5000;
    Fill "xpath=html/body/div[2]/div[2]/div[3]/div/form/div/input" "admin@mpdee.co.uk";
    Fill "xpath=html/body/div[2]/div[2]/div[3]/div/form/div[2]/input" "Q-0ww9qe?";
    Click "xpath=html/body/div[2]/div[2]/div[3]/div/form/button" 5000;
    Click "xpath=html/body/div[2]/div[3]/div/button" 5000;
    Click "xpath=html/body/div[2]/div[2]" 5000;
    Click "xpath=html/body/div[2]/nav/div[2]/div/div/div/a[3]" 5000;
    Fill "xpath=html/body/div[2]/div[2]/div[3]/div/form/div/input" "admin@mpdee.co.uk";
    Fill "xpath=html/body/div[2]/div[2]/div[3]/div/form/div[2]/input" "Q-0ww9qe?";
    Click "xpath=html/body/div[2]/div[2]/div[3]/div/form/button" 5000;
    Click "xpath=html/body/div[2]/div[3]/div[2]/div/div[2]/a" 5000;
    Click "xpath=html/body/div[2]/nav/div[2]/div/div/div/a[3]" 5000;
    Click "xpath=html/body/div[2]/div[4]/main/div/div/div/a/button" 5000;
    Click "xpath=html/body/div[2]/div[4]/main/div/div[2]/div[2]/div[2]/div/button" 5000;
    Click "xpath=html/body/div[4]/div/div/div[2]" 5000;
    Click "xpath=html/body/div[2]/div[4]/main/div/div[2]/div[2]/div[2]/div[2]/input" 5000;
    LastPage;
    AssertVisibleOr (Loc "text=Vehicle Inspection Submission Successful" Whole) 1000
      "Test case failed: The vehicle inspection form submission, compliance report generation, or PDF export did not complete successfully as per the test plan.";
    Sleep 5 ] |}.

(** [TC011_RAMS_digital_signature_workflow_with_export_and_email.py] *)
Definition TC011 : Scenario :=
  {| name := "TC011_RAMS_digital_signature_workflow_with_export_and_email";
     entry_url := "http://localhost:3000/fleet";
     steps :=
  [ Click "xpath=html/body/div[2]/nav/div[2]/div/div[2]/div[2]/button" 5000;
    Fill "xpath=html/body/div[2]/div[2]/div[3]/div/form/div/input" "admin@mpdee.co.uk";
    Fill "xpath=html/body/div[2]/div[2]/div[3]/div/form/div[2]/input" "Q-0ww9qe?";
    Click "xpath=html/body/div[2]/div[2]/div[3]/div/form/button" 5000;
    Click "xpath=html/body/div[2]/nav/div[2]/div/div/div/a[4]" 5000;
    Fill "xpath=html/body/div[2]/div[2]/div[3]/div/form/div/input" "admin@mpdee.co.uk";
    Fill "xpath=html/body/div[2]/div[2]/div[3]/div/form/div[2]/input" "Q-0ww9qe?";
    Click "xpath=html/body/div[2]/div[2]/div[3]/div/form/button" 5000;
    Click "xpath=html/body/div[2]/nav/div[2]/div/div/div/a[4]" 5000;
    Click "xpath=html/body/div[2]/div[4]/main/div/div/div/div[2]/a/button" 5000;
    Fill "xpath=html/body/div[2]/div[2]/div[3]/div/form/div/input" "admin@mpdee.co.uk";
    Fill "xpath=html/body/div[2]/div[2]/div[3]/div/form/div[2]/input" "Q-0ww9qe?";
    Click "xpath=html/body/div[2]/div[2]/div[3]/div/form/button" 5000;
    Click "xpath=html/body/div[2]/nav/div[2]/div/div/div/a[4]" 5000;
    Click "xpath=html/body/div[2]/div[4]/main/div/div/div/div[2]/a/button" 5000;
    Click "xpath=html/body/div[2]/div[4]/main/div/div/div/button" 5000;
    Fill "xpath=html/body/div[5]/form/div[2]/div/input" "Test RAMS Document for Digital Signature";
    Fill "xpath=html/body/div[5]/form/div[2]/div[2]/textarea" "This is a test RAMS document to verify digital signature, visitor acknowledgments, PDF export, and email distribution features.";
    Click "xpath=html/body/div[5]/form/div[2]/div[3]/div/button" 5000;
    Click "xpath=html/body/div[5]/form/div[2]/div[3]/div/button" 5000;
    Click "xpath=html/body/div[5]" 5000;
    Click "xpath=html/body/div[5]/form/div[3]/button" 5000;
    LastPage;
    AssertVisibleOr (Loc "text=Digital Signature Verified Successfully" First) 1000
      "Test case failed: The risk assessment method statements support for digital signature capture, visitor acknowledgments, PDF export, and email distribution could not be verified as the test plan execution failed.";
    Sleep 5 ] |}.

(** [TC014_Database_migration_script_execution_without_data_loss.py] *)
Definition TC014 : Scenario :=
  {| name := "TC014_Database_migration_script_execution_without_data_loss";
     entry_url := "http://localhost:3000/fleet";
     steps :=
  [ Click "xpath=html/body/div[2]/nav/div[2]/div/div/div/a" 5000;
    Fill "xpath=html/body/div[2]/div[2]/div[3]/div/form/div/input" "admin@mpdee.co.uk";
    Fill "xpath=html/body/div[2]/div[2]/div[3]/div/form/div[2]/input" "Q-0ww9qe?";
    Click "xpath=html/body/div[2]/div[2]/div[3]/div/form/button" 5000;
    Click "xpath=html/body/div[2]/div[4]/main/div/div[2]/div/a[6]" 5000;
    Click "xpath=html/body/div[2]/div[4]/main/div/div[2]/div[2]/div[3]/div/div/div/div/div/div/div/div[2]/button" 5000;
    Fill "xpath=html/body/div[5]/div[3]/textarea" "Test comment for migration verification.";
    Click "xpath=html/body/div[5]/div[3]/div/button" 5000;
    LastPage;
    AssertVisibleOr (Loc "text=Migration Completed Successfully" First) 1000
      "Test case failed: Database migrations did not complete successfully, legacy data may not be backfilled correctly, or data integrity is compromised as per the test plan.";
    Sleep 5 ] |}.

(** [TC016_Input_validation_on_workshop_task_comments_minimum_length.py] *)
Definition TC016 : Scenario :=
  {| name := "TC016_Input_validation_on_workshop_task_comments_minimum_length";
     entry_url := "http://localhost:3000/fleet";
     steps :=
  [ Click "xpath=html/body/div[2]/nav/div[2]/div/div/div/a" 5000;
    Fill "xpath=html/body/div[2]/div[2]/div[3]/div/form/div/input" "admin@mpdee.co.uk";
    Fill "xpath=html/body/div[2]/div[2]/div[3]/div/form/div[2]/input" "Q-0ww9qe?";
    Click "xpath=html/body/div[2]/div[2]/div[3]/div/form/button" 5000;
    Click "xpath=html/body/div[2]/nav/div[2]/div/div/div/a[7]" 5000;
    Click "xpath=html/body/div[2]/div[4]/main/div/div[2]/div[2]/div[3]/div/div/div/div/div/div/div/div[2]/button" 5000;
    Fill "xpath=html/body/div[5]/div[3]/textarea" "Too short";
    Fill "xpath=html/body/div[5]/div[3]/textarea" "Valid text";
    Click "xpath=html/body/div[5]/div[3]/div/button" 5000;
    Fill "xpath=html/body/div[5]/div[3]/textarea" "This is a longer comment with more than 10 characters.";
    Click "xpath=html/body/div[5]/div[3]/div/button" 5000;
    Click "xpath=html/body/div[5]/div[3]/div/button" 5000;
    LastPage;
    AssertVisible (Loc "text=Electrical system requires inspection and repair." First) 30000;
    AssertVisible (Loc "text=Big crack in windscreen" First) 30000;
    AssertVisible (Loc "text=Windscreen before MOT unless unsafe" First) 30000;
    AssertVisible (Loc "text=Do windscreen before MOT" First) 30000;
    AssertVisible (Loc "text=No comments yet. Add the first note." First) 30000;
    Sleep 5 ] |}.

(** [TC019_Centralized_error_logging_captures_exceptions_and_reports.py] *)
Definition TC019 : Scenario :=
  {| name := "TC019_Centralized_error_logging_captures_exceptions_and_reports";
     entry_url := "http://localhost:3000/fleet";
     steps :=
  [ Click "xpath=html/body/div[2]/nav/div[2]/div/div[2]/div[2]/button" 5000;
    Fill "xpath=html/body/div[2]/div[2]/div[3]/div/form/div/input" "admin@mpdee.co.uk";
    Fill "xpath=html/body/div[2]/div[2]/div[3]/div/form/div[2]/input" "Q-0ww9qe?";
    Click "xpath=html/body/div[2]/div[2]/div[3]/div/form/button" 5000;
    Navigate "http://localhost:3000/api/invalid-endpoint" 10000;
    Sleep 3;
    Navigate "http://localhost:3000/logs" 10000;
    Sleep 3;
    Navigate "http://localhost:3000/dashboard" 10000;
    Sleep 3;
    Fill "xpath=html/body/div[2]/div[2]/div[3]/div/form/div/input" "admin@mpdee.co.uk";
    Fill "xpath=html/body/div[2]/div[2]/div[3]/div/form/div[2]/input" "Q-0ww9qe?";
    Click "xpath=html/body/div[2]/div[2]/div[3]/div/form/button" 5000;
    Click "xpath=html/body/div[2]/div[3]/div[2]/div[3]/div[2]/a" 5000;
    Click "xpath=html/body/div[2]/div[4]/main/div/div[3]/div[2]/div/div/div/div[2]/button[2]" 5000;
    Click "xpath=html/body/div[2]/div[4]/main/div/div[3]/div[2]/div/div[2]/div/div[2]/div/input" 5000;
    Click "xpath=html/body/div[2]/nav/div[2]/div/div/div/a" 5000;
    LastPage;
    AssertVisibleOr (Loc "text=No Errors Detected in Logs" First) 1000
      "Test case failed: The test plan execution has failed because the intentional application error was not recorded in centralized logs, dashboard monitoring UI did not reflect the error event, or the daily email summary did not include the logged error.";
    Sleep 5 ] |}.

Definition scenarios : list Scenario :=
  [TC001; TC002; TC003; TC006; TC010; TC011; TC014; TC016; TC019].

(** ** Observations on traces *)

(** What a Session consists of, in the order the [finally] block closes
    it: the context, the browser, the engine handle. *)
Inductive Resource : Type := Context | Browser | Engine.

Definition teardown_order : list Resource := [Context; Browser; Engine].

Definition resource_eqb (r1 r2 : Resource) : bool :=
  match r1, r2 with
  | Context, Context | Browser, Browser | Engine, Engine => true
  | _, _ => false
  end.

Definition acquires (r : Resource) (c : Call) : bool :=
  match r, c with
  | Engine, PwStart => true
  | Browser, ChromiumLaunch _ _ => true
  | Context, NewContext => true
  | _, _ => false
  end.

Definition released_by (c : Call) : option Resource :=
  match c with
  | ContextClose => Some Context
  | BrowserClose => Some Browser
  | PwStop => Some Engine
  | _ => None
  end.

Definition acquired_by (c : Call) : option Resource :=
  match c with
  | PwStart => Some Engine
  | ChromiumLaunch _ _ => Some Browser
  | NewContext => Some Context
  | _ => None
  end.

Definition is_release (c : Call) : bool :=
  match released_by c with
  | Some _ => true
  | None => false
  end.

Definition releases (r : Resource) (c : Call) : bool :=
  match r, c with
  | Context, ContextClose => true
  | Browser, BrowserClose => true
  | Engine, PwStop => true
  | _, _ => false
  end.

Definition is_acquire (c : Call) : bool :=
  match c with
  | PwStart | ChromiumLaunch _ _ | NewContext => true
  | _ => false
  end.

Definition is_log (c : Call) : bool :=
  match c with
  | Log _ => true
  | _ => false
  end.

(** The best-effort waits: [wait_for_load_state] on the page and on each
    frame. *)
Definition is_load_wait (c : Call) : bool :=
  match c with
  | PageWaitForLoadState _ _ | FrameWaitForLoadState _ _ _ => true
  | _ => false
  end.

(** The interactive calls that run under a timeout: navigation, click and
    fill (the latter under the context's default timeout). *)
Definition is_interactive (c : Call) : bool :=
  match c with
  | Goto _ _ _ | LocatorClick _ _ | LocatorFill _ _ => true
  | _ => false
  end.

Definition is_expect (c : Call) : bool :=
  match c with
  | ExpectToBeVisible _ _ => true
  | _ => false
  end.

(** Calls that are made on the page or the context, hence after the
    Session has been acquired. *)
Definition in_session_call (c : Call) : bool :=
  negb (is_acquire c) && negb (is_release c) && negb (is_log c).

Definition returned (ev : Event) : bool :=
  match snd ev with
  | Returns _ => true
  | Raises _ => false
  end.

(** A resource is acquired once the call that creates it has returned
    (the assignment to the local happens with the return). *)
Definition acquired (r : Resource) (tr : list Event) : bool :=
  existsb (fun ev => acquires r (fst ev) && returned ev) tr.

(** How many times the close call of [r] was made. *)
Definition release_count (r : Resource) (tr : list Event) : nat :=
  length (filter (fun ev => releases r (fst ev)) tr).

(** The resources whose close call was made, in the order of the calls. *)
Fixpoint release_order (tr : list Event) : list Resource :=
  match tr with
  | [] => []
  | ev :: tr' =>
    match released_by (fst ev) with
    | Some r => r :: release_order tr'
    | None => release_order tr'
    end
  end.

(** The resources acquired, in the order of the calls that returned
    them. *)
Fixpoint acquire_order (tr : list Event) : list Resource :=
  match tr with
  | [] => []
  | (c, Returns _) :: tr' =>
    match acquired_by c with
    | Some r => r :: acquire_order tr'
    | None => acquire_order tr'
    end
  | (_, Raises _) :: tr' => acquire_order tr'
  end.

(** No close call raised. *)
Definition teardown_clean (tr : list Event) : bool :=
  forallb (fun ev => negb (is_release (fst ev)) || returned ev) tr.

(** An event that ends the [try] block: a call that raised, unless it is
    a load-state wait raising an [async_api.Error], which the script
    catches and discards. *)
Definition fatal (ev : Event) : bool :=
  match snd ev with
  | Returns _ => false
  | Raises e => negb (is_load_wait (fst ev) && is_async_api_Error e)
  end.

(** A visibility assertion that failed. *)
Definition failed_assertion (ev : Event) : bool :=
  match ev with
  | (ExpectToBeVisible _ _, Raises e) => is_AssertionError e
  | _ => false
  end.

(** A recoverable load-state timeout. *)
Definition recovered_wait (ev : Event) : bool :=
  match snd ev with
  | Returns _ => false
  | Raises e => is_load_wait (fst ev) && is_async_api_Error e
  end.

Definition calls (tr : list Event) : list Call := map fst tr.

Definition held (r : Resource) (st : State) : bool :=
  match r with
  | Context => match context st with Some _ => true | None => false end
  | Browser => match browser st with Some _ => true | None => false end
  | Engine => match pw st with Some _ => true | None => false end
  end.

(** ** Observations on scenarios *)

Definition base_url : string := "http://localhost:3000".

(** The route of a URL under [base_url], when it is one. *)
Definition route_of (url : string) : option string :=
  if String.prefix base_url url
  then Some (String.substring (String.length base_url)
                              (String.length url - String.length base_url) url)
  else None.

Definition entry_route (sc : Scenario) : option string :=
  route_of (entry_url sc).

(** The URLs of the navigations after the entry navigation. *)
Fixpoint later_urls (ss : list Step) : list string :=
  match ss with
  | [] => []
  | Navigate url _ :: ss' => url :: later_urls ss'
  | _ :: ss' => later_urls ss'
  end.

(** The login form: its email field, password field and submit control. *)
Definition email_field : string :=
  "xpath=html/body/div[2]/div[2]/div[3]/div/form/div/input".
Definition password_field : string :=
  "xpath=html/body/div[2]/div[2]/div[3]/div/form/div[2]/input".
Definition submit_control : string :=
  "xpath=html/body/div[2]/div[2]/div[3]/div/form/button".

(** The (email, password) pairs a straight line submits: a fill of the
    email field, a fill of the password field, a click on the submit
    control. *)
Fixpoint logins (ss : list Step) : list (string * string) :=
  match ss with
  | [] => []
  | Fill f1 email :: ss1 =>
    match ss1 with
    | Fill f2 password :: Click b _ :: _ =>
      if (String.eqb f1 email_field && String.eqb f2 password_field
          && String.eqb b submit_control)%bool
      then (email, password) :: logins ss1
      else logins ss1
    | _ => logins ss1
    end
  | _ :: ss1 => logins ss1
  end.

(** Every text typed into the email or the password field. *)
Fixpoint typed_into (field : string) (ss : list Step) : list string :=
  match ss with
  | [] => []
  | Fill f text :: ss' =>
    if String.eqb f field then text :: typed_into field ss'
    else typed_into field ss'
  | _ :: ss' => typed_into field ss'
  end.

Definition pair_eqb (p q : string * string) : bool :=
  (String.eqb (fst p) (fst q) && String.eqb (snd p) (snd q))%bool.

Fixpoint dedup (ps : list (string * string)) : list (string * string) :=
  match ps with
  | [] => []
  | p :: ps' =>
    if existsb (pair_eqb p) ps' then dedup ps' else p :: dedup ps'
  end.

(** The diagnostics a straight line can raise itself. *)
Fixpoint diagnostics (ss : list Step) : list string :=
  match ss with
  | [] => []
  | AssertVisibleOr _ _ d :: ss' => d :: diagnostics ss'
  | _ :: ss' => diagnostics ss'
  end.

(** No assertion of the straight line is left without a handler. *)
Fixpoint all_wrapped (ss : list Step) : bool :=
  match ss with
  | [] => true
  | AssertVisible _ _ :: _ => false
  | _ :: ss' => all_wrapped ss'
  end.


(** The distinct login pairs of a set of scenarios. *)
Definition credential_pairs (scs : list Scenario) : list (string * string) :=
  dedup (flat_map (fun sc => logins (steps sc)) scs).

(** ** Comparing replies *)

Definition class_eqb (k1 k2 : ExnClass) : bool :=
  match k1, k2 with
  | PlaywrightError, PlaywrightError
  | PlaywrightTimeoutError, PlaywrightTimeoutError
  | AssertionError, AssertionError
  | OtherException, OtherException => true
  | _, _ => false
  end.

Definition reply_eqb (r1 r2 : Reply) : bool :=
  match r1, r2 with
  | Returns v1, Returns v2 => Nat.eqb v1 v2
  | Raises e1, Raises e2 =>
      class_eqb (exn_class e1) (exn_class e2)
      && String.eqb (exn_msg e1) (exn_msg e2)
  | _, _ => false
  end.

(** [env] answers the calls of [tr], numbered from [n], as recorded. *)
Fixpoint agreesb_from (env : Env) (n : nat) (tr : list Event) : bool :=
  match tr with
  | [] => true
  | (c, r) :: tr' => reply_eqb (env n c) r && agreesb_from env (S n) tr'
  end.

Definition agreesb (env : Env) (tr : list Event) : bool :=
  agreesb_from env 0 tr.

(** The calls that act on the user interface, with their locators, inputs
    and timeouts. *)
Definition is_ui (c : Call) : bool :=
  match c with
  | Goto _ _ _ | LocatorClick _ _ | LocatorFill _ _ | ExpectToBeVisible _ _ =>
      true
  | _ => false
  end.

Definition ui_calls (tr : list Event) : list Call :=
  filter is_ui (calls tr).

Definition step_ui (s : Step) : list Call :=
  match s with
  | Click xpath timeout => [LocatorClick (Loc xpath Nth0) timeout]
  | Fill xpath text => [LocatorFill (Loc xpath Nth0) text]
  | Navigate url timeout => [Goto url None timeout]
  | AssertVisible l timeout => [ExpectToBeVisible l timeout]
  | AssertVisibleOr l timeout _ => [ExpectToBeVisible l timeout]
  | Sleep _ | LastPage => []
  end.

(** The user-interface calls of a scenario, as its text lists them. *)
Definition planned_ui (sc : Scenario) : list Call :=
  Goto (entry_url sc) (Some "commit") 10000 :: flat_map step_ui (steps sc).

(** ** Environments used in the examples *)

(** Every call returns; the page has one frame. *)
Definition all_ok : Env := fun _ _ => Returns 1%nat.

(** The [k]-th call raises [e], every other call returns. *)
Definition raise_at (k : nat) (e : Exn) : Env :=
  fun n _ => if Nat.eqb n k then Raises e else Returns 1%nat.

(** The calls selected by [p] raise [e], every other call returns. *)
Definition raise_on (p : Call -> bool) (e : Exn) : Env :=
  fun _ c => if p c then Raises e else Returns 1%nat.

Definition timeout_error : Exn :=
  mkExn PlaywrightTimeoutError "Timeout 5000ms exceeded.".

Definition target_closed : Exn :=
  mkExn PlaywrightError "Target page, context or browser has been closed".

Definition not_visible (detail : string) : Exn :=
  mkExn AssertionError detail.

Definition is_context_close (c : Call) : bool :=
  match c with
  | ContextClose => true
  | _ => false
  end.

(** Every assertion fails with the library's message [detail], and closing
    the context fails as well. *)
Definition failing_assert_and_close (detail : string) : Env :=
  fun _ c =>
    if is_expect c then Raises (not_visible detail)
    else if is_context_close c then Raises target_closed
    else Returns 1%nat.

(** ** Invariants of the [try] block *)

(** The remainder of the [try] block once the three locals are bound. *)
Definition in_session (env : Env) (sc : Scenario) : M unit :=
  (call_ env (SetDefaultTimeout 5000) ;;
   call_ env NewPage ;;
   call_ env (Goto (entry_url sc) (Some "commit") 10000) ;;
   best_effort env (PageWaitForLoadState "domcontentloaded" 3000) ;;
   n <- call env PageFrames ;;
   for_each (seq 0 n)
     (fun i => best_effort env
                 (FrameWaitForLoadState i "domcontentloaded" 3000)) ;;
   exec_steps env (steps sc))%run.

Definition quiet (ev : Event) : bool :=
  negb (is_release (fst ev)) && negb (is_log (fst ev)).

(** The locals mirror the trace. *)
Definition vars_ok (st : State) : Prop :=
  forall r, held r st = acquired r (trace st).

(** Nothing is done on the page or the context before all three
    resources are there. *)
Definition session_first (tr : list Event) : Prop :=
  forall ev, In ev tr -> in_session_call (fst ev) = true ->
  forall r, acquired r tr = true.

(** Acquisition goes engine, browser, context: the reverse of the order
    in which the [finally] block closes. *)
Definition acquired_in_order (tr : list Event) : Prop :=
  exists j, acquire_order tr = firstn j (rev teardown_order).

Definition Good (st : State) : Prop :=
  vars_ok st /\ session_first (trace st) /\ forallb quiet (trace st) = true /\
  acquired_in_order (trace st).

Definition Live (tr : list Event) : Prop :=
  forallb (fun ev => negb (fatal ev)) tr = true.

(** How the exception [e] that leaves the [try] block relates to the
    event that ended it: it is the exception of the call, or the
    diagnostic the handler of a failed assertion raises in its place. *)
Definition Cause (S : list Step) (last : Event) (e : Exn) : Prop :=
  match last with
  | (c, Raises e0) =>
      (e = e0 /\
       forall l t, c = ExpectToBeVisible l t -> is_AssertionError e0 = true ->
                   In (AssertVisible l t) S)
      \/
      (exists l t d, c = ExpectToBeVisible l t /\ is_AssertionError e0 = true /\
                     e = mkExn AssertionError d /\ In (AssertVisibleOr l t d) S)
  | (_, Returns _) => False
  end.

Definition Dead (S : list Step) (tr : list Event) (e : Exn) : Prop :=
  exists pre last,
    tr = pre ++ [last] /\ Live pre /\ fatal last = true /\ Cause S last e.

Definition Running (st : State) : Prop :=
  Good st /\ (forall r, held r st = true) /\ Live (trace st).

Definition Post {A : Type} (S : list Step) (r : Result A) (st : State) : Prop :=
  match r with
  | inr _ => Running st
  | inl e => Good st /\ Dead S (trace st) e
  end.

Definition BodyPost {A : Type} (S : list Step) (r : Result A) (st : State)
  : Prop :=
  Good st /\
  match r with
  | inr _ => Live (trace st)
  | inl e => Dead S (trace st) e
  end.

Definition Tail {A : Type} (S : list Step) (m : M A) : Prop :=
  forall st, Running st -> Post S (fst (m st)) (snd (m st)).

(** ** Dependence on the environment *)

(** [env] gives the replies recorded in [tr]. *)
Definition agrees (env : Env) (tr : list Event) : Prop :=
  forall n c r, nth_error tr n = Some (c, r) -> env n c = r.

(** A computation only extends the trace, and its outcome is determined
    by the replies it has recorded. *)
Definition Det {A : Type} (m : Env -> M A) : Prop :=
  forall env1 env2 st,
    (exists d, trace (snd (m env1 st)) = trace st ++ d) /\
    (agrees env2 (trace (snd (m env1 st))) -> m env2 st = m env1 st).

(** A computation makes the user-interface calls [P], in this order, or
    a prefix of them when it raises. *)
Definition Emits {A : Type} (P : list Call) (m : M A) : Prop :=
  forall st,
  exists d, trace (snd (m st)) = trace st ++ d /\
            match fst (m st) with
            | inr _ => ui_calls d = P
            | inl _ => exists k, ui_calls d = firstn k P
            end.

(** ** The calls of a script, in the order of its text *)

(** The calls one statement of the straight line makes. *)
Definition step_calls (s : Step) : list Call :=
  match s with
  | Click xpath timeout =>
      [ContextPages; WaitForTimeout settle_delay;
       LocatorClick (Loc xpath Nth0) timeout]
  | Fill xpath text =>
      [ContextPages; WaitForTimeout settle_delay;
       LocatorFill (Loc xpath Nth0) text]
  | Navigate url timeout => [Goto url None timeout]
  | Sleep secs => [AsyncioSleep secs]
  | LastPage => [ContextPages]
  | AssertVisible l timeout => [ExpectToBeVisible l timeout]
  | AssertVisibleOr l timeout _ => [ExpectToBeVisible l timeout]
  end.

(** The calls of the [try] block up to the first load-state wait. *)
Definition opening_calls (sc : Scenario) : list Call :=
  [PwStart; ChromiumLaunch true launch_args; NewContext;
   SetDefaultTimeout 5000; NewPage;
   Goto (entry_url sc) (Some "commit") 10000;
   PageWaitForLoadState "domcontentloaded" 3000].

(** The loop over [page.frames], for a page of [n] frames. *)
Definition frame_waits (n : nat) : list Call :=
  map (fun i => FrameWaitForLoadState i "domcontentloaded" 3000) (seq 0 n).

(** The calls of the [try] block when [page.frames] has [n] elements. *)
Definition script_calls (n : nat) (sc : Scenario) : list Call :=
  opening_calls sc ++ PageFrames :: frame_waits n
  ++ flat_map step_calls (steps sc).

(** The number of frames the page reported, 0 before it is asked. *)
Fixpoint frames_reported (tr : list Event) : nat :=
  match tr with
  | [] => 0
  | (PageFrames, Returns v) :: _ => v
  | _ :: tr' => frames_reported tr'
  end.

Definition close_call (r : Resource) : Call :=
  match r with
  | Context => ContextClose
  | Browser => BrowserClose
  | Engine => PwStop
  end.

Definition is_page_frames (c : Call) : bool :=
  match c with
  | PageFrames => true
  | _ => false
  end.

Definition is_frame_wait (c : Call) : bool :=
  match c with
  | FrameWaitForLoadState _ _ _ => true
  | _ => false
  end.

(** Clicks and fills: the actions the scripts delay. *)
Definition is_action (c : Call) : bool :=
  match c with
  | LocatorClick _ _ | LocatorFill _ _ => true
  | _ => false
  end.

(** The calls made once per run to set the Session up. *)
Definition is_setup (c : Call) : bool :=
  match c with
  | PwStart | ChromiumLaunch _ _ | NewContext | SetDefaultTimeout _
  | NewPage => true
  | _ => false
  end.

(** A computation makes the calls [P], or a prefix of them when it
    raises. *)
Definition Follows {A : Type} (P : list Call) (m : M A) : Prop :=
  forall st,
  exists d, trace (snd (m st)) = trace st ++ d /\
            match fst (m st) with
            | inr _ => calls d = P
            | inl _ => exists k, calls d = firstn k P
            end.

(** Every click and fill comes right after the lookup of the last page
    and the fixed delay, both completed. *)
Definition settled (tr : list Event) : Prop :=
  forall n c r,
    nth_error tr n = Some (c, r) -> is_action c = true ->
    exists m v1 v2,
      n = S (S m) /\
      nth_error tr m = Some (ContextPages, Returns v1) /\
      nth_error tr (S m) = Some (WaitForTimeout settle_delay, Returns v2).

(** A computation keeps a property of the trace. *)
Definition Keeps {A : Type} (I : list Event -> Prop) (m : M A) : Prop :=
  forall st, I (trace st) -> I (trace (snd (m st))).

(** An event of the [try] block that ended it. *)
Definition unrecovered (ev : Event) : bool :=
  fatal ev && negb (is_release (fst ev)).

(** ** Lists *)

Lemma forallb_snoc {A : Type} (p : A -> bool) (l : list A) (x : A) :
  forallb p (l ++ [x]) = forallb p l && p x.
Proof.
  rewrite forallb_app. simpl. rewrite andb_true_r. reflexivity.
Qed.

Lemma acquired_app (r : Resource) (l1 l2 : list Event) :
  acquired r (l1 ++ l2) = acquired r l1 || acquired r l2.
Proof. unfold acquired. apply existsb_app. Qed.

Lemma release_order_app (l1 l2 : list Event) :
  release_order (l1 ++ l2) = release_order l1 ++ release_order l2.
Proof.
  induction l1 as [|ev l1 IH]; simpl; [reflexivity|].
  destruct (released_by (fst ev)); simpl; rewrite IH; reflexivity.
Qed.

Lemma acquire_order_app (l1 l2 : list Event) :
  acquire_order (l1 ++ l2) = acquire_order l1 ++ acquire_order l2.
Proof.
  induction l1 as [| [c [v | e]] l1 IH]; simpl; [reflexivity | | exact IH].
  destruct (acquired_by c); simpl; rewrite IH; reflexivity.
Qed.

Lemma releases_acquire_order (td : list Event) :
  forallb (fun ev => is_release (fst ev)) td = true -> acquire_order td = [].
Proof.
  induction td as [| [c rep] td IH]; simpl; [reflexivity |].
  intros H. apply andb_true_iff in H. destruct H as [Hr Htd].
  destruct rep; [| exact (IH Htd)].
  destruct c; simpl in *; try discriminate Hr; exact (IH Htd).
Qed.

Lemma release_count_app (r : Resource) (l1 l2 : list Event) :
  release_count r (l1 ++ l2) = (release_count r l1 + release_count r l2)%nat.
Proof.
  unfold release_count. rewrite filter_app, length_app. reflexivity.
Qed.

Lemma acquires_is_acquire (r : Resource) (c : Call) :
  acquires r c = true -> is_acquire c = true.
Proof. destruct r, c; simpl; intros H; try discriminate H; reflexivity. Qed.

Lemma releases_is_release (r : Resource) (c : Call) :
  releases r c = true -> is_release c = true.
Proof. destruct r, c; simpl; intros H; try discriminate H; reflexivity. Qed.

Lemma quiet_no_release (tr : list Event) (r : Resource) :
  forallb quiet tr = true -> release_count r tr = 0%nat.
Proof.
  unfold release_count. induction tr as [|ev tr IH]; simpl; [reflexivity|].
  intros H. apply andb_true_iff in H. destruct H as [Hq Htr].
  destruct (releases r (fst ev)) eqn:E.
  - apply releases_is_release in E. unfold quiet in Hq. rewrite E in Hq.
    discriminate.
  - auto.
Qed.

Lemma quiet_release_order (tr : list Event) :
  forallb quiet tr = true -> release_order tr = [].
Proof.
  induction tr as [|ev tr IH]; simpl; [reflexivity|].
  intros H. apply andb_true_iff in H. destruct H as [Hq Htr].
  unfold quiet, is_release in Hq.
  destruct (released_by (fst ev)); [discriminate | auto].
Qed.

Lemma releases_not_acquired (r : Resource) (td : list Event) :
  forallb (fun ev => is_release (fst ev)) td = true -> acquired r td = false.
Proof.
  unfold acquired. induction td as [|ev td IH]; simpl; [reflexivity|].
  intros H. apply andb_true_iff in H. destruct H as [Hr Htd].
  rewrite (IH Htd), orb_false_r.
  destruct ev as [c rep].
  destruct r, c; simpl in *; try reflexivity; discriminate Hr.
Qed.

(** Where an element sits in a concatenation. *)
Lemma locate {A : Type} (l1 l2 l3 l4 : list A) (x : A) :
  l1 ++ x :: l2 = l3 ++ l4 ->
  (exists l, l3 = l1 ++ x :: l /\ l2 = l ++ l4) \/
  (exists l, l1 = l3 ++ l /\ l4 = l ++ x :: l2).
Proof.
  revert l3. induction l1 as [|a l1 IH]; intros l3 H.
  - destruct l3 as [|b l3]; simpl in H.
    + right. exists []. split; [reflexivity | symmetry; exact H].
    + injection H as -> H. left. exists l3. split; [reflexivity | exact H].
  - destruct l3 as [|b l3]; simpl in H.
    + right. exists (a :: l1). split; [reflexivity | symmetry; exact H].
    + injection H as -> H. destruct (IH _ H) as [[l [-> ->]] | [l [-> ->]]].
      * left. exists l. split; reflexivity.
      * right. exists l. split; reflexivity.
Qed.

(** ** The [try] block keeps its invariants *)

Arguments in_session : simpl never.

Lemma held_record (r : Resource) (ev : Event) (st : State) :
  held r (record ev st) = held r st.
Proof. destruct r; reflexivity. Qed.

Lemma in_session_quiet (c : Call) (rep : Reply) :
  in_session_call c = true -> quiet (c, rep) = true.
Proof.
  unfold in_session_call, quiet. simpl. intros H.
  apply andb_true_iff in H. destruct H as [H Hl].
  apply andb_true_iff in H. destruct H as [_ Hr].
  rewrite Hr, Hl. reflexivity.
Qed.

Lemma record_good (st : State) (c : Call) (rep : Reply) :
  Running st -> in_session_call c = true ->
  Good (record (c, rep) st) /\ (forall r, held r (record (c, rep) st) = true).
Proof.
  intros [[Hv [Hs [Hq [j Hj]]]] [Hh Hl]] Hc.
  assert (Hall : forall r, acquired r (trace st) = true).
  { intros r. rewrite <- Hv. apply Hh. }
  split; [split; [| split; [| split]] |].
  - intros r. rewrite held_record. simpl. rewrite acquired_app, Hall, Hh.
    reflexivity.
  - intros ev _ _ r. simpl. rewrite acquired_app, Hall. reflexivity.
  - simpl. rewrite forallb_snoc, Hq, (in_session_quiet c rep Hc). reflexivity.
  - exists j.
    assert (Hn : acquire_order [(c, rep)] = []).
    { destruct rep; [| reflexivity].
      destruct c; simpl in *; try discriminate Hc; reflexivity. }
    change (trace (record (c, rep) st)) with (trace st ++ [(c, rep)]).
    rewrite acquire_order_app, Hj, Hn. apply app_nil_r.
  - intros r. rewrite held_record. apply Hh.
Qed.

Lemma record_running (st : State) (c : Call) (rep : Reply) :
  Running st -> in_session_call c = true -> fatal (c, rep) = false ->
  Running (record (c, rep) st).
Proof.
  intros Hrun Hc Hf. destruct (record_good st c rep Hrun Hc) as [Hg Hh].
  split; [exact Hg | split; [exact Hh |]].
  destruct Hrun as [_ [_ Hl]]. unfold Live in *. simpl.
  rewrite forallb_snoc, Hl, Hf. reflexivity.
Qed.

Lemma record_dead (S : list Step) (st : State) (c : Call) (e e' : Exn) :
  Running st -> in_session_call c = true -> fatal (c, Raises e) = true ->
  Cause S (c, Raises e) e' ->
  Good (record (c, Raises e) st) /\ Dead S (trace (record (c, Raises e) st)) e'.
Proof.
  intros Hrun Hc Hf Hcause.
  destruct (record_good st c (Raises e) Hrun Hc) as [Hg _].
  split; [exact Hg |].
  exists (trace st), (c, Raises e).
  destruct Hrun as [_ [_ Hl]]. auto.
Qed.

Section TryBlock.

Variable env : Env.

Lemma tail_ret {A : Type} (S : list Step) (a : A) : Tail S (ret a).
Proof. intros st Hrun. exact Hrun. Qed.

Lemma tail_bind {A B : Type} (S : list Step) (m : M A) (k : A -> M B) :
  Tail S m -> (forall a, Tail S (k a)) -> Tail S (bind m k).
Proof.
  intros Hm Hk st Hrun. unfold bind. specialize (Hm st Hrun).
  destruct (m st) as [[e | a] st']; simpl in *.
  - exact Hm.
  - apply Hk. exact Hm.
Qed.

Lemma tail_call (S : list Step) (c : Call) :
  in_session_call c = true -> is_load_wait c = false -> is_expect c = false ->
  Tail S (call env c).
Proof.
  intros Hc Hw He st Hrun. unfold call.
  destruct (env (length (trace st)) c) as [v | e]; simpl.
  - apply record_running; auto.
  - apply record_dead; auto.
    + unfold fatal. simpl. rewrite Hw. reflexivity.
    + left. split; [reflexivity |]. intros l t ->. discriminate He.
Qed.

Lemma tail_call_ (S : list Step) (c : Call) :
  in_session_call c = true -> is_load_wait c = false -> is_expect c = false ->
  Tail S (call_ env c).
Proof.
  intros Hc Hw He. unfold call_. apply tail_bind.
  - apply tail_call; assumption.
  - intros _. apply tail_ret.
Qed.

Lemma tail_best_effort (S : list Step) (c : Call) :
  is_load_wait c = true -> Tail S (best_effort env c).
Proof.
  intros Hw st Hrun.
  assert (Hc : in_session_call c = true) by (destruct c; try discriminate Hw; reflexivity).
  unfold best_effort, try_except, call_, bind, call, ret.
  destruct (env (length (trace st)) c) as [v | e]; simpl.
  - apply record_running; auto.
  - destruct (is_async_api_Error e) eqn:Ee; simpl.
    + apply record_running; auto. unfold fatal. simpl. rewrite Hw, Ee.
      reflexivity.
    + apply record_dead; auto.
      * unfold fatal. simpl. rewrite Hw, Ee. reflexivity.
      * left. split; [reflexivity |]. intros l t ->. discriminate Hw.
Qed.

Lemma tail_assert_bare (S : list Step) (l : Locator) (t : Z) :
  In (AssertVisible l t) S -> Tail S (call_ env (ExpectToBeVisible l t)).
Proof.
  intros Hin st Hrun. unfold call_, bind, call, ret.
  destruct (env (length (trace st)) (ExpectToBeVisible l t)) as [v | e]; simpl.
  - apply record_running; auto.
  - apply record_dead; auto. left. split; [reflexivity |].
    intros l' t' Heq _. injection Heq as <- <-. exact Hin.
Qed.

Lemma tail_assert_wrapped (S : list Step) (l : Locator) (t : Z) (d : string) :
  In (AssertVisibleOr l t d) S ->
  Tail S (try_except (call_ env (ExpectToBeVisible l t)) is_AssertionError
                     (raise (mkExn AssertionError d))).
Proof.
  intros Hin st Hrun. unfold try_except, call_, bind, call, ret, raise.
  destruct (env (length (trace st)) (ExpectToBeVisible l t)) as [v | e]; simpl.
  - apply record_running; auto.
  - destruct (is_AssertionError e) eqn:Ee; simpl.
    + apply record_dead; auto. right. exists l, t, d. auto.
    + apply record_dead; auto. left. split; [reflexivity |].
      intros l' t' _ Ha. rewrite Ha in Ee. discriminate Ee.
Qed.

Lemma tail_exec_step (S : list Step) (s : Step) :
  In s S -> Tail S (exec_step env s).
Proof.
  intros Hin. destruct s; simpl.
  - do 2 (apply tail_bind; [apply tail_call_; reflexivity | intros _]).
    apply tail_call_; reflexivity.
  - do 2 (apply tail_bind; [apply tail_call_; reflexivity | intros _]).
    apply tail_call_; reflexivity.
  - apply tail_call_; reflexivity.
  - apply tail_call_; reflexivity.
  - apply tail_call_; reflexivity.
  - apply tail_assert_bare. exact Hin.
  - apply tail_assert_wrapped. exact Hin.
Qed.

Lemma tail_for_each {A : Type} (S : list Step) (xs : list A) (f : A -> M unit) :
  (forall x, Tail S (f x)) -> Tail S (for_each xs f).
Proof.
  intros Hf. induction xs as [| x xs IH]; simpl.
  - apply tail_ret.
  - apply tail_bind; [apply Hf | intros _; exact IH].
Qed.

Lemma tail_exec_steps (S ss : list Step) :
  incl ss S -> Tail S (exec_steps env ss).
Proof.
  unfold exec_steps. induction ss as [| s ss IH]; intros Hincl; simpl.
  - apply tail_ret.
  - apply tail_bind.
    + apply tail_exec_step. apply Hincl. left. reflexivity.
    + intros _. apply IH. intros x Hx. apply Hincl. right. exact Hx.
Qed.

Lemma tail_in_session (sc : Scenario) : Tail (steps sc) (in_session env sc).
Proof.
  unfold in_session.
  apply tail_bind; [apply tail_call_; reflexivity | intros _].
  apply tail_bind; [apply tail_call_; reflexivity | intros _].
  apply tail_bind; [apply tail_call_; reflexivity | intros _].
  apply tail_bind; [apply tail_best_effort; reflexivity | intros _].
  apply tail_bind; [apply tail_call; reflexivity | intros n].
  apply tail_bind.
  - apply tail_for_each. intros i. apply tail_best_effort. reflexivity.
  - intros _. apply tail_exec_steps. apply incl_refl.
Qed.

Lemma body_eq (sc : Scenario) :
  body env sc =
  (p <- call env PwStart ;; set_pw p ;;
   b <- call env (ChromiumLaunch true launch_args) ;; set_browser b ;;
   c <- call env NewContext ;; set_context c ;;
   in_session env sc)%run.
Proof. reflexivity. Qed.

Lemma post_body_post {A : Type} (S : list Step) (r : Result A) (st : State) :
  Post S r st -> BodyPost S r st.
Proof.
  destruct r as [e | a]; simpl.
  - intros H. exact H.
  - intros [Hg [_ Hl]]. split; assumption.
Qed.

Lemma bind_call_returns {B : Type} (c : Call) (k : nat -> M B) (st : State)
  (v : nat) :
  env (length (trace st)) c = Returns v ->
  bind (call env c) k st = k v (record (c, Returns v) st).
Proof. intros H. unfold bind, call. rewrite H. reflexivity. Qed.

Lemma bind_call_raises {B : Type} (c : Call) (k : nat -> M B) (st : State)
  (e : Exn) :
  env (length (trace st)) c = Raises e ->
  bind (call env c) k st = (inl e, record (c, Raises e) st).
Proof. intros H. unfold bind, call. rewrite H. reflexivity. Qed.

Lemma bind_set_pw {B : Type} (v : nat) (k : unit -> M B) (st : State) :
  bind (set_pw v) k st =
  k tt {| pw := Some v; browser := browser st; context := context st;
          trace := trace st |}.
Proof. reflexivity. Qed.

Lemma bind_set_browser {B : Type} (v : nat) (k : unit -> M B) (st : State) :
  bind (set_browser v) k st =
  k tt {| pw := pw st; browser := Some v; context := context st;
          trace := trace st |}.
Proof. reflexivity. Qed.

Lemma bind_set_context {B : Type} (v : nat) (k : unit -> M B) (st : State) :
  bind (set_context v) k st =
  k tt {| pw := pw st; browser := browser st; context := Some v;
          trace := trace st |}.
Proof. reflexivity. Qed.

Ltac cause_of_call :=
  left; split; [reflexivity | intros ? ? H; discriminate H].

(** The outcome of the [try] block and its trace, for every scenario and
    every environment. *)
Lemma body_post (sc : Scenario) :
  BodyPost (steps sc) (fst (run_body env sc)) (snd (run_body env sc)).
Proof.
  unfold run_body. rewrite body_eq.
  destruct (env 0%nat PwStart) as [v0 | e0] eqn:E0.
  2: { rewrite bind_call_raises with (e := e0); [| exact E0]. simpl.
       split; [split; [| split; [| split]] |].
       - intros r; destruct r; reflexivity.
       - intros ev [<- | []] H; discriminate H.
       - reflexivity.
       - exists 0%nat. reflexivity.
       - exists [], (PwStart, Raises e0). repeat split. cause_of_call. }
  rewrite bind_call_returns with (v := v0); [| exact E0].
  rewrite bind_set_pw.
  destruct (env 1%nat (ChromiumLaunch true launch_args)) as [v1 | e1] eqn:E1.
  2: { rewrite bind_call_raises with (e := e1); [| exact E1]. simpl.
       split; [split; [| split; [| split]] |].
       - intros r; destruct r; reflexivity.
       - intros ev [<- | [<- | []]] H; discriminate H.
       - reflexivity.
       - exists 1%nat. reflexivity.
       - exists [(PwStart, Returns v0)],
           (ChromiumLaunch true launch_args, Raises e1).
         repeat split. cause_of_call. }
  rewrite bind_call_returns with (v := v1); [| exact E1].
  rewrite bind_set_browser.
  destruct (env 2%nat NewContext) as [v2 | e2] eqn:E2.
  2: { rewrite bind_call_raises with (e := e2); [| exact E2]. simpl.
       split; [split; [| split; [| split]] |].
       - intros r; destruct r; reflexivity.
       - intros ev [<- | [<- | [<- | []]]] H; discriminate H.
       - reflexivity.
       - exists 2%nat. reflexivity.
       - exists [(PwStart, Returns v0);
                 (ChromiumLaunch true launch_args, Returns v1)],
           (NewContext, Raises e2).
         repeat split. cause_of_call. }
  rewrite bind_call_returns with (v := v2); [| exact E2].
  rewrite bind_set_context.
  apply post_body_post. apply tail_in_session.
  split; [split; [| split; [| split]] | split].
  - intros r; destruct r; reflexivity.
  - intros ev _ _ r; destruct r; reflexivity.
  - reflexivity.
  - exists 3%nat. reflexivity.
  - intros r; destruct r; reflexivity.
  - reflexivity.
Qed.

End TryBlock.

(** ** The [finally] block *)

Lemma release_count_order (r : Resource) (tr : list Event) :
  release_count r tr = length (filter (resource_eqb r) (release_order tr)).
Proof.
  unfold release_count. induction tr as [| [c rep] tr IH]; [reflexivity |].
  destruct r, c; simpl in *; rewrite ?IH; reflexivity.
Qed.

Lemma teardown_order_counts (f : Resource -> bool) (k : nat) (r : Resource) :
  (length (filter (resource_eqb r) (firstn k (filter f teardown_order))) <= 1)%nat.
Proof.
  unfold teardown_order. simpl.
  destruct (f Context), (f Browser), (f Engine), r;
    destruct k as [| [| [| k]]]; simpl; rewrite ?firstn_nil; simpl; lia.
Qed.

Lemma teardown_order_full (f : Resource -> bool) (r : Resource) :
  f r = true ->
  length (filter (resource_eqb r) (filter f teardown_order)) = 1%nat.
Proof.
  unfold teardown_order. simpl. intros H.
  destruct r; rewrite H;
    destruct (f Context), (f Browser), (f Engine);
    try discriminate H; reflexivity.
Qed.

Lemma quiet_clean (tr : list Event) :
  forallb quiet tr = true -> teardown_clean tr = true.
Proof.
  unfold teardown_clean. induction tr as [| ev tr IH]; simpl; [reflexivity |].
  intros H. apply andb_true_iff in H. destruct H as [Hq Htr].
  rewrite (IH Htr). unfold quiet in Hq.
  apply andb_true_iff in Hq. destruct Hq as [Hq _]. rewrite Hq. reflexivity.
Qed.

Section Finally.

Variable env : Env.

Ltac reply_cases :=
  repeat match goal with
         | |- context [env ?n ?c] =>
           let E := fresh "E" in destruct (env n c) eqn:E; simpl
         end.

Ltac in_cases :=
  repeat match goal with
         | H : _ \/ _ |- _ => destruct H
         | H : False |- _ => destruct H
         | H : (_, _) = (_, _) |- _ => inversion H; clear H; subst
         end.

(** What the [finally] block does from any state of the locals. *)
Lemma teardown_spec (st : State) :
  exists td,
    trace (snd (teardown env st)) = trace st ++ td /\
    forallb (fun ev => is_release (fst ev)) td = true /\
    (exists k, release_order td =
               firstn k (filter (fun r => held r st) teardown_order)) /\
    (held Context st = true -> release_count Context td = 1%nat) /\
    (teardown_clean td = true ->
     fst (teardown env st) = inr tt /\
     release_order td = filter (fun r => held r st) teardown_order) /\
    (forall c e, In (c, Raises e) td -> fst (teardown env st) = inl e) /\
    (forall r, held r (snd (teardown env st)) = held r st).
Proof.
  unfold teardown, when_set, call_, held, teardown_order.
  unfold bind, get, call, ret.
  destruct st as [[p |] [b |] [c |] tr];
    simpl; reply_cases;
    eexists;
    (split; [first [ symmetry; apply app_nil_r
                   | rewrite <- ?app_assoc; reflexivity ] |]);
    (split; [reflexivity |]);
    (split; [first [ exists 0%nat; reflexivity | exists 1%nat; reflexivity
                   | exists 2%nat; reflexivity | exists 3%nat; reflexivity ] |]);
    (split; [intros H; first [discriminate H | reflexivity] |]);
    (split; [intros H; first [discriminate H | split; reflexivity] |]);
    (split; [| intros r; destruct r; reflexivity]);
    intros c' e' Hin; simpl in Hin; in_cases; reflexivity.
Qed.

Lemma run_test_eq (sc : Scenario) :
  run_test env sc =
  match teardown env (snd (run_body env sc)) with
  | (inl e, st) => (inl e, st)
  | (inr _, st) => (fst (run_body env sc), st)
  end.
Proof.
  unfold run_test, try_finally, run_body.
  destruct (body env sc init) as [r st]. reflexivity.
Qed.

(** The shape of every run: the events of the [try] block, then the
    close calls of the [finally] block. *)
Lemma run_shape (sc : Scenario) :
  exists td,
    final_trace env sc = trace (snd (run_body env sc)) ++ td /\
    BodyPost (steps sc) (fst (run_body env sc)) (snd (run_body env sc)) /\
    forallb (fun ev => is_release (fst ev)) td = true /\
    (exists k, release_order td =
               firstn k (filter (fun r => acquired r (final_trace env sc))
                                teardown_order)) /\
    (acquired Context (final_trace env sc) = true ->
     release_count Context td = 1%nat) /\
    (teardown_clean td = true ->
     fst (run_test env sc) = fst (run_body env sc) /\
     release_order td = filter (fun r => acquired r (final_trace env sc))
                               teardown_order) /\
    (forall c e, In (c, Raises e) td -> fst (run_test env sc) = inl e) /\
    (forall e, fst (run_body env sc) = inl e ->
               exists e', fst (run_test env sc) = inl e') /\
    (forall r, held r (snd (run_test env sc))
               = acquired r (final_trace env sc)).
Proof.
  pose proof (body_post env sc) as Hb.
  destruct (teardown_spec (snd (run_body env sc)))
    as [td [Htr [Hrel [Hord [Hctx [Hclean [Hraise Hheld]]]]]]].
  assert (Hacq : forall r, acquired r (final_trace env sc)
                           = held r (snd (run_body env sc))).
  { intros r. unfold final_trace. rewrite run_test_eq.
    destruct Hb as [[Hv _] _]. rewrite Hv.
    destruct (teardown env (snd (run_body env sc))) as [[e | u] st2];
      simpl in *; rewrite Htr, acquired_app,
                  (releases_not_acquired r td Hrel), orb_false_r;
      reflexivity. }
  assert (Hfil : filter (fun r => acquired r (final_trace env sc)) teardown_order
                 = filter (fun r => held r (snd (run_body env sc))) teardown_order).
  { apply filter_ext. exact Hacq. }
  exists td. rewrite Hfil.
  split; [| split; [exact Hb | split; [exact Hrel | split; [exact Hord |]]]].
  - unfold final_trace. rewrite run_test_eq.
    destruct (teardown env (snd (run_body env sc))) as [[e | u] st2];
      simpl in *; exact Htr.
  - split; [| split; [| split; [| split]]].
    + rewrite Hacq. exact Hctx.
    + intros Hc. destruct (Hclean Hc) as [Hr Ho]. split; [| exact Ho].
      rewrite run_test_eq.
      destruct (teardown env (snd (run_body env sc))) as [[e | u] st2];
        simpl in *; [discriminate Hr | reflexivity].
    + intros c e Hin. specialize (Hraise c e Hin). rewrite run_test_eq.
      destruct (teardown env (snd (run_body env sc))) as [[e' | u] st2];
        simpl in *; [exact Hraise | discriminate Hraise].
    + intros e He. rewrite run_test_eq.
      destruct (teardown env (snd (run_body env sc))) as [[e' | u] st2];
        simpl; [exists e' | exists e]; [reflexivity | exact He].
    + intros r. rewrite Hacq, <- Hheld. rewrite run_test_eq.
      destruct (teardown env (snd (run_body env sc))) as [[e' | u] st2];
        reflexivity.
Qed.

End Finally.

(** ** The outcome depends on the recorded replies only *)

Lemma agrees_prefix (env : Env) (l1 l2 : list Event) :
  agrees env (l1 ++ l2) -> agrees env l1.
Proof.
  intros H n c r Hn. apply H. rewrite nth_error_app1; [exact Hn |].
  apply nth_error_Some. rewrite Hn. discriminate.
Qed.

Lemma class_eqb_eq (k1 k2 : ExnClass) : class_eqb k1 k2 = true -> k1 = k2.
Proof. destruct k1, k2; simpl; intros H; try discriminate H; reflexivity. Qed.

Lemma reply_eqb_eq (r1 r2 : Reply) : reply_eqb r1 r2 = true -> r1 = r2.
Proof.
  destruct r1 as [v1 | [k1 m1]], r2 as [v2 | [k2 m2]]; simpl; intros H;
    try discriminate H.
  - apply Nat.eqb_eq in H. subst. reflexivity.
  - apply andb_true_iff in H. destruct H as [Hk Hm].
    apply class_eqb_eq in Hk. apply String.eqb_eq in Hm. subst. reflexivity.
Qed.

Lemma agreesb_from_nth (env : Env) (tr : list Event) (k n : nat) (c : Call)
  (r : Reply) :
  agreesb_from env k tr = true -> nth_error tr n = Some (c, r) ->
  env (k + n)%nat c = r.
Proof.
  revert k n. induction tr as [| [c0 r0] tr IH]; intros k n Hb Hn.
  - destruct n; discriminate Hn.
  - simpl in Hb. apply andb_true_iff in Hb. destruct Hb as [H0 Hb].
    destruct n as [| n]; simpl in Hn.
    + injection Hn as -> ->. rewrite Nat.add_0_r. apply reply_eqb_eq. exact H0.
    + replace (k + S n)%nat with (S k + n)%nat by lia. apply IH; assumption.
Qed.

Lemma agreesb_agrees (env : Env) (tr : list Event) :
  agreesb env tr = true -> agrees env tr.
Proof.
  intros H n c r Hn. apply (agreesb_from_nth env tr 0 n c r H Hn).
Qed.

Lemma det_ret {A : Type} (a : A) : Det (fun _ => ret a).
Proof.
  intros env1 env2 st. split; [| reflexivity].
  exists []. symmetry. apply app_nil_r.
Qed.

Lemma det_raise {A : Type} (e : Exn) : Det (fun _ => @raise A e).
Proof.
  intros env1 env2 st. split; [| reflexivity].
  exists []. symmetry. apply app_nil_r.
Qed.

Lemma det_get {A : Type} (f : State -> A) : Det (fun _ => get f).
Proof.
  intros env1 env2 st. split; [| reflexivity].
  exists []. symmetry. apply app_nil_r.
Qed.

Lemma det_set_pw (v : nat) : Det (fun _ => set_pw v).
Proof.
  intros env1 env2 st. split; [| reflexivity].
  exists []. symmetry. apply app_nil_r.
Qed.

Lemma det_set_browser (v : nat) : Det (fun _ => set_browser v).
Proof.
  intros env1 env2 st. split; [| reflexivity].
  exists []. symmetry. apply app_nil_r.
Qed.

Lemma det_set_context (v : nat) : Det (fun _ => set_context v).
Proof.
  intros env1 env2 st. split; [| reflexivity].
  exists []. symmetry. apply app_nil_r.
Qed.

Lemma det_call (c : Call) : Det (fun env => call env c).
Proof.
  intros env1 env2 st. split.
  - exists [(c, env1 (length (trace st)) c)]. unfold call.
    destruct (env1 (length (trace st)) c); reflexivity.
  - intros Hag. unfold call.
    assert (H : env2 (length (trace st)) c = env1 (length (trace st)) c).
    { apply Hag. unfold call.
      destruct (env1 (length (trace st)) c); simpl;
        rewrite nth_error_app2, Nat.sub_diag; try reflexivity; lia. }
    rewrite H. reflexivity.
Qed.

Lemma det_bind {A B : Type} (m : Env -> M A) (k : Env -> A -> M B) :
  Det m -> (forall a, Det (fun env => k env a)) ->
  Det (fun env => bind (m env) (k env)).
Proof.
  intros Hm Hk env1 env2 st.
  destruct (Hm env1 env2 st) as [[d1 Hd1] Hag1]. unfold bind.
  destruct (m env1 st) as [[e | a] st1]; simpl in *.
  - split; [exists d1; exact Hd1 |].
    intros Hag. rewrite (Hag1 Hag). reflexivity.
  - destruct (Hk a env1 env2 st1) as [[d2 Hd2] Hag2]. split.
    + exists (d1 ++ d2). rewrite Hd2, Hd1, app_assoc. reflexivity.
    + intros Hag. rewrite Hag1.
      * apply Hag2. exact Hag.
      * rewrite Hd2 in Hag. apply agrees_prefix in Hag. exact Hag.
Qed.

Lemma det_try_except {A : Type} (m : Env -> M A) (catches : Exn -> bool)
  (h : Env -> M A) :
  Det m -> Det h -> Det (fun env => try_except (m env) catches (h env)).
Proof.
  intros Hm Hh env1 env2 st.
  destruct (Hm env1 env2 st) as [[d1 Hd1] Hag1]. unfold try_except.
  destruct (m env1 st) as [[e | a] st1]; simpl in *.
  - destruct (catches e) eqn:Ec.
    + destruct (Hh env1 env2 st1) as [[d2 Hd2] Hag2]. split.
      * exists (d1 ++ d2). rewrite Hd2, Hd1, app_assoc. reflexivity.
      * intros Hag. rewrite Hag1.
        -- rewrite Ec. apply Hag2. exact Hag.
        -- rewrite Hd2 in Hag. apply agrees_prefix in Hag. exact Hag.
    + split; [exists d1; exact Hd1 |].
      intros Hag. rewrite (Hag1 Hag), Ec. reflexivity.
  - split; [exists d1; exact Hd1 |].
    intros Hag. rewrite (Hag1 Hag). reflexivity.
Qed.

Lemma det_try_finally {A : Type} (m : Env -> M A) (f : Env -> M unit) :
  Det m -> Det f -> Det (fun env => try_finally (m env) (f env)).
Proof.
  intros Hm Hf env1 env2 st.
  destruct (Hm env1 env2 st) as [[d1 Hd1] Hag1]. unfold try_finally.
  destruct (m env1 st) as [r st1]; simpl in *.
  destruct (Hf env1 env2 st1) as [[d2 Hd2] Hag2].
  destruct (f env1 st1) as [[e | u] st2]; simpl in *.
  - split.
    + exists (d1 ++ d2). rewrite Hd2, Hd1, app_assoc. reflexivity.
    + intros Hag. rewrite Hag1.
      * rewrite (Hag2 Hag). reflexivity.
      * rewrite Hd2 in Hag. apply agrees_prefix in Hag. exact Hag.
  - split.
    + exists (d1 ++ d2). rewrite Hd2, Hd1, app_assoc. reflexivity.
    + intros Hag. rewrite Hag1.
      * rewrite (Hag2 Hag). reflexivity.
      * rewrite Hd2 in Hag. apply agrees_prefix in Hag. exact Hag.
Qed.

Lemma det_when_set (v : option nat) (m : Env -> M unit) :
  Det m -> Det (fun env => when_set v (m env)).
Proof. intros Hm. destruct v; simpl; [exact Hm | apply det_ret]. Qed.

Lemma det_for_each {A : Type} (xs : list A) (f : Env -> A -> M unit) :
  (forall x, Det (fun env => f env x)) ->
  Det (fun env => for_each xs (f env)).
Proof.
  intros Hf. induction xs as [| x xs IH]; simpl.
  - apply det_ret.
  - apply (det_bind (fun env => f env x) (fun env _ => for_each xs (f env))).
    + apply Hf.
    + intros _. exact IH.
Qed.

Lemma det_call_ (c : Call) : Det (fun env => call_ env c).
Proof.
  unfold call_.
  apply (det_bind (fun env => call env c) (fun _ _ => ret tt)).
  - apply det_call.
  - intros _. apply det_ret.
Qed.

Lemma det_best_effort (c : Call) : Det (fun env => best_effort env c).
Proof.
  unfold best_effort.
  apply (det_try_except (fun env => call_ env c) _ (fun _ => ret tt)).
  - apply det_call_.
  - apply det_ret.
Qed.

Ltac det_seq :=
  match goal with
  | |- Det (fun env => bind (@?m env) (fun _ => @?k env)) =>
    apply (det_bind m (fun env _ => k env)); [| intros _]
  end.

Lemma det_exec_step (s : Step) : Det (fun env => exec_step env s).
Proof.
  destruct s; simpl.
  - det_seq; [apply det_call_ |]. det_seq; apply det_call_.
  - det_seq; [apply det_call_ |]. det_seq; apply det_call_.
  - apply det_call_.
  - apply det_call_.
  - apply det_call_.
  - apply det_call_.
  - apply (det_try_except (fun env => call_ env (ExpectToBeVisible l timeout))
                          _ (fun _ => raise (mkExn AssertionError diagnostic))).
    + apply det_call_.
    + apply det_raise.
Qed.

Lemma det_exec_steps (ss : list Step) : Det (fun env => exec_steps env ss).
Proof.
  unfold exec_steps.
  apply (det_for_each ss (fun env s => exec_step env s)).
  apply det_exec_step.
Qed.

Lemma det_body (sc : Scenario) : Det (fun env => body env sc).
Proof.
  unfold body.
  apply (det_bind (fun env => call env PwStart)); [apply det_call | intros p].
  det_seq; [apply det_set_pw |].
  apply (det_bind (fun env => call env (ChromiumLaunch true launch_args)));
    [apply det_call | intros b].
  det_seq; [apply det_set_browser |].
  apply (det_bind (fun env => call env NewContext)); [apply det_call | intros c].
  det_seq; [apply det_set_context |].
  det_seq; [apply det_call_ |].
  det_seq; [apply det_call_ |].
  det_seq; [apply det_call_ |].
  det_seq; [apply det_best_effort |].
  apply (det_bind (fun env => call env PageFrames)); [apply det_call | intros n].
  det_seq.
  - apply (det_for_each (seq 0 n)
             (fun env i => best_effort env
                (FrameWaitForLoadState i "domcontentloaded" 3000))).
    intros i. apply det_best_effort.
  - apply det_exec_steps.
Qed.

Lemma det_teardown : Det teardown.
Proof.
  unfold teardown.
  apply (det_bind (fun _ => get context)); [apply det_get | intros c].
  det_seq; [apply det_when_set, det_call_ |].
  apply (det_bind (fun _ => get browser)); [apply det_get | intros b].
  det_seq; [apply det_when_set, det_call_ |].
  apply (det_bind (fun _ => get pw)); [apply det_get | intros p].
  apply det_when_set, det_call_.
Qed.

Lemma det_run_test (sc : Scenario) (env1 env2 : Env) :
  agrees env2 (final_trace env1 sc) -> run_test env2 sc = run_test env1 sc.
Proof.
  intros Hag. unfold run_test.
  apply (det_try_finally (fun env => body env sc) teardown
           (det_body sc) det_teardown env1 env2 init).
  exact Hag.
Qed.

(** ** The user-interface calls of a run follow the text of the script *)

Lemma ui_calls_app (l1 l2 : list Event) :
  ui_calls (l1 ++ l2) = ui_calls l1 ++ ui_calls l2.
Proof. unfold ui_calls, calls. rewrite map_app, filter_app. reflexivity. Qed.

Lemma firstn_prefix_app {A : Type} (k : nat) (l1 l2 : list A) :
  exists k', firstn k l1 = firstn k' (l1 ++ l2).
Proof.
  destruct (Nat.le_gt_cases k (length l1)) as [Hle | Hgt].
  - exists k. rewrite firstn_app.
    replace (k - length l1)%nat with 0%nat by lia.
    simpl. rewrite app_nil_r. reflexivity.
  - exists (length l1). rewrite firstn_app, Nat.sub_diag. simpl.
    rewrite app_nil_r, firstn_all. apply firstn_all2. lia.
Qed.

Section Emitting.

Variable env : Env.

Lemma emits_ret {A : Type} (a : A) : Emits [] (ret a).
Proof. intros st. exists []. split; [symmetry; apply app_nil_r | reflexivity]. Qed.

Lemma emits_get {A : Type} (f : State -> A) : Emits [] (get f).
Proof. intros st. exists []. split; [symmetry; apply app_nil_r | reflexivity]. Qed.

Lemma emits_set_pw (v : nat) : Emits [] (set_pw v).
Proof. intros st. exists []. split; [symmetry; apply app_nil_r | reflexivity]. Qed.

Lemma emits_set_browser (v : nat) : Emits [] (set_browser v).
Proof. intros st. exists []. split; [symmetry; apply app_nil_r | reflexivity]. Qed.

Lemma emits_set_context (v : nat) : Emits [] (set_context v).
Proof. intros st. exists []. split; [symmetry; apply app_nil_r | reflexivity]. Qed.

Lemma emits_bind {A B : Type} (P1 P2 : list Call) (m : M A) (k : A -> M B) :
  Emits P1 m -> (forall a, Emits P2 (k a)) -> Emits (P1 ++ P2) (bind m k).
Proof.
  intros Hm Hk st. destruct (Hm st) as [d1 [Hd1 H1]]. unfold bind.
  destruct (m st) as [[e | a] st1]; simpl in *.
  - exists d1. split; [exact Hd1 |]. destruct H1 as [j Hj].
    destruct (firstn_prefix_app j P1 P2) as [j' Hj'].
    exists j'. rewrite Hj. exact Hj'.
  - destruct (Hk a st1) as [d2 [Hd2 H2]]. exists (d1 ++ d2).
    split; [rewrite Hd2, Hd1, app_assoc; reflexivity |].
    rewrite ui_calls_app, H1.
    destruct (fst (k a st1)) as [e | b].
    + destruct H2 as [j Hj]. exists (length P1 + j)%nat.
      rewrite Hj, firstn_app_2. reflexivity.
    + rewrite H2. reflexivity.
Qed.

Lemma emits_seq {A B : Type} (P : list Call) (m : M A) (k : A -> M B) :
  Emits [] m -> (forall a, Emits P (k a)) -> Emits P (bind m k).
Proof. intros Hm Hk. apply (emits_bind [] P m k Hm Hk). Qed.

Lemma emits_call (c : Call) : is_ui c = false -> Emits [] (call env c).
Proof.
  intros Hc st. exists [(c, env (length (trace st)) c)]. unfold call.
  destruct (env (length (trace st)) c); simpl;
    (split; [reflexivity |]); unfold ui_calls; simpl; rewrite Hc;
    [reflexivity | exists 0%nat; reflexivity].
Qed.

Lemma emits_call_ (c : Call) : is_ui c = false -> Emits [] (call_ env c).
Proof.
  intros Hc. unfold call_. apply emits_seq;
    [apply emits_call; exact Hc | intros _; apply emits_ret].
Qed.

Lemma emits_ui_call_ (c : Call) : is_ui c = true -> Emits [c] (call_ env c).
Proof.
  intros Hc st. exists [(c, env (length (trace st)) c)].
  unfold call_, bind, call, ret.
  destruct (env (length (trace st)) c); simpl;
    (split; [reflexivity |]); unfold ui_calls; simpl; rewrite Hc;
    [reflexivity | exists 1%nat; reflexivity].
Qed.

Lemma emits_best_effort (c : Call) :
  is_ui c = false -> Emits [] (best_effort env c).
Proof.
  intros Hc st. exists [(c, env (length (trace st)) c)].
  unfold best_effort, try_except, call_, bind, call, ret.
  destruct (env (length (trace st)) c) as [v | e]; simpl.
  - split; [reflexivity |]. unfold ui_calls. simpl. rewrite Hc. reflexivity.
  - destruct (is_async_api_Error e); simpl;
      (split; [reflexivity |]); unfold ui_calls; simpl; rewrite Hc;
      [reflexivity | exists 0%nat; reflexivity].
Qed.

Lemma emits_assert_wrapped (l : Locator) (t : Z) (d : string) :
  Emits [ExpectToBeVisible l t]
        (try_except (call_ env (ExpectToBeVisible l t)) is_AssertionError
                    (raise (mkExn AssertionError d))).
Proof.
  intros st.
  exists [(ExpectToBeVisible l t,
           env (length (trace st)) (ExpectToBeVisible l t))].
  unfold try_except, call_, bind, call, ret, raise.
  destruct (env (length (trace st)) (ExpectToBeVisible l t)) as [v | e]; simpl.
  - split; reflexivity.
  - destruct (is_AssertionError e); simpl;
      (split; [reflexivity |]); exists 1%nat; reflexivity.
Qed.

Lemma emits_for_each {A : Type} (xs : list A) (f : A -> M unit) :
  (forall x, Emits [] (f x)) -> Emits [] (for_each xs f).
Proof.
  intros Hf. induction xs as [| x xs IH]; simpl.
  - apply emits_ret.
  - apply emits_seq; [apply Hf | intros _; exact IH].
Qed.

Lemma emits_exec_step (s : Step) : Emits (step_ui s) (exec_step env s).
Proof.
  destruct s; simpl.
  - apply emits_seq; [apply emits_call_; reflexivity | intros _].
    apply emits_seq; [apply emits_call_; reflexivity | intros _].
    apply emits_ui_call_. reflexivity.
  - apply emits_seq; [apply emits_call_; reflexivity | intros _].
    apply emits_seq; [apply emits_call_; reflexivity | intros _].
    apply emits_ui_call_. reflexivity.
  - apply emits_ui_call_. reflexivity.
  - apply emits_call_. reflexivity.
  - apply emits_call_. reflexivity.
  - apply emits_ui_call_. reflexivity.
  - apply emits_assert_wrapped.
Qed.

Lemma emits_exec_steps (ss : list Step) :
  Emits (flat_map step_ui ss) (exec_steps env ss).
Proof.
  unfold exec_steps. induction ss as [| s ss IH]; simpl.
  - apply emits_ret.
  - apply emits_bind; [apply emits_exec_step | intros _; exact IH].
Qed.

Lemma emits_body (sc : Scenario) : Emits (planned_ui sc) (body env sc).
Proof.
  unfold body, planned_ui.
  apply emits_seq; [apply emits_call; reflexivity | intros p].
  apply emits_seq; [apply emits_set_pw | intros _].
  apply emits_seq; [apply emits_call; reflexivity | intros b].
  apply emits_seq; [apply emits_set_browser | intros _].
  apply emits_seq; [apply emits_call; reflexivity | intros c].
  apply emits_seq; [apply emits_set_context | intros _].
  apply emits_seq; [apply emits_call_; reflexivity | intros _].
  apply emits_seq; [apply emits_call_; reflexivity | intros _].
  apply (emits_bind [Goto (entry_url sc) (Some "commit") 10000]);
    [apply emits_ui_call_; reflexivity | intros _].
  apply emits_seq; [apply emits_best_effort; reflexivity | intros _].
  apply emits_seq; [apply emits_call; reflexivity | intros n].
  apply emits_seq.
  - apply emits_for_each. intros i. apply emits_best_effort. reflexivity.
  - intros _. apply emits_exec_steps.
Qed.

Lemma emits_when_set (v : option nat) (m : M unit) :
  Emits [] m -> Emits [] (when_set v m).
Proof. intros Hm. destruct v; simpl; [exact Hm | apply emits_ret]. Qed.

Lemma emits_teardown : Emits [] (teardown env).
Proof.
  unfold teardown.
  apply emits_seq; [apply emits_get | intros c].
  apply emits_seq; [apply emits_when_set, emits_call_; reflexivity | intros _].
  apply emits_seq; [apply emits_get | intros b].
  apply emits_seq; [apply emits_when_set, emits_call_; reflexivity | intros _].
  apply emits_seq; [apply emits_get | intros p].
  apply emits_when_set, emits_call_. reflexivity.
Qed.

(** In every run the user-interface calls are a prefix of the calls the
    script lists, and all of them when the script passes. *)
Lemma ui_calls_follow_script (sc : Scenario) :
  (exists k, ui_calls (final_trace env sc) = firstn k (planned_ui sc)) /\
  (verdict env sc = Pass -> ui_calls (final_trace env sc) = planned_ui sc).
Proof.
  unfold final_trace, verdict, run_test, try_finally.
  destruct (emits_body sc init) as [d1 [Hd1 H1]].
  destruct (body env sc init) as [r st1]; simpl in *.
  destruct (emits_teardown st1) as [d2 [Hd2 H2]].
  destruct (teardown env st1) as [[e | u] st2]; simpl in *.
  - destruct H2 as [j Hj]. rewrite firstn_nil in Hj.
    rewrite Hd2, Hd1, ui_calls_app, Hj, app_nil_r.
    split; [| intros H; discriminate H].
    destruct r as [e1 | u1]; [exact H1 |].
    exists (length (planned_ui sc)). rewrite firstn_all. exact H1.
  - rewrite Hd2, Hd1, ui_calls_app, H2, app_nil_r.
    destruct r as [e1 | u1]; simpl.
    + split; [exact H1 | intros H; discriminate H].
    + split; [| intros _; exact H1].
      exists (length (planned_ui sc)). rewrite firstn_all. exact H1.
Qed.

End Emitting.

(** ** Reading a run off its trace *)

Lemma forallb_impl {A : Type} (p q : A -> bool) (l : list A) :
  (forall x, p x = true -> q x = true) ->
  forallb p l = true -> forallb q l = true.
Proof.
  intros Hpq H. apply forallb_forall. intros x Hx. apply Hpq.
  apply (proj1 (forallb_forall p l) H x Hx).
Qed.

Lemma filter_none {A : Type} (p : A -> bool) (l : list A) :
  (forall x, In x l -> p x = false) -> filter p l = [].
Proof.
  induction l as [| a l IH]; intros H; simpl; [reflexivity |].
  rewrite (H a (or_introl eq_refl)). apply IH.
  intros x Hx. apply H. right. exact Hx.
Qed.

Lemma live_not_fatal (tr : list Event) (ev : Event) :
  Live tr -> In ev tr -> fatal ev = false.
Proof.
  intros Hl Hin. apply (proj1 (forallb_forall _ tr) Hl) in Hin.
  apply negb_true_iff in Hin. exact Hin.
Qed.

Lemma release_is_quiet_false (ev : Event) :
  quiet ev = true -> is_release (fst ev) = false.
Proof.
  unfold quiet. intros H. apply andb_true_iff in H. destruct H as [H _].
  apply negb_true_iff in H. exact H.
Qed.

(** An event that is not a close call belongs to the [try] block. *)
Lemma locate_in_body (bt td pre post : list Event) (ev : Event) :
  pre ++ ev :: post = bt ++ td ->
  forallb (fun x => is_release (fst x)) td = true ->
  is_release (fst ev) = false ->
  exists l, bt = pre ++ ev :: l /\ post = l ++ td.
Proof.
  intros Heq Htd Hev.
  destruct (locate pre post bt td ev Heq) as [[l [H1 H2]] | [l [H1 H2]]].
  - exists l. split; assumption.
  - assert (Hin : In ev td).
    { rewrite H2. apply in_or_app. right. left. reflexivity. }
    apply (proj1 (forallb_forall _ td) Htd) in Hin.
    rewrite Hin in Hev. discriminate Hev.
Qed.

(** A fatal event is the last event of the [try] block. *)
Lemma fatal_is_last (S : list Step) (pre l : list Event) (ev : Event)
  (e : Exn) :
  Dead S (pre ++ ev :: l) e -> fatal ev = true ->
  l = [] /\ Live pre /\ Cause S ev e.
Proof.
  intros [bpre [last [Heq [Hlive [Hfatal Hcause]]]]] Hev.
  destruct (locate pre l bpre [last] ev Heq) as [[l' [H1 H2]] | [l' [H1 H2]]].
  - assert (Hin : In ev bpre).
    { rewrite H1. apply in_or_app. right. left. reflexivity. }
    rewrite (live_not_fatal bpre ev Hlive Hin) in Hev. discriminate Hev.
  - destruct l' as [| a l'].
    + simpl in H2. injection H2 as -> <-.
      rewrite app_nil_r in H1. subst pre. auto.
    + simpl in H2. injection H2 as _ H2. destruct l'; discriminate H2.
Qed.

Lemma fatal_spec (ev : Event) :
  fatal ev = negb (returned ev || recovered_wait ev).
Proof.
  destruct ev as [c [v | e]]; unfold fatal, returned, recovered_wait; simpl;
    reflexivity.
Qed.

Lemma failed_assertion_fatal (ev : Event) :
  failed_assertion ev = true -> fatal ev = true.
Proof.
  destruct ev as [c [v | e]]; destruct c; simpl; intros H;
    try discriminate H; reflexivity.
Qed.

Lemma failed_assertion_not_release (ev : Event) :
  failed_assertion ev = true -> is_release (fst ev) = false.
Proof.
  destruct ev as [c [v | e]]; destruct c; simpl; intros H;
    try discriminate H; reflexivity.
Qed.

Lemma all_wrapped_no_bare (ss : list Step) (l : Locator) (t : Z) :
  all_wrapped ss = true -> ~ In (AssertVisible l t) ss.
Proof.
  induction ss as [| s ss IH]; intros Hw Hin; [exact Hin |].
  destruct Hin as [-> | Hin]; [discriminate Hw |].
  destruct s; simpl in Hw; try discriminate Hw; exact (IH Hw Hin).
Qed.

Lemma diagnostics_in (ss : list Step) (l : Locator) (t : Z) (d : string) :
  In (AssertVisibleOr l t d) ss -> In d (diagnostics ss).
Proof.
  induction ss as [| s ss IH]; intros Hin; [exact Hin |].
  destruct Hin as [-> | Hin]; [left; reflexivity |].
  destruct s; simpl; auto.
Qed.

Section Runs.

Variables (env : Env) (sc : Scenario).

Lemma final_release_order :
  exists k, release_order (final_trace env sc) =
            firstn k (filter (fun r => acquired r (final_trace env sc))
                             teardown_order).
Proof.
  destruct (run_shape env sc) as [td [Htr [[[_ [_ [Hq _]]] _] [_ [[k Hk] _]]]]].
  exists k. rewrite <- Hk. rewrite Htr at 1.
  rewrite release_order_app, (quiet_release_order _ Hq). reflexivity.
Qed.

Lemma final_clean :
  teardown_clean (final_trace env sc) = true ->
  fst (run_test env sc) = fst (run_body env sc) /\
  release_order (final_trace env sc) =
  filter (fun r => acquired r (final_trace env sc)) teardown_order.
Proof.
  destruct (run_shape env sc)
    as [td [Htr [[[_ [_ [Hq _]]] _] [_ [_ [_ [Hclean _]]]]]]].
  intros Hc. unfold teardown_clean in Hc. rewrite Htr in Hc.
  rewrite forallb_app in Hc. apply andb_true_iff in Hc. destruct Hc as [_ Hc].
  destruct (Hclean Hc) as [Hr Ho]. split; [exact Hr |].
  rewrite <- Ho. rewrite Htr at 1.
  rewrite release_order_app, (quiet_release_order _ Hq). reflexivity.
Qed.

Lemma final_release_count (r : Resource) :
  (release_count r (final_trace env sc) <= 1)%nat.
Proof.
  destruct final_release_order as [k Hk].
  rewrite release_count_order, Hk. apply teardown_order_counts.
Qed.

(** A call of the [try] block that raised and was not recovered ended the
    [try] block: only close calls follow, and the run fails. *)
Lemma fatal_event (pre post : list Event) (ev : Event) :
  final_trace env sc = pre ++ ev :: post ->
  fatal ev = true -> is_release (fst ev) = false ->
  forallb (fun x => is_release (fst x)) post = true /\
  Live pre /\ forallb quiet pre = true /\
  (in_session_call (fst ev) = true ->
   forall r, acquired r (final_trace env sc) = true) /\
  exists e, fst (run_body env sc) = inl e /\ Cause (steps sc) ev e /\
            exists e', fst (run_test env sc) = inl e'.
Proof.
  intros Heq Hf Hr.
  destruct (run_shape env sc)
    as [td [Htr [[[_ [Hs [Hq _]]] Hb] [Hrel [_ [_ [_ [_ [Hfail _]]]]]]]]].
  rewrite Heq in Htr.
  destruct (locate_in_body _ _ _ _ _ Htr Hrel Hr) as [l [Hbt Hpost]].
  rewrite Hbt in Hb, Hq, Hs.
  destruct (fst (run_body env sc)) as [e | u] eqn:Eb.
  - destruct (fatal_is_last _ _ _ _ _ Hb Hf) as [-> [Hlive Hcause]].
    simpl in Hpost. subst post.
    rewrite forallb_app in Hq. apply andb_true_iff in Hq. destruct Hq as [Hq _].
    split; [exact Hrel |]. split; [exact Hlive |]. split; [exact Hq |]. split.
    + intros Hc r. rewrite Heq.
      change (pre ++ ev :: td) with (pre ++ [ev] ++ td).
      rewrite app_assoc, acquired_app.
      rewrite (Hs ev); [reflexivity | | exact Hc].
      apply in_or_app. right. left. reflexivity.
    + exists e. split; [reflexivity |]. split; [exact Hcause |].
      apply (Hfail e). reflexivity.
  - assert (Hin : In ev (pre ++ ev :: l)).
    { apply in_or_app. right. left. reflexivity. }
    rewrite (live_not_fatal _ _ Hb Hin) in Hf. discriminate Hf.
Qed.

End Runs.

Lemma nth_error_decompose {A : Type} (l : list A) (n : nat) (a : A) :
  nth_error l n = Some a -> l = firstn n l ++ a :: skipn (S n) l.
Proof.
  revert n. induction l as [| x l IH]; intros n H.
  - destruct n; discriminate H.
  - destruct n as [| n]; simpl in H.
    + injection H as ->. reflexivity.
    + simpl. f_equal. apply IH. exact H.
Qed.

Lemma teardown_order_absent (f : Resource -> bool) (k : nat) (r : Resource) :
  f r = false ->
  length (filter (resource_eqb r) (firstn k (filter f teardown_order))) = 0%nat.
Proof.
  unfold teardown_order. simpl. intros H.
  destruct r; rewrite H;
    destruct (f Context), (f Browser), (f Engine);
    try discriminate H;
    destruct k as [| [| [| k]]]; simpl; rewrite ?firstn_nil; reflexivity.
Qed.

Lemma final_acquire_order (env : Env) (sc : Scenario) :
  acquired_in_order (final_trace env sc).
Proof.
  destruct (run_shape env sc)
    as [td [Htr [[[_ [_ [_ [j Hj]]]] _] [Hrel _]]]].
  exists j. rewrite Htr, acquire_order_app, Hj,
    (releases_acquire_order td Hrel). apply app_nil_r.
Qed.

(** When no close call raises, an acquired resource is closed exactly
    once. *)
Lemma clean_run_closes_acquired (env : Env) (sc : Scenario) (r : Resource) :
  acquired r (final_trace env sc) = true ->
  teardown_clean (final_trace env sc) = true ->
  release_count r (final_trace env sc) = 1%nat.
Proof.
  intros Ha Hc. destruct (final_clean env sc Hc) as [_ Ho].
  rewrite release_count_order, Ho.
  apply (teardown_order_full (fun r => acquired r (final_trace env sc))).
  exact Ha.
Qed.

(** * The claims *)

(** C1 (as stated, refuted).  With [context.close()] raising in
    [TC014_Database_migration_script_execution_without_data_loss], the
    browser has been acquired and [browser.close()] is never called: the
    exception leaves the [finally] block before the second [if]. *)
Lemma close_failure_leaks_browser :
  acquired Browser
    (final_trace (raise_on is_context_close target_closed) TC014) = true /\
  release_count Browser
    (final_trace (raise_on is_context_close target_closed) TC014) = 0%nat /\
  release_count Engine
    (final_trace (raise_on is_context_close target_closed) TC014) = 0%nat.
Proof. vm_compute. repeat split. Qed.

(** C1 (amended).  On every exit path of the [try] block, no resource of
    the Session is closed more than once, and when no close call raises,
    every acquired resource (context, browser, engine handle) is closed
    exactly once, whatever the verdict. *)
Theorem session_released_once (env : Env) (sc : Scenario) (r : Resource) :
  (release_count r (final_trace env sc) <= 1)%nat /\
  (acquired r (final_trace env sc) = true ->
   teardown_clean (final_trace env sc) = true ->
   release_count r (final_trace env sc) = 1%nat).
Proof.
  split.
  - destruct (final_release_order env sc) as [k Hk].
    rewrite release_count_order, Hk. apply teardown_order_counts.
  - intros Ha Hc. destruct (final_clean env sc Hc) as [_ Ho].
    rewrite release_count_order, Ho.
    apply (teardown_order_full (fun r => acquired r (final_trace env sc))).
    exact Ha.
Qed.

Lemma session_released_once_witness :
  acquired Browser (final_trace all_ok TC014) = true /\
  teardown_clean (final_trace all_ok TC014) = true /\
  release_count Browser (final_trace all_ok TC014) = 1%nat.
Proof.
  split; [vm_compute; reflexivity |].
  split; [vm_compute; reflexivity |].
  apply (proj2 (session_released_once all_ok TC014 Browser));
    vm_compute; reflexivity.
Defined.

(** C2 (as stated, refuted).  In [TC014] every step and the assertion
    succeed, so the [try] block completes; [context.close()] raises, the
    error leaves [run_test] and the verdict is Fail.  In [TC001] the
    assertion fails with the script's diagnostic, and the error of
    [context.close()] takes its place. *)
Lemma teardown_error_replaces_outcome :
  fst (run_body (raise_on is_context_close target_closed) TC014) = inr tt /\
  verdict (raise_on is_context_close target_closed) TC014
  = Fail "Target page, context or browser has been closed" /\
  fst (run_body (failing_assert_and_close "Locator expected to be visible")
                TC001)
  = inl (mkExn AssertionError
    "Test case failed: Employee authentication using Supabase Auth did not succeed or dashboard with appropriate permissions was not displayed as expected.") /\
  verdict (failing_assert_and_close "Locator expected to be visible") TC001
  = Fail "Target page, context or browser has been closed".
Proof. vm_compute. repeat split. Qed.

(** C2 (amended).  An error raised by a close call of the [finally]
    block is not swallowed: it leaves [run_test] and becomes the outcome
    of the run.  The outcome of the [try] block is the outcome of the run
    exactly when no close call raises. *)
Theorem teardown_error_escalates (env : Env) (sc : Scenario) :
  (teardown_clean (final_trace env sc) = true ->
   fst (run_test env sc) = fst (run_body env sc)) /\
  (forall n c e,
     nth_error (final_trace env sc) n = Some (c, Raises e) ->
     is_release c = true ->
     fst (run_test env sc) = inl e).
Proof.
  split.
  - intros Hc. apply (final_clean env sc Hc).
  - intros n c e Hn Hr. apply nth_error_In in Hn.
    destruct (run_shape env sc)
      as [td [Htr [[[_ [_ [Hq _]]] _] [_ [_ [_ [_ [Hraise _]]]]]]]].
    rewrite Htr in Hn. apply in_app_or in Hn. destruct Hn as [Hn | Hn].
    + apply (proj1 (forallb_forall _ _) Hq) in Hn.
      apply release_is_quiet_false in Hn. simpl in Hn.
      rewrite Hn in Hr. discriminate Hr.
    + apply (Hraise c e Hn).
Qed.

Lemma teardown_error_escalates_witness :
  (teardown_clean (final_trace all_ok TC001) = true /\
   fst (run_test all_ok TC001) = fst (run_body all_ok TC001)) /\
  (nth_error (final_trace (raise_on is_context_close target_closed) TC001) 57
   = Some (ContextClose, Raises target_closed) /\
   is_release ContextClose = true /\
   fst (run_test (raise_on is_context_close target_closed) TC001)
   = inl target_closed).
Proof.
  split.
  - split; [vm_compute; reflexivity |].
    apply (proj1 (teardown_error_escalates all_ok TC001)).
    vm_compute; reflexivity.
  - split; [vm_compute; reflexivity |]. split; [reflexivity |].
    apply (proj2 (teardown_error_escalates
                    (raise_on is_context_close target_closed) TC001)
                 57%nat ContextClose target_closed);
      vm_compute; reflexivity.
Defined.

(** C3.  When a visibility assertion fails, the verdict is Fail, every
    call after the failed assertion is a close call of the [finally] block
    (no further step or assertion runs), and the run contains exactly one
    failed assertion, hence one diagnostic. *)
Theorem first_failed_assertion_ends_run
  (env : Env) (sc : Scenario) (n : nat) (l : Locator) (t : Z) (e : Exn) :
  nth_error (final_trace env sc) n = Some (ExpectToBeVisible l t, Raises e) ->
  is_AssertionError e = true ->
  (exists d, verdict env sc = Fail d) /\
  forallb (fun ev => is_release (fst ev))
          (skipn (S n) (final_trace env sc)) = true /\
  length (filter failed_assertion (final_trace env sc)) = 1%nat.
Proof.
  intros Hn He. pose proof (nth_error_decompose _ _ _ Hn) as Hsplit.
  assert (Hfa : failed_assertion (ExpectToBeVisible l t, Raises e) = true)
    by exact He.
  set (pre := firstn n (final_trace env sc)) in *.
  set (post := skipn (S n) (final_trace env sc)) in *.
  destruct (fatal_event env sc _ _ _ Hsplit
              (failed_assertion_fatal _ Hfa) eq_refl)
    as [Hpost [Hlive [_ [_ [e1 [_ [_ [e2 He2]]]]]]]].
  split; [| split].
  - exists (exn_msg e2). unfold verdict. rewrite He2. reflexivity.
  - exact Hpost.
  - rewrite Hsplit, filter_app. simpl filter. rewrite He.
    rewrite (filter_none failed_assertion pre).
    + rewrite (filter_none failed_assertion post); [reflexivity |].
      intros x Hx. apply (proj1 (forallb_forall _ _) Hpost) in Hx.
      destruct (failed_assertion x) eqn:Ex; [| reflexivity].
      rewrite (failed_assertion_not_release x Ex) in Hx. discriminate Hx.
    + intros x Hx. pose proof (live_not_fatal _ _ Hlive Hx) as Hnf.
      destruct (failed_assertion x) eqn:Ex; [| reflexivity].
      rewrite (failed_assertion_fatal x Ex) in Hnf. discriminate Hnf.
Qed.

Lemma first_failed_assertion_ends_run_witness :
  nth_error (final_trace (raise_at 47 (not_visible "not visible")) TC016) 47
  = Some (ExpectToBeVisible (Loc "text=Big crack in windscreen" First) 30000,
          Raises (not_visible "not visible")) /\
  is_AssertionError (not_visible "not visible") = true /\
  (exists d, verdict (raise_at 47 (not_visible "not visible")) TC016 = Fail d) /\
  forallb (fun ev => is_release (fst ev))
    (skipn 48 (final_trace (raise_at 47 (not_visible "not visible")) TC016))
  = true /\
  length (filter failed_assertion
            (final_trace (raise_at 47 (not_visible "not visible")) TC016))
  = 1%nat.
Proof.
  split; [vm_compute; reflexivity |]. split; [reflexivity |].
  apply (first_failed_assertion_ends_run
           (raise_at 47 (not_visible "not visible")) TC016 47%nat
           (Loc "text=Big crack in windscreen" First) 30000
           (not_visible "not visible"));
    vm_compute; reflexivity.
Defined.

(** C5 (as stated, refuted).  The assertions of
    [TC016_Input_validation_on_workshop_task_comments_minimum_length] have
    no handler: the Fail verdict carries whatever message the assertion
    library put in its exception, and no string of the script. *)
Lemma bare_assertion_has_no_fixed_diagnostic :
  verdict (raise_on is_expect (not_visible "Locator expected to be visible"))
          TC016
  = Fail "Locator expected to be visible" /\
  verdict (raise_on is_expect (not_visible "Page closed")) TC016
  = Fail "Page closed" /\
  diagnostics (steps TC016) = [] /\
  diagnostics (steps TC006) = [].
Proof. vm_compute. repeat split. Qed.

(** C5 (amended).  When a visibility assertion fails, the [try] block
    raises either the fixed diagnostic of the handler around that
    assertion, or, where the assertion has no handler (as in [TC006] and
    [TC016]), the exception of the assertion library itself.  In a
    scenario all of whose assertions have handlers the message is one of
    the fixed diagnostics of its script, and it is the diagnostic of the
    Fail verdict when no close call raises. *)
Theorem failed_assertion_diagnostic
  (env : Env) (sc : Scenario) (n : nat) (l : Locator) (t : Z) (e0 : Exn) :
  nth_error (final_trace env sc) n = Some (ExpectToBeVisible l t, Raises e0) ->
  is_AssertionError e0 = true ->
  exists e,
    fst (run_body env sc) = inl e /\
    ((exists d, In (AssertVisibleOr l t d) (steps sc) /\
                e = mkExn AssertionError d) \/
     (In (AssertVisible l t) (steps sc) /\ e = e0)) /\
    (all_wrapped (steps sc) = true ->
     In (exn_msg e) (diagnostics (steps sc))) /\
    (teardown_clean (final_trace env sc) = true ->
     verdict env sc = Fail (exn_msg e)).
Proof.
  intros Hn He. pose proof (nth_error_decompose _ _ _ Hn) as Hsplit.
  assert (Hfa : failed_assertion (ExpectToBeVisible l t, Raises e0) = true)
    by exact He.
  destruct (fatal_event env sc _ _ _ Hsplit
              (failed_assertion_fatal _ Hfa) eq_refl)
    as [_ [_ [_ [_ [e [Hb [Hcause _]]]]]]].
  exists e. split; [exact Hb |].
  assert (Hor : (exists d, In (AssertVisibleOr l t d) (steps sc) /\
                           e = mkExn AssertionError d) \/
                (In (AssertVisible l t) (steps sc) /\ e = e0)).
  { simpl in Hcause. destruct Hcause as [[-> Hbare] | [l' [t' [d [Heq [_ [-> Hin]]]]]]].
    - right. split; [| reflexivity]. apply Hbare; [reflexivity | exact He].
    - injection Heq as <- <-. left. exists d. split; [exact Hin | reflexivity]. }
  split; [exact Hor |]. split.
  - intros Hw. destruct Hor as [[d [Hin ->]] | [Hin _]].
    + simpl. apply (diagnostics_in _ l t d Hin).
    + destruct (all_wrapped_no_bare _ l t Hw Hin).
  - intros Hc. unfold verdict.
    rewrite (proj1 (final_clean env sc Hc)), Hb. reflexivity.
Qed.

Lemma failed_assertion_diagnostic_witness :
  nth_error (final_trace (raise_on is_expect (not_visible "not visible"))
                         TC001) 55
  = Some (ExpectToBeVisible
            (Loc "text=Employee Dashboard Access Granted" First) 30000,
          Raises (not_visible "not visible")) /\
  is_AssertionError (not_visible "not visible") = true /\
  all_wrapped (steps TC001) = true /\
  teardown_clean (final_trace (raise_on is_expect (not_visible "not visible"))
                              TC001) = true /\
  verdict (raise_on is_expect (not_visible "not visible")) TC001
  = Fail "Test case failed: Employee authentication using Supabase Auth did not succeed or dashboard with appropriate permissions was not displayed as expected.".
Proof.
  assert (H1 : nth_error
                 (final_trace (raise_on is_expect (not_visible "not visible"))
                              TC001) 55
               = Some (ExpectToBeVisible
                         (Loc "text=Employee Dashboard Access Granted" First)
                         30000,
                       Raises (not_visible "not visible")))
    by (vm_compute; reflexivity).
  assert (H2 : is_AssertionError (not_visible "not visible") = true)
    by reflexivity.
  assert (H3 : all_wrapped (steps TC001) = true) by reflexivity.
  assert (H4 : teardown_clean
                 (final_trace (raise_on is_expect (not_visible "not visible"))
                              TC001) = true)
    by (vm_compute; reflexivity).
  destruct (failed_assertion_diagnostic _ _ _ _ _ _ H1 H2)
    as [e [_ [_ [Hw Hc]]]].
  repeat (split; [assumption |]).
  rewrite (Hc H4). destruct (Hw H3) as [<- | []]. reflexivity.
Defined.

(** C6 (as stated, refuted).  The nine scripts submit one login pair, not
    two: every login, whether its comment calls the account employee,
    manager or admin, types the same email and the same password. *)
Lemma one_login_pair_only :
  length (credential_pairs scenarios) <> 2%nat /\
  length (credential_pairs scenarios) = 1%nat.
Proof. vm_compute. split; [discriminate | reflexivity]. Qed.

(** C6 (amended).  Across the scenario set exactly one literal login pair
    is submitted, [admin@mpdee.co.uk] with its password.  In every
    scenario each text typed into the email field is that email and each
    text typed into the password field is that password, every such fill
    belongs to a login made of a fill of the email field, a fill of the
    password field and a click on the submit control, and there is at
    least one login. *)
Theorem single_login_pair :
  credential_pairs scenarios = [("admin@mpdee.co.uk", "Q-0ww9qe?")] /\
  Forall (fun sc =>
            Forall (eq "admin@mpdee.co.uk")
                   (typed_into email_field (steps sc)) /\
            Forall (eq "Q-0ww9qe?")
                   (typed_into password_field (steps sc)) /\
            length (logins (steps sc))
            = length (typed_into email_field (steps sc)) /\
            length (logins (steps sc))
            = length (typed_into password_field (steps sc)) /\
            (0 < length (logins (steps sc)))%nat)
         scenarios.
Proof.
  split; [vm_compute; reflexivity |].
  unfold scenarios.
  repeat (apply Forall_cons; [vm_compute; repeat split;
                              repeat constructor |]).
  apply Forall_nil.
Qed.

Lemma final_context_closed (env : Env) (sc : Scenario) :
  acquired Context (final_trace env sc) = true ->
  release_count Context (final_trace env sc) = 1%nat.
Proof.
  destruct (run_shape env sc)
    as [td [Htr [[[_ [_ [Hq _]]] _] [_ [_ [Hctx _]]]]]].
  intros Ha. rewrite Htr at 1.
  rewrite release_count_app, (quiet_no_release _ Context Hq). apply Hctx.
  exact Ha.
Qed.

(** C7 (as stated, refuted).  In [TC001] the first click exceeds its
    timeout: the abort is not confined to that step.  The next statement
    of the script, the fill of the email field, never runs; after the click
    the run makes the three close calls only, and the verdict is Fail with
    the timeout's message. *)
Lemma click_timeout_aborts_scenario :
  nth_error (final_trace (raise_at 11 timeout_error) TC001) 11
  = Some (LocatorClick
            (Loc "xpath=html/body/div[2]/nav/div[2]/div/div/div/a" Nth0) 5000,
          Raises timeout_error) /\
  nth_error (steps TC001) 1
  = Some (Fill "xpath=html/body/div[2]/div[2]/div[3]/div/form/div/input"
               "admin@mpdee.co.uk") /\
  calls (skipn 12 (final_trace (raise_at 11 timeout_error) TC001))
  = [ContextClose; BrowserClose; PwStop] /\
  verdict (raise_at 11 timeout_error) TC001 = Fail "Timeout 5000ms exceeded.".
Proof. vm_compute. repeat split. Qed.

(** C7 (amended).  When a navigation, click or fill raises, on a timeout
    in particular, its exception ends the [try] block: no later step runs,
    the calls that follow are close calls only, and the verdict is Fail.
    The [finally] block still executes: the Session had been acquired, the
    context is closed exactly once, and when no close call raises every
    resource is closed exactly once and the verdict carries the message of
    the step's exception. *)
Theorem step_timeout_aborts_and_tears_down
  (env : Env) (sc : Scenario) (n : nat) (c : Call) (e : Exn) :
  nth_error (final_trace env sc) n = Some (c, Raises e) ->
  is_interactive c = true ->
  fst (run_body env sc) = inl e /\
  (exists d, verdict env sc = Fail d) /\
  forallb (fun ev => is_release (fst ev))
          (skipn (S n) (final_trace env sc)) = true /\
  (forall r, acquired r (final_trace env sc) = true) /\
  release_count Context (final_trace env sc) = 1%nat /\
  (teardown_clean (final_trace env sc) = true ->
   verdict env sc = Fail (exn_msg e) /\
   forall r, release_count r (final_trace env sc) = 1%nat).
Proof.
  intros Hn Hc. pose proof (nth_error_decompose _ _ _ Hn) as Hsplit.
  assert (Hf : fatal (c, Raises e) = true)
    by (destruct c; try discriminate Hc; reflexivity).
  assert (Hr : is_release (fst (c, Raises e)) = false)
    by (destruct c; try discriminate Hc; reflexivity).
  assert (Hs : in_session_call (fst (c, Raises e)) = true)
    by (destruct c; try discriminate Hc; reflexivity).
  destruct (fatal_event env sc _ _ _ Hsplit Hf Hr)
    as [Hpost [_ [_ [Hacq [e1 [Hb [Hcause [e2 He2]]]]]]]].
  assert (He1 : e1 = e).
  { simpl in Hcause.
    destruct Hcause as [[-> _] | [l' [t' [d [Heq _]]]]]; [reflexivity |].
    rewrite Heq in Hc. discriminate Hc. }
  subst e1. specialize (Hacq Hs).
  split; [exact Hb |]. split.
  { exists (exn_msg e2). unfold verdict. rewrite He2. reflexivity. }
  split; [exact Hpost |]. split; [exact Hacq |]. split.
  { apply final_context_closed. apply Hacq. }
  intros Hclean. split.
  - unfold verdict. rewrite (proj1 (final_clean env sc Hclean)), Hb.
    reflexivity.
  - intros r. apply clean_run_closes_acquired; [apply Hacq | exact Hclean].
Qed.

Lemma step_timeout_aborts_and_tears_down_witness :
  nth_error (final_trace (raise_at 11 timeout_error) TC001) 11
  = Some (LocatorClick
            (Loc "xpath=html/body/div[2]/nav/div[2]/div/div/div/a" Nth0) 5000,
          Raises timeout_error) /\
  is_interactive
    (LocatorClick
       (Loc "xpath=html/body/div[2]/nav/div[2]/div/div/div/a" Nth0) 5000)
  = true /\
  teardown_clean (final_trace (raise_at 11 timeout_error) TC001) = true /\
  release_count Context (final_trace (raise_at 11 timeout_error) TC001)
  = 1%nat /\
  verdict (raise_at 11 timeout_error) TC001 = Fail "Timeout 5000ms exceeded.".
Proof.
  assert (H1 : nth_error (final_trace (raise_at 11 timeout_error) TC001) 11
               = Some (LocatorClick
                         (Loc "xpath=html/body/div[2]/nav/div[2]/div/div/div/a"
                              Nth0) 5000,
                       Raises timeout_error))
    by (vm_compute; reflexivity).
  assert (H2 : is_interactive
                 (LocatorClick
                    (Loc "xpath=html/body/div[2]/nav/div[2]/div/div/div/a"
                         Nth0) 5000) = true)
    by reflexivity.
  assert (H3 : teardown_clean
                 (final_trace (raise_at 11 timeout_error) TC001) = true)
    by (vm_compute; reflexivity).
  destruct (step_timeout_aborts_and_tears_down _ _ _ _ _ H1 H2)
    as [_ [_ [_ [_ [Hctx Hclean]]]]].
  repeat (split; [assumption |]).
  apply (proj1 (Hclean H3)).
Defined.

(** C8 (as stated, refuted).  The route of the entry navigation is not
    specific to the scenario: two different scripts enter at the same
    URL. *)
Lemma entry_route_is_shared :
  name TC001 <> name TC014 /\
  entry_url TC001 = entry_url TC014 /\
  entry_route TC001 = Some "/fleet" /\
  entry_route TC014 = Some "/fleet".
Proof.
  split; [vm_compute; discriminate |]. vm_compute. repeat split.
Qed.

Lemma in_firstn {A : Type} (k : nat) (l : list A) (x : A) :
  In x (firstn k l) -> In x l.
Proof.
  revert k. induction l as [| a l IH]; intros k H.
  - rewrite firstn_nil in H. exact H.
  - destruct k as [| k]; [destruct H |]. simpl in H.
    destruct H as [-> | H]; [left; reflexivity | right; exact (IH k H)].
Qed.

Lemma later_urls_in (ss : list Step) (url : string) (t : Z) :
  In (Navigate url t) ss -> In url (later_urls ss).
Proof.
  induction ss as [| s ss IH]; intros H; [exact H |].
  destruct H as [-> | H]; [left; reflexivity |].
  destruct s; simpl; auto.
Qed.

Lemma step_ui_goto (ss : list Step) (url : string) (w : option string)
  (t : Z) :
  In (Goto url w t) (flat_map step_ui ss) -> In url (later_urls ss).
Proof.
  intros H. apply in_flat_map in H. destruct H as [s [Hs Hc]].
  destruct s as [x t0 | x txt | u t0 | secs | | l t0 | l t0 d];
    simpl in Hc; try (destruct Hc; fail);
    destruct Hc as [Hc | []]; try discriminate Hc.
  injection Hc as Hu _ _. subst u. apply (later_urls_in ss url t0 Hs).
Qed.

(** C8 (amended).  Every scenario's entry navigation goes to the same
    URL, the fixed base URL followed by the route [/fleet]; in every run
    the first user-interface call, if any, is that navigation.  The later
    navigations go to the base URL followed by a route of their own, and
    only [TC019] has any: the eight other scenarios navigate nowhere else,
    and no run navigates to a URL that is neither the entry URL nor a
    later URL of its script. *)
Theorem entry_navigation_is_fixed :
  Forall (fun sc =>
            entry_url sc = String.append base_url "/fleet" /\
            Forall (fun u => String.prefix base_url u = true)
                   (later_urls (steps sc)))
         scenarios /\
  later_urls (steps TC019)
  = map (String.append base_url)
        ["/api/invalid-endpoint"; "/logs"; "/dashboard"] /\
  (forall (env : Env) (sc : Scenario) (c : Call),
     nth_error (ui_calls (final_trace env sc)) 0 = Some c ->
     c = Goto (entry_url sc) (Some "commit") 10000) /\
  scenarios
  = [TC001; TC002; TC003; TC006; TC010; TC011; TC014; TC016] ++ [TC019] /\
  Forall (fun sc => later_urls (steps sc) = [])
         [TC001; TC002; TC003; TC006; TC010; TC011; TC014; TC016] /\
  (forall (env : Env) (sc : Scenario) (url : string) (w : option string)
          (t : Z),
     In (Goto url w t) (calls (final_trace env sc)) ->
     url = entry_url sc \/ In url (later_urls (steps sc))).
Proof.
  split; [| split; [| split; [| split; [| split]]]].
  - unfold scenarios.
    repeat (apply Forall_cons; [vm_compute; repeat split;
                                repeat constructor |]).
    apply Forall_nil.
  - vm_compute. reflexivity.
  - intros env sc c Hc.
    destruct (proj1 (ui_calls_follow_script env sc)) as [k Hk].
    rewrite Hk in Hc. destruct k as [| k]; [discriminate Hc |].
    simpl in Hc. injection Hc as <-. reflexivity.
  - reflexivity.
  - repeat (apply Forall_cons; [vm_compute; reflexivity |]). apply Forall_nil.
  - intros env sc url w t Hin.
    assert (Hui : In (Goto url w t) (ui_calls (final_trace env sc))).
    { unfold ui_calls. apply filter_In. split; [exact Hin | reflexivity]. }
    destruct (proj1 (ui_calls_follow_script env sc)) as [k Hk].
    rewrite Hk in Hui. apply in_firstn in Hui. unfold planned_ui in Hui.
    destruct Hui as [Heq | Hui].
    + injection Heq as <- _ _. left. reflexivity.
    + right. apply (step_ui_goto _ url w t Hui).
Qed.

Lemma entry_navigation_is_fixed_witness :
  (nth_error (ui_calls (final_trace all_ok TC019)) 0
   = Some (Goto "http://localhost:3000/fleet" (Some "commit") 10000) /\
   Goto "http://localhost:3000/fleet" (Some "commit") 10000
   = Goto (entry_url TC019) (Some "commit") 10000) /\
  (In (Goto "http://localhost:3000/logs" None 10000)
      (calls (final_trace (raise_at 23 timeout_error) TC019)) /\
   ("http://localhost:3000/logs" = entry_url TC019 \/
    In "http://localhost:3000/logs" (later_urls (steps TC019)))).
Proof.
  split.
  - split; [vm_compute; reflexivity |].
    apply (proj1 (proj2 (proj2 entry_navigation_is_fixed)) all_ok TC019).
    vm_compute. reflexivity.
  - assert (H : In (Goto "http://localhost:3000/logs" None 10000)
                   (calls (final_trace (raise_at 23 timeout_error) TC019))).
    { vm_compute. do 23 right. left. reflexivity. }
    split; [exact H |].
    apply (proj2 (proj2 (proj2 (proj2 (proj2 entry_navigation_is_fixed))))
                 (raise_at 23 timeout_error) TC019 _ None 10000 H).
Defined.

(** C9.  A run is determined by the replies it receives: a second run of
    the same scenario in which the application answers every call as it
    did in the first run makes the same calls, ends in the same state and
    has the same verdict.  The user-interface calls of a run (locators,
    inputs, timeouts) do not depend on the replies: they are a prefix of
    the calls listed in the script, and all of them when the run passes. *)
Theorem same_replies_same_verdict (sc : Scenario) (env1 env2 : Env) :
  agreesb env2 (final_trace env1 sc) = true ->
  verdict env2 sc = verdict env1 sc /\
  final_trace env2 sc = final_trace env1 sc /\
  (exists k, ui_calls (final_trace env2 sc) = firstn k (planned_ui sc)) /\
  (exists k, ui_calls (final_trace env1 sc) = firstn k (planned_ui sc)).
Proof.
  intros Hag. apply agreesb_agrees in Hag.
  pose proof (det_run_test sc env1 env2 Hag) as Heq.
  unfold verdict, final_trace. rewrite Heq.
  split; [reflexivity |]. split; [reflexivity |].
  split; apply (ui_calls_follow_script env1 sc).
Qed.

Lemma same_replies_same_verdict_witness :
  agreesb (raise_at 1000 timeout_error) (final_trace all_ok TC014) = true /\
  verdict (raise_at 1000 timeout_error) TC014 = verdict all_ok TC014.
Proof.
  split; [vm_compute; reflexivity |].
  apply (same_replies_same_verdict TC014 all_ok (raise_at 1000 timeout_error)).
  vm_compute. reflexivity.
Defined.

(** C10.  The three locals start as [None].  At the end of a run a local
    is set exactly when its resource was acquired.  The close calls of a
    run are made on acquired resources only, in the order context,
    browser, engine handle, which is the reverse of the order of
    acquisition, each at most once (they stop at the first close call that
    raises).  A resource that was not acquired is never closed. *)
Theorem teardown_closes_only_acquired (env : Env) (sc : Scenario) :
  (pw init = None /\ browser init = None /\ context init = None) /\
  (forall r, held r (snd (run_test env sc))
             = acquired r (final_trace env sc)) /\
  (exists j, acquire_order (final_trace env sc)
             = firstn j (rev teardown_order)) /\
  (exists k, release_order (final_trace env sc)
             = firstn k (filter (fun r => acquired r (final_trace env sc))
                                teardown_order)) /\
  (forall r, acquired r (final_trace env sc) = false ->
             release_count r (final_trace env sc) = 0%nat).
Proof.
  split; [repeat split |]. split.
  { destruct (run_shape env sc) as [td H].
    repeat (destruct H as [_ H]). exact H. }
  split; [apply final_acquire_order |].
  destruct (final_release_order env sc) as [k Hk].
  split; [exists k; exact Hk |].
  intros r Hr. rewrite release_count_order, Hk.
  apply (teardown_order_absent (fun r => acquired r (final_trace env sc))).
  exact Hr.
Qed.

Lemma teardown_closes_only_acquired_witness :
  acquired Browser (final_trace (raise_at 1 target_closed) TC001) = false /\
  release_count Browser (final_trace (raise_at 1 target_closed) TC001) = 0%nat.
Proof.
  split; [vm_compute; reflexivity |].
  apply (proj2 (proj2 (proj2 (proj2
           (teardown_closes_only_acquired (raise_at 1 target_closed) TC001))))
           Browser).
  vm_compute. reflexivity.
Defined.

(** * Further properties of [run_test] *)

Section FinallyOrigin.

Variable env : Env.

Ltac reply_cases' :=
  repeat match goal with
         | |- context [env ?n ?c] =>
           let E := fresh "E" in destruct (env n c) eqn:E; simpl
         end.

(** An exception that leaves the [finally] block was raised by one of its
    close calls. *)
Lemma teardown_raise_origin (st : State) (e : Exn) :
  fst (teardown env st) = inl e ->
  exists c, In (c, Raises e) (trace (snd (teardown env st))).
Proof.
  unfold teardown, when_set, call_.
  unfold bind, get, call, ret.
  destruct st as [[p |] [b |] [c |] tr]; simpl; reply_cases';
    intros H; try discriminate H; injection H as <-;
    eexists; apply in_or_app; right; simpl; eauto.
Qed.

End FinallyOrigin.

Lemma releases_returned_clean (td : list Event) :
  (forall c e, ~ In (c, Raises e) td) -> forallb returned td = true.
Proof.
  intros H. apply forallb_forall. intros [c [v | e]] Hin; [reflexivity |].
  destruct (H c e Hin).
Qed.

Lemma returned_clean (td : list Event) :
  forallb returned td = true -> teardown_clean td = true.
Proof.
  apply forallb_impl. intros x Hx. rewrite Hx. apply orb_true_r.
Qed.

Lemma unrecovered_fatal (ev : Event) :
  unrecovered ev = true -> fatal ev = true.
Proof.
  unfold unrecovered. intros H. apply andb_true_iff in H. apply H.
Qed.

(** What a Pass verdict tells about the run. *)
Lemma pass_facts (env : Env) (sc : Scenario) :
  verdict env sc = Pass ->
  (exists u, fst (run_body env sc) = inr u) /\
  forallb (fun ev => returned ev || recovered_wait ev) (final_trace env sc)
  = true /\
  teardown_clean (final_trace env sc) = true /\
  forall r, acquired r (final_trace env sc) = true.
Proof.
  intros Hpass.
  destruct (run_shape env sc)
    as [td [Htr [[[_ [Hs [Hq _]]] Hb] [Hrel [_ [_ [Hclean [Hraise _]]]]]]]].
  assert (Hok : exists u, fst (run_test env sc) = inr u).
  { unfold verdict in Hpass.
    destruct (fst (run_test env sc)) as [e | u]; [discriminate Hpass |].
    exists u. reflexivity. }
  destruct Hok as [u Hu].
  assert (Htd : forallb returned td = true).
  { apply releases_returned_clean. intros c e Hin.
    rewrite (Hraise c e Hin) in Hu. discriminate Hu. }
  destruct (Hclean (returned_clean td Htd)) as [Heq _].
  rewrite Hu in Heq. rewrite <- Heq in Hb.
  assert (Hall : forallb (fun ev => returned ev || recovered_wait ev)
                         (final_trace env sc) = true).
  { rewrite Htr, forallb_app. apply andb_true_iff. split.
    - apply forallb_forall. intros x Hx.
      pose proof (live_not_fatal _ _ Hb Hx) as Hnf.
      rewrite fatal_spec in Hnf. apply negb_false_iff in Hnf. exact Hnf.
    - revert Htd. apply forallb_impl. intros x Hx. rewrite Hx. reflexivity. }
  split; [exists u; symmetry; exact Heq |]. split; [exact Hall |]. split.
  - revert Hall. apply forallb_impl. intros [c [v | e]] Hx.
    + apply orb_true_r.
    + unfold returned, recovered_wait in Hx. simpl in Hx.
      apply andb_true_iff in Hx. destruct Hx as [Hw _].
      destruct c; try discriminate Hw; reflexivity.
  - assert (Hin : In (Goto (entry_url sc) (Some "commit") 10000)
                     (ui_calls (final_trace env sc))).
    { rewrite (proj2 (ui_calls_follow_script env sc) Hpass).
      left. reflexivity. }
    unfold ui_calls, calls in Hin. apply filter_In in Hin.
    destruct Hin as [Hin _]. apply in_map_iff in Hin.
    destruct Hin as [[c rep] [Hc Hin]]. simpl in Hc. subst c.
    rewrite Htr in Hin. apply in_app_or in Hin. destruct Hin as [Hin | Hin].
    + intros r. rewrite Htr, acquired_app.
      rewrite (Hs _ Hin eq_refl r). reflexivity.
    + apply (proj1 (forallb_forall _ _) Hrel) in Hin. discriminate Hin.
Qed.

(** X1.  A scenario passes only if everything succeeded: every call of
    the run returned, except load-state waits that raised an
    [async_api.Error]; every user-interface call of the script was made; no
    assertion failed; and the three resources were acquired and closed
    exactly once each. *)
Theorem pass_means_everything_succeeded (env : Env) (sc : Scenario) :
  verdict env sc = Pass ->
  forallb (fun ev => returned ev || recovered_wait ev) (final_trace env sc)
  = true /\
  ui_calls (final_trace env sc) = planned_ui sc /\
  filter failed_assertion (final_trace env sc) = [] /\
  forall r, acquired r (final_trace env sc) = true /\
            release_count r (final_trace env sc) = 1%nat.
Proof.
  intros Hpass.
  destruct (pass_facts env sc Hpass) as [_ [Hall [Hclean Hacq]]].
  split; [exact Hall |].
  split; [apply (ui_calls_follow_script env sc); exact Hpass |]. split.
  - apply filter_none. intros x Hx.
    destruct (failed_assertion x) eqn:Ex; [| reflexivity].
    apply failed_assertion_fatal in Ex. rewrite fatal_spec in Ex.
    rewrite (proj1 (forallb_forall _ _) Hall x Hx) in Ex. discriminate Ex.
  - intros r. split; [apply Hacq |].
    apply clean_run_closes_acquired; [apply Hacq | exact Hclean].
Qed.

Lemma pass_means_everything_succeeded_witness :
  verdict (raise_on is_load_wait timeout_error) TC003 = Pass /\
  ui_calls (final_trace (raise_on is_load_wait timeout_error) TC003)
  = planned_ui TC003 /\
  release_count Browser
    (final_trace (raise_on is_load_wait timeout_error) TC003) = 1%nat.
Proof.
  assert (H : verdict (raise_on is_load_wait timeout_error) TC003 = Pass)
    by (vm_compute; reflexivity).
  destruct (pass_means_everything_succeeded _ _ H) as [_ [Hui [_ Hr]]].
  split; [exact H |]. split; [exact Hui |]. apply (Hr Browser).
Defined.

(** X2.  Outside the two handlers of the script nothing is caught or
    rewritten: when a call of the [try] block raises and it is neither a
    load-state wait raising an [async_api.Error] nor a failed assertion,
    the [try] block raises that very exception, only close calls follow,
    and the verdict carries its message when no close call raises.  This
    covers an [expect] that raises something else than [AssertionError]
    and a load-state wait that raises something else than
    [async_api.Error]. *)
Theorem other_errors_propagate_unchanged
  (env : Env) (sc : Scenario) (n : nat) (c : Call) (e : Exn) :
  nth_error (final_trace env sc) n = Some (c, Raises e) ->
  is_release c = false ->
  recovered_wait (c, Raises e) = false ->
  failed_assertion (c, Raises e) = false ->
  fst (run_body env sc) = inl e /\
  forallb (fun ev => is_release (fst ev))
          (skipn (S n) (final_trace env sc)) = true /\
  (teardown_clean (final_trace env sc) = true ->
   verdict env sc = Fail (exn_msg e)).
Proof.
  intros Hn Hr Hrec Hfa.
  pose proof (nth_error_decompose _ _ _ Hn) as Hsplit.
  assert (Hf : fatal (c, Raises e) = true).
  { rewrite fatal_spec, Hrec. reflexivity. }
  destruct (fatal_event env sc _ _ _ Hsplit Hf Hr)
    as [Hpost [_ [_ [_ [e1 [Hb [Hcause _]]]]]]].
  assert (He1 : e1 = e).
  { simpl in Hcause.
    destruct Hcause as [[-> _] | [l [t [d [-> [Ha _]]]]]]; [reflexivity |].
    simpl in Hfa. rewrite Ha in Hfa. discriminate Hfa. }
  subst e1. split; [exact Hb |]. split; [exact Hpost |].
  intros Hc. unfold verdict.
  rewrite (proj1 (final_clean env sc Hc)), Hb. reflexivity.
Qed.

Lemma other_errors_propagate_unchanged_witness :
  nth_error (final_trace (raise_on is_expect target_closed) TC014) 34
  = Some (ExpectToBeVisible
            (Loc "text=Migration Completed Successfully" First) 1000,
          Raises target_closed) /\
  verdict (raise_on is_expect target_closed) TC014
  = Fail "Target page, context or browser has been closed".
Proof.
  assert (H : nth_error (final_trace (raise_on is_expect target_closed) TC014)
                        34
              = Some (ExpectToBeVisible
                        (Loc "text=Migration Completed Successfully" First)
                        1000,
                      Raises target_closed))
    by (vm_compute; reflexivity).
  split; [exact H |].
  apply (other_errors_propagate_unchanged _ _ _ _ _ H);
    vm_compute; reflexivity.
Defined.

(** X3.  A run has at most one unrecovered failure in its [try] block:
    exactly one when the block raises, none when it returns. *)
Theorem one_unrecovered_failure (env : Env) (sc : Scenario) :
  length (filter unrecovered (final_trace env sc))
  = match fst (run_body env sc) with
    | inl _ => 1%nat
    | inr _ => 0%nat
    end.
Proof.
  destruct (run_shape env sc)
    as [td [Htr [[[_ [_ [Hq _]]] Hb] [Hrel _]]]].
  rewrite Htr, filter_app, length_app.
  rewrite (filter_none unrecovered td).
  2: { intros x Hx. unfold unrecovered.
       rewrite (proj1 (forallb_forall _ _) Hrel x Hx). apply andb_false_r. }
  rewrite Nat.add_0_r.
  destruct (fst (run_body env sc)) as [e | u].
  - destruct Hb as [pre [last [Heq [Hlive [Hfatal _]]]]].
    rewrite Heq in Hq |- *. rewrite filter_app, length_app.
    rewrite (filter_none unrecovered pre).
    2: { intros x Hx. unfold unrecovered.
         rewrite (live_not_fatal _ _ Hlive Hx). reflexivity. }
    rewrite forallb_app in Hq. apply andb_true_iff in Hq.
    destruct Hq as [_ Hq]. simpl in Hq. rewrite andb_true_r in Hq.
    apply release_is_quiet_false in Hq.
    simpl. unfold unrecovered. rewrite Hfatal, Hq. reflexivity.
  - rewrite (filter_none unrecovered); [reflexivity |].
    intros x Hx. unfold unrecovered.
    rewrite (live_not_fatal _ _ Hb Hx). reflexivity.
Qed.

(** X4.  The diagnostic of a Fail verdict is never made up by the
    runner: it is the message of an exception that a call of the run
    raised, or one of the fixed diagnostics written in the script. *)
Theorem fail_diagnostic_origin (env : Env) (sc : Scenario) (d : string) :
  verdict env sc = Fail d ->
  (exists c e, In (c, Raises e) (final_trace env sc) /\ exn_msg e = d) \/
  In d (diagnostics (steps sc)).
Proof.
  intros Hv. unfold verdict in Hv.
  destruct (fst (run_test env sc)) as [e | u] eqn:Er; [| discriminate Hv].
  simpl in Hv. injection Hv as <-.
  pose proof (body_post env sc) as [_ Hb].
  assert (Hfin : final_trace env sc
                 = trace (snd (teardown env (snd (run_body env sc))))).
  { unfold final_trace. rewrite run_test_eq.
    destruct (teardown env (snd (run_body env sc))) as [[e' | u'] st2];
      reflexivity. }
  rewrite run_test_eq in Er.
  destruct (teardown env (snd (run_body env sc))) as [[e' | u'] st2] eqn:Et;
    simpl in Er.
  - injection Er as ->. left.
    destruct (teardown_raise_origin env (snd (run_body env sc)) e) as [c Hc].
    { rewrite Et. reflexivity. }
    exists c, e. split; [| reflexivity]. rewrite Hfin.
    rewrite Et in Hc. exact Hc.
  - rewrite Er in Hb. destruct Hb as [pre [[c rep] [Heq [_ [_ Hcause]]]]].
    destruct rep as [v | e0]; [destruct Hcause |].
    assert (Hin : In (c, Raises e0) (final_trace env sc)).
    { rewrite Hfin.
      destruct (teardown_spec env (snd (run_body env sc))) as [td [Htd _]].
      rewrite Et in Htd. rewrite Htd, Heq. apply in_or_app. left. apply in_or_app. right.
      left. reflexivity. }
    destruct Hcause as [[-> _] | [l [t [d [_ [_ [-> Hd]]]]]]].
    + left. exists c, e0. split; [exact Hin | reflexivity].
    + right. simpl. apply (diagnostics_in _ l t d Hd).
Qed.

Lemma fail_diagnostic_origin_witness :
  verdict (raise_at 11 timeout_error) TC001 = Fail "Timeout 5000ms exceeded." /\
  ((exists c e, In (c, Raises e) (final_trace (raise_at 11 timeout_error) TC001)
                /\ exn_msg e = "Timeout 5000ms exceeded.") \/
   In "Timeout 5000ms exceeded." (diagnostics (steps TC001))).
Proof.
  assert (H : verdict (raise_at 11 timeout_error) TC001
              = Fail "Timeout 5000ms exceeded.")
    by (vm_compute; reflexivity).
  split; [exact H |]. apply (fail_diagnostic_origin _ _ _ H).
Defined.

(** ** Properties the trace keeps *)

Section Keeping.

Variable env : Env.
Variable I : list Event -> Prop.

Lemma keeps_ret {A : Type} (a : A) : Keeps I (ret a).
Proof. intros st H. exact H. Qed.

Lemma keeps_raise {A : Type} (e : Exn) : Keeps I (@raise A e).
Proof. intros st H. exact H. Qed.

Lemma keeps_get {A : Type} (f : State -> A) : Keeps I (get f).
Proof. intros st H. exact H. Qed.

Lemma keeps_set_pw (v : nat) : Keeps I (set_pw v).
Proof. intros st H. exact H. Qed.

Lemma keeps_set_browser (v : nat) : Keeps I (set_browser v).
Proof. intros st H. exact H. Qed.

Lemma keeps_set_context (v : nat) : Keeps I (set_context v).
Proof. intros st H. exact H. Qed.

Lemma keeps_bind {A B : Type} (m : M A) (k : A -> M B) :
  Keeps I m -> (forall a, Keeps I (k a)) -> Keeps I (bind m k).
Proof.
  intros Hm Hk st H. unfold bind. specialize (Hm st H).
  destruct (m st) as [[e | a] st1]; simpl in *; [exact Hm |].
  apply Hk. exact Hm.
Qed.

Lemma keeps_call (c : Call) :
  (forall tr r, I tr -> I (tr ++ [(c, r)])) -> Keeps I (call env c).
Proof.
  intros Hc st H. unfold call.
  destruct (env (length (trace st)) c); simpl; apply Hc; exact H.
Qed.

Lemma keeps_call_ (c : Call) :
  (forall tr r, I tr -> I (tr ++ [(c, r)])) -> Keeps I (call_ env c).
Proof.
  intros Hc. unfold call_. apply keeps_bind.
  - apply keeps_call. exact Hc.
  - intros _. apply keeps_ret.
Qed.

Lemma keeps_try_except {A : Type} (m : M A) (catches : Exn -> bool)
  (h : M A) :
  Keeps I m -> Keeps I h -> Keeps I (try_except m catches h).
Proof.
  intros Hm Hh st H. unfold try_except. specialize (Hm st H).
  destruct (m st) as [[e | a] st1]; simpl in *; [| exact Hm].
  destruct (catches e); [apply Hh |]; exact Hm.
Qed.

Lemma keeps_try_finally {A : Type} (m : M A) (f : M unit) :
  Keeps I m -> Keeps I f -> Keeps I (try_finally m f).
Proof.
  intros Hm Hf st H. unfold try_finally. specialize (Hm st H).
  destruct (m st) as [r st1]; simpl in *. specialize (Hf st1 Hm).
  destruct (f st1) as [[e | u] st2]; exact Hf.
Qed.

Lemma keeps_for_each {A : Type} (xs : list A) (f : A -> M unit) :
  (forall x, Keeps I (f x)) -> Keeps I (for_each xs f).
Proof.
  intros Hf. induction xs as [| x xs IH]; simpl.
  - apply keeps_ret.
  - apply keeps_bind; [apply Hf | intros _; exact IH].
Qed.

Lemma keeps_when_set (v : option nat) (m : M unit) :
  Keeps I m -> Keeps I (when_set v m).
Proof. intros Hm. destruct v; simpl; [exact Hm | apply keeps_ret]. Qed.

End Keeping.

(** ** The fixed delay in front of clicks and fills *)

Lemma settled_lift (tr d : list Event) (n : nat) (c : Call) (r : Reply) :
  settled tr -> (n < length tr)%nat ->
  nth_error (tr ++ d) n = Some (c, r) -> is_action c = true ->
  exists m v1 v2,
    n = S (S m) /\
    nth_error (tr ++ d) m = Some (ContextPages, Returns v1) /\
    nth_error (tr ++ d) (S m)
    = Some (WaitForTimeout settle_delay, Returns v2).
Proof.
  intros Hs Hlt Hn Ha. rewrite nth_error_app1 in Hn by exact Hlt.
  destruct (Hs n c r Hn Ha) as [m [v1 [v2 [-> [H1 H2]]]]].
  exists m, v1, v2. split; [reflexivity |].
  split; rewrite nth_error_app1; try assumption; lia.
Qed.

Lemma settled_app_other (tr d : list Event) :
  settled tr -> forallb (fun ev => negb (is_action (fst ev))) d = true ->
  settled (tr ++ d).
Proof.
  intros Hs Hd n c r Hn Ha.
  destruct (Nat.lt_ge_cases n (length tr)) as [Hlt | Hge].
  - apply (settled_lift tr d n c r Hs Hlt Hn Ha).
  - rewrite nth_error_app2 in Hn by exact Hge. apply nth_error_In in Hn.
    apply (proj1 (forallb_forall _ _) Hd) in Hn. simpl in Hn.
    rewrite Ha in Hn. discriminate Hn.
Qed.

Lemma settled_snoc (c : Call) (tr : list Event) (r : Reply) :
  is_action c = false -> settled tr -> settled (tr ++ [(c, r)]).
Proof.
  intros Hc Hs. apply settled_app_other; [exact Hs |].
  simpl. rewrite Hc. reflexivity.
Qed.

Lemma settled_action (tr : list Event) (v1 v2 : nat) (c : Call) (r : Reply) :
  settled tr ->
  settled (tr ++ [(ContextPages, Returns v1);
                  (WaitForTimeout settle_delay, Returns v2); (c, r)]).
Proof.
  intros Hs n c' r' Hn Ha.
  destruct (Nat.lt_ge_cases n (length tr)) as [Hlt | Hge].
  - apply (settled_lift tr _ n c' r' Hs Hlt Hn Ha).
  - rewrite nth_error_app2 in Hn by exact Hge.
    destruct (n - length tr)%nat as [| [| [| k]]] eqn:Ek; simpl in Hn.
    + injection Hn as <- _. discriminate Ha.
    + injection Hn as <- _. discriminate Ha.
    + exists (length tr), v1, v2. split; [lia |].
      split; rewrite nth_error_app2 by lia.
      * rewrite Nat.sub_diag. reflexivity.
      * replace (S (length tr) - length tr)%nat with 1%nat by lia.
        reflexivity.
    + destruct k; discriminate Hn.
Qed.

Section Settling.

Variable env : Env.

Lemma keeps_settled_call_ (c : Call) :
  is_action c = false -> Keeps settled (call_ env c).
Proof.
  intros Hc. apply keeps_call_. intros tr r. apply settled_snoc. exact Hc.
Qed.

Lemma keeps_settled_action (c : Call) :
  Keeps settled
    (call_ env ContextPages ;;
     call_ env (WaitForTimeout settle_delay) ;;
     call_ env c)%run.
Proof.
  intros st Hs. unfold call_. unfold bind, call, ret.
  repeat match goal with
         | |- context [env ?n ?c'] =>
           let E := fresh "E" in destruct (env n c') eqn:E; simpl
         end;
    rewrite <- ?app_assoc; simpl;
    first [ apply settled_action; exact Hs
          | apply settled_app_other; [exact Hs | reflexivity] ].
Qed.

Lemma keeps_settled_exec_step (s : Step) : Keeps settled (exec_step env s).
Proof.
  destruct s; simpl.
  - apply keeps_settled_action.
  - apply keeps_settled_action.
  - apply keeps_settled_call_. reflexivity.
  - apply keeps_settled_call_. reflexivity.
  - apply keeps_settled_call_. reflexivity.
  - apply keeps_settled_call_. reflexivity.
  - apply keeps_try_except; [| apply keeps_raise].
    apply keeps_settled_call_. reflexivity.
Qed.

Lemma keeps_settled_best_effort (c : Call) :
  is_action c = false -> Keeps settled (best_effort env c).
Proof.
  intros Hc. unfold best_effort. apply keeps_try_except; [| apply keeps_ret].
  apply keeps_settled_call_. exact Hc.
Qed.

Lemma keeps_settled_call (c : Call) :
  is_action c = false -> Keeps settled (call env c).
Proof.
  intros Hc. apply keeps_call. intros tr r. apply settled_snoc. exact Hc.
Qed.

Lemma keeps_settled_body (sc : Scenario) : Keeps settled (body env sc).
Proof.
  unfold body.
  apply keeps_bind; [apply keeps_settled_call; reflexivity | intros p].
  apply keeps_bind; [apply keeps_set_pw | intros _].
  apply keeps_bind; [apply keeps_settled_call; reflexivity | intros b].
  apply keeps_bind; [apply keeps_set_browser | intros _].
  apply keeps_bind; [apply keeps_settled_call; reflexivity | intros c].
  apply keeps_bind; [apply keeps_set_context | intros _].
  apply keeps_bind; [apply keeps_settled_call_; reflexivity | intros _].
  apply keeps_bind; [apply keeps_settled_call_; reflexivity | intros _].
  apply keeps_bind; [apply keeps_settled_call_; reflexivity | intros _].
  apply keeps_bind; [apply keeps_settled_best_effort; reflexivity | intros _].
  apply keeps_bind; [apply keeps_settled_call; reflexivity | intros n].
  apply keeps_bind.
  - apply keeps_for_each. intros i. apply keeps_settled_best_effort.
    reflexivity.
  - intros _. apply keeps_for_each. apply keeps_settled_exec_step.
Qed.

Lemma keeps_settled_teardown : Keeps settled (teardown env).
Proof.
  unfold teardown.
  apply keeps_bind; [apply keeps_get | intros c].
  apply keeps_bind;
    [apply keeps_when_set, keeps_settled_call_; reflexivity | intros _].
  apply keeps_bind; [apply keeps_get | intros b].
  apply keeps_bind;
    [apply keeps_when_set, keeps_settled_call_; reflexivity | intros _].
  apply keeps_bind; [apply keeps_get | intros p].
  apply keeps_when_set, keeps_settled_call_. reflexivity.
Qed.

End Settling.

(** X5.  In every run, every click and every fill comes right after a
    completed [wait_for_timeout(3000)], which itself comes right after a
    completed lookup of [context.pages[-1]]: no action is made without its
    fixed delay, and none after a delay that raised. *)
Theorem actions_wait_for_fixed_delay
  (env : Env) (sc : Scenario) (n : nat) (c : Call) (r : Reply) :
  nth_error (final_trace env sc) n = Some (c, r) ->
  is_action c = true ->
  exists m v1 v2,
    n = S (S m) /\
    nth_error (final_trace env sc) m = Some (ContextPages, Returns v1) /\
    nth_error (final_trace env sc) (S m)
    = Some (WaitForTimeout settle_delay, Returns v2).
Proof.
  assert (Hs : settled (final_trace env sc)).
  { unfold final_trace, run_test.
    apply (keeps_try_finally settled (body env sc) (teardown env)
             (keeps_settled_body env sc) (keeps_settled_teardown env) init).
    intros k c' r' Hk. destruct k; discriminate Hk. }
  apply Hs.
Qed.

Lemma actions_wait_for_fixed_delay_witness :
  nth_error (final_trace all_ok TC002) 11
  = Some (LocatorClick
            (Loc "xpath=html/body/div[2]/nav/div[2]/div/div[2]/div[2]/button"
                 Nth0) 5000, Returns 1%nat) /\
  exists m v1 v2,
    11%nat = S (S m) /\
    nth_error (final_trace all_ok TC002) m = Some (ContextPages, Returns v1) /\
    nth_error (final_trace all_ok TC002) (S m)
    = Some (WaitForTimeout settle_delay, Returns v2).
Proof.
  assert (H : nth_error (final_trace all_ok TC002) 11
              = Some (LocatorClick
                        (Loc "xpath=html/body/div[2]/nav/div[2]/div/div[2]/div[2]/button"
                             Nth0) 5000, Returns 1%nat))
    by (vm_compute; reflexivity).
  split; [exact H |].
  apply (actions_wait_for_fixed_delay _ _ _ _ _ H). reflexivity.
Defined.

(** ** The calls of a run follow the text of the script *)

Lemma calls_app (l1 l2 : list Event) : calls (l1 ++ l2) = calls l1 ++ calls l2.
Proof. unfold calls. apply map_app. Qed.

Lemma frames_reported_skip (d1 d2 : list Event) :
  forallb (fun c => negb (is_page_frames c)) (calls d1) = true ->
  frames_reported (d1 ++ d2) = frames_reported d2.
Proof.
  induction d1 as [| [c r] d1 IH]; simpl; intros H; [reflexivity |].
  apply andb_true_iff in H. destruct H as [Hc Hd].
  destruct c; try discriminate Hc; destruct r; apply IH; exact Hd.
Qed.

Lemma frames_reported_none (d : list Event) :
  forallb (fun c => negb (is_page_frames c)) (calls d) = true ->
  frames_reported d = 0%nat.
Proof.
  intros H. rewrite <- (app_nil_r d). rewrite frames_reported_skip by exact H.
  reflexivity.
Qed.

Lemma forallb_firstn {A : Type} (p : A -> bool) (k : nat) (l : list A) :
  forallb p l = true -> forallb p (firstn k l) = true.
Proof.
  revert k. induction l as [| a l IH]; intros k H.
  - rewrite firstn_nil. reflexivity.
  - destruct k; [reflexivity |]. simpl in *.
    apply andb_true_iff in H. destruct H as [Ha Hl].
    rewrite Ha. apply IH. exact Hl.
Qed.

Lemma filter_firstn_prefix {A : Type} (p : A -> bool) (k : nat) (l : list A) :
  exists j, filter p (firstn k l) = firstn j (filter p l).
Proof.
  revert k. induction l as [| a l IH]; intros k.
  - exists 0%nat. rewrite firstn_nil. reflexivity.
  - destruct k as [| k]; [exists 0%nat; reflexivity |].
    destruct (IH k) as [j Hj]. simpl.
    destruct (p a); [exists (S j); simpl; rewrite Hj | exists j; rewrite Hj];
      reflexivity.
Qed.

Lemma releases_calls (td : list Event) :
  forallb (fun ev => is_release (fst ev)) td = true ->
  calls td = map close_call (release_order td).
Proof.
  induction td as [| [c r] td IH]; simpl; intros H; [reflexivity |].
  apply andb_true_iff in H. destruct H as [Hc Htd].
  destruct c; try discriminate Hc; simpl; rewrite (IH Htd); reflexivity.
Qed.

Lemma releases_no_page_frames (td : list Event) :
  forallb (fun ev => is_release (fst ev)) td = true ->
  forallb (fun c => negb (is_page_frames c)) (calls td) = true.
Proof.
  induction td as [| [c r] td IH]; simpl; intros H; [reflexivity |].
  apply andb_true_iff in H. destruct H as [Hc Htd].
  rewrite (IH Htd). destruct c; try discriminate Hc; reflexivity.
Qed.

Lemma releases_frames_reported (bt td : list Event) :
  forallb (fun ev => is_release (fst ev)) td = true ->
  frames_reported (bt ++ td) = frames_reported bt.
Proof.
  intros Htd. induction bt as [| [c r] bt IH]; simpl.
  - apply frames_reported_none. apply releases_no_page_frames. exact Htd.
  - destruct c; try exact IH. destruct r; [reflexivity | exact IH].
Qed.

Section Following.

Variable env : Env.

Lemma follows_ret {A : Type} (a : A) : Follows [] (ret a).
Proof. intros st. exists []. split; [symmetry; apply app_nil_r | reflexivity]. Qed.

Lemma follows_set_pw (v : nat) : Follows [] (set_pw v).
Proof. intros st. exists []. split; [symmetry; apply app_nil_r | reflexivity]. Qed.

Lemma follows_set_browser (v : nat) : Follows [] (set_browser v).
Proof. intros st. exists []. split; [symmetry; apply app_nil_r | reflexivity]. Qed.

Lemma follows_set_context (v : nat) : Follows [] (set_context v).
Proof. intros st. exists []. split; [symmetry; apply app_nil_r | reflexivity]. Qed.

Lemma follows_bind {A B : Type} (P1 P2 : list Call) (m : M A) (k : A -> M B) :
  Follows P1 m -> (forall a, Follows P2 (k a)) -> Follows (P1 ++ P2) (bind m k).
Proof.
  intros Hm Hk st. destruct (Hm st) as [d1 [Hd1 H1]]. unfold bind.
  destruct (m st) as [[e | a] st1]; simpl in *.
  - exists d1. split; [exact Hd1 |]. destruct H1 as [j Hj].
    destruct (firstn_prefix_app j P1 P2) as [j' Hj'].
    exists j'. rewrite Hj. exact Hj'.
  - destruct (Hk a st1) as [d2 [Hd2 H2]]. exists (d1 ++ d2).
    split; [rewrite Hd2, Hd1, app_assoc; reflexivity |].
    rewrite calls_app, H1.
    destruct (fst (k a st1)) as [e | b].
    + destruct H2 as [j Hj]. exists (length P1 + j)%nat.
      rewrite Hj, firstn_app_2. reflexivity.
    + rewrite H2. reflexivity.
Qed.

Lemma follows_call (c : Call) : Follows [c] (call env c).
Proof.
  intros st. exists [(c, env (length (trace st)) c)]. unfold call.
  destruct (env (length (trace st)) c); simpl;
    (split; [reflexivity |]); [reflexivity | exists 1%nat; reflexivity].
Qed.

Lemma follows_call_ (c : Call) : Follows [c] (call_ env c).
Proof.
  unfold call_. apply (follows_bind [c] []).
  - apply follows_call.
  - intros _. apply follows_ret.
Qed.

Lemma follows_best_effort (c : Call) : Follows [c] (best_effort env c).
Proof.
  intros st. exists [(c, env (length (trace st)) c)].
  unfold best_effort, try_except, call_, bind, call, ret.
  destruct (env (length (trace st)) c) as [v | e]; simpl.
  - split; reflexivity.
  - destruct (is_async_api_Error e); simpl;
      (split; [reflexivity |]); [reflexivity | exists 1%nat; reflexivity].
Qed.

Lemma follows_assert_wrapped (l : Locator) (t : Z) (d : string) :
  Follows [ExpectToBeVisible l t]
          (try_except (call_ env (ExpectToBeVisible l t)) is_AssertionError
                      (raise (mkExn AssertionError d))).
Proof.
  intros st.
  exists [(ExpectToBeVisible l t,
           env (length (trace st)) (ExpectToBeVisible l t))].
  unfold try_except, call_, bind, call, ret, raise.
  destruct (env (length (trace st)) (ExpectToBeVisible l t)) as [v | e]; simpl.
  - split; reflexivity.
  - destruct (is_AssertionError e); simpl;
      (split; [reflexivity |]); exists 1%nat; reflexivity.
Qed.

Lemma follows_exec_step (s : Step) : Follows (step_calls s) (exec_step env s).
Proof.
  destruct s; simpl.
  - apply (follows_bind [_] [_; _]); [apply follows_call_ | intros _].
    apply (follows_bind [_] [_]); [apply follows_call_ | intros _].
    apply follows_call_.
  - apply (follows_bind [_] [_; _]); [apply follows_call_ | intros _].
    apply (follows_bind [_] [_]); [apply follows_call_ | intros _].
    apply follows_call_.
  - apply follows_call_.
  - apply follows_call_.
  - apply follows_call_.
  - apply follows_call_.
  - apply follows_assert_wrapped.
Qed.

Lemma follows_exec_steps (ss : list Step) :
  Follows (flat_map step_calls ss) (exec_steps env ss).
Proof.
  unfold exec_steps. induction ss as [| s ss IH]; simpl.
  - apply follows_ret.
  - apply follows_bind; [apply follows_exec_step | intros _; exact IH].
Qed.

Lemma follows_frame_loop (n : nat) :
  Follows (frame_waits n)
    (for_each (seq 0 n)
       (fun i => best_effort env
                   (FrameWaitForLoadState i "domcontentloaded" 3000))).
Proof.
  unfold frame_waits. generalize (seq 0 n). intros xs.
  induction xs as [| x xs IH]; simpl.
  - apply follows_ret.
  - apply (follows_bind [_]); [apply follows_best_effort | intros _; exact IH].
Qed.

(** The [try] block after the load-state wait of the page: from the
    query of [page.frames] on. *)
Lemma follows_frames_and_steps (sc : Scenario) (st : State) :
  exists d,
    trace (snd ((n <- call env PageFrames ;;
                 for_each (seq 0 n)
                   (fun i => best_effort env
                      (FrameWaitForLoadState i "domcontentloaded" 3000)) ;;
                 exec_steps env (steps sc))%run st))
    = trace st ++ d /\
    match fst ((n <- call env PageFrames ;;
                for_each (seq 0 n)
                  (fun i => best_effort env
                     (FrameWaitForLoadState i "domcontentloaded" 3000)) ;;
                exec_steps env (steps sc))%run st) with
    | inr _ =>
        calls d = PageFrames :: frame_waits (frames_reported d)
                  ++ flat_map step_calls (steps sc)
    | inl _ =>
        exists k,
          calls d = firstn k (PageFrames :: frame_waits (frames_reported d)
                              ++ flat_map step_calls (steps sc))
    end.
Proof.
  unfold bind at 1 3. unfold call.
  destruct (env (length (trace st)) PageFrames) as [v | e]; simpl.
  - pose proof (follows_bind _ _ _ _ (follows_frame_loop v)
                  (fun _ => follows_exec_steps (steps sc))
                  (record (PageFrames, Returns v) st)) as [d [Hd H]].
    exists ((PageFrames, Returns v) :: d). split.
    + rewrite Hd. simpl. rewrite <- app_assoc. reflexivity.
    + simpl.
      destruct (fst ((for_each (seq 0 v)
                        (fun i => best_effort env
                           (FrameWaitForLoadState i "domcontentloaded" 3000)) ;;
                      exec_steps env (steps sc))%run
                       (record (PageFrames, Returns v) st))) as [e | u].
      * destruct H as [k Hk]. exists (S k). simpl. rewrite Hk. reflexivity.
      * rewrite H. reflexivity.
  - exists [(PageFrames, Raises e)]. split; [reflexivity |].
    exists 1%nat. reflexivity.
Qed.

Lemma follows_opening (sc : Scenario) (k : M unit) :
  (forall st, exists d,
      trace (snd (k st)) = trace st ++ d /\
      match fst (k st) with
      | inr _ => calls d = PageFrames :: frame_waits (frames_reported d)
                           ++ flat_map step_calls (steps sc)
      | inl _ => exists j,
          calls d = firstn j (PageFrames :: frame_waits (frames_reported d)
                              ++ flat_map step_calls (steps sc))
      end) ->
  forall (m : M unit), Follows (opening_calls sc) m ->
  forall st, exists d,
      trace (snd (bind m (fun _ => k) st)) = trace st ++ d /\
      match fst (bind m (fun _ => k) st) with
      | inr _ => calls d = script_calls (frames_reported d) sc
      | inl _ => exists j, calls d = firstn j (script_calls (frames_reported d) sc)
      end.
Proof.
  intros Hk m Hm st. destruct (Hm st) as [d1 [Hd1 H1]]. unfold bind.
  assert (Hno : forallb (fun c => negb (is_page_frames c)) (opening_calls sc)
                = true) by reflexivity.
  destruct (m st) as [[e | u] st1]; simpl in *.
  - exists d1. split; [exact Hd1 |]. destruct H1 as [j Hj].
    rewrite (frames_reported_none d1).
    2: { rewrite Hj. apply forallb_firstn. exact Hno. }
    destruct (firstn_prefix_app j (opening_calls sc)
                (PageFrames :: frame_waits 0
                 ++ flat_map step_calls (steps sc))) as [j' Hj'].
    exists j'. rewrite Hj. exact Hj'.
  - destruct (Hk st1) as [d2 [Hd2 H2]]. exists (d1 ++ d2).
    split; [rewrite Hd2, Hd1, app_assoc; reflexivity |].
    rewrite frames_reported_skip by (rewrite H1; exact Hno).
    rewrite calls_app, H1. unfold script_calls.
    destruct (fst (k st1)) as [e | u'].
    + destruct H2 as [j Hj]. exists (length (opening_calls sc) + j)%nat.
      rewrite Hj, firstn_app_2. reflexivity.
    + rewrite H2. reflexivity.
Qed.

(** The calls of the [try] block are the calls of the script, in the
    order of its text, up to the call that raised. *)
Lemma body_follows_script (sc : Scenario) :
  exists k,
    calls (trace (snd (run_body env sc)))
    = firstn k (script_calls (frames_reported (trace (snd (run_body env sc))))
                             sc) /\
    (forall u, fst (run_body env sc) = inr u ->
     calls (trace (snd (run_body env sc)))
     = script_calls (frames_reported (trace (snd (run_body env sc)))) sc).
Proof.
  set (opening :=
         (p <- call env PwStart ;; set_pw p ;;
          b <- call env (ChromiumLaunch true launch_args) ;; set_browser b ;;
          c <- call env NewContext ;; set_context c ;;
          call_ env (SetDefaultTimeout 5000) ;;
          call_ env NewPage ;;
          call_ env (Goto (entry_url sc) (Some "commit") 10000) ;;
          best_effort env (PageWaitForLoadState "domcontentloaded" 3000))%run).
  set (rest :=
         (n <- call env PageFrames ;;
          for_each (seq 0 n)
            (fun i => best_effort env
               (FrameWaitForLoadState i "domcontentloaded" 3000)) ;;
          exec_steps env (steps sc))%run).
  assert (Hsplit : forall st, body env sc st = bind opening (fun _ => rest) st).
  { intros st. unfold body, opening, rest, bind.
    destruct (call env PwStart st) as [[e | p] st1]; [reflexivity |].
    simpl.
    destruct (call env (ChromiumLaunch true launch_args) _)
      as [[e | b] st2]; [reflexivity |].
    simpl.
    destruct (call env NewContext _) as [[e | c] st3]; [reflexivity |].
    simpl.
    destruct (call_ env (SetDefaultTimeout 5000) _)
      as [[e | u1] st4]; [reflexivity |].
    destruct (call_ env NewPage _) as [[e | u2] st5]; [reflexivity |].
    destruct (call_ env (Goto (entry_url sc) (Some "commit") 10000) _)
      as [[e | u3] st6]; [reflexivity |].
    destruct (best_effort env (PageWaitForLoadState "domcontentloaded" 3000) _)
      as [[e | u4] st7]; reflexivity. }
  assert (Hopen : Follows (opening_calls sc) opening).
  { unfold opening, opening_calls.
    apply (follows_bind [_] [_; _; _; _; _; _]); [apply follows_call | intros p].
    apply (follows_bind [] [_; _; _; _; _; _]); [apply follows_set_pw | intros _].
    apply (follows_bind [_] [_; _; _; _; _]); [apply follows_call | intros b].
    apply (follows_bind [] [_; _; _; _; _]);
      [apply follows_set_browser | intros _].
    apply (follows_bind [_] [_; _; _; _]); [apply follows_call | intros c].
    apply (follows_bind [] [_; _; _; _]);
      [apply follows_set_context | intros _].
    apply (follows_bind [_] [_; _; _]); [apply follows_call_ | intros _].
    apply (follows_bind [_] [_; _]); [apply follows_call_ | intros _].
    apply (follows_bind [_] [_]); [apply follows_call_ | intros _].
    apply follows_best_effort. }
  destruct (follows_opening sc rest (follows_frames_and_steps sc)
              opening Hopen init) as [d [Hd H]].
  unfold run_body. rewrite Hsplit. simpl in Hd. rewrite Hd.
  destruct (fst (bind opening (fun _ => rest) init)) as [e | u].
  - destruct H as [j Hj]. exists j. split; [exact Hj |].
    intros u Hu. discriminate Hu.
  - exists (length (script_calls (frames_reported d) sc)).
    rewrite firstn_all. split; [exact H | intros _ _; exact H].
Qed.

End Following.

Lemma filter_close_calls (p : Call -> bool) (rs : list Resource) :
  (forall r, p (close_call r) = false) -> filter p (map close_call rs) = [].
Proof.
  intros Hp. apply filter_none. intros x Hx. apply in_map_iff in Hx.
  destruct Hx as [r [<- _]]. apply Hp.
Qed.

Lemma filter_all {A : Type} (p : A -> bool) (l : list A) :
  forallb p l = true -> filter p l = l.
Proof.
  induction l as [| a l IH]; simpl; intros H; [reflexivity |].
  apply andb_true_iff in H. destruct H as [Ha Hl]. rewrite Ha, (IH Hl).
  reflexivity.
Qed.

Lemma filter_forallb_none {A : Type} (p : A -> bool) (l : list A) :
  forallb (fun x => negb (p x)) l = true -> filter p l = [].
Proof.
  intros H. apply filter_none. intros x Hx.
  apply (proj1 (forallb_forall _ _) H) in Hx. apply negb_true_iff. exact Hx.
Qed.

Lemma step_calls_no_frame_wait (ss : list Step) :
  forallb (fun c => negb (is_frame_wait c)) (flat_map step_calls ss) = true.
Proof.
  induction ss as [| s ss IH]; simpl; [reflexivity |].
  rewrite forallb_app, IH. destruct s; reflexivity.
Qed.

Lemma step_calls_no_setup (ss : list Step) :
  forallb (fun c => negb (is_setup c)) (flat_map step_calls ss) = true.
Proof.
  induction ss as [| s ss IH]; simpl; [reflexivity |].
  rewrite forallb_app, IH. destruct s; reflexivity.
Qed.

Lemma frame_waits_are_frame_waits (n : nat) :
  forallb is_frame_wait (frame_waits n) = true.
Proof.
  unfold frame_waits. generalize (seq 0 n). intros xs.
  induction xs as [| x xs IH]; simpl; [reflexivity | exact IH].
Qed.

Lemma frame_waits_no_setup (n : nat) :
  forallb (fun c => negb (is_setup c)) (frame_waits n) = true.
Proof.
  unfold frame_waits. generalize (seq 0 n). intros xs.
  induction xs as [| x xs IH]; simpl; [reflexivity | exact IH].
Qed.

Lemma script_frame_waits (n : nat) (sc : Scenario) :
  filter is_frame_wait (script_calls n sc) = frame_waits n.
Proof.
  unfold script_calls. simpl. rewrite filter_app.
  rewrite (filter_all _ _ (frame_waits_are_frame_waits n)).
  rewrite (filter_forallb_none _ _ (step_calls_no_frame_wait (steps sc))).
  apply app_nil_r.
Qed.

(** The calls of a run: a prefix of the script, then the close calls. *)
Lemma final_calls_shape (env : Env) (sc : Scenario) :
  exists k,
    calls (final_trace env sc)
    = firstn k (script_calls (frames_reported (final_trace env sc)) sc)
      ++ map close_call (release_order (final_trace env sc)) /\
    (forall u, fst (run_body env sc) = inr u ->
     calls (final_trace env sc)
     = script_calls (frames_reported (final_trace env sc)) sc
       ++ map close_call (release_order (final_trace env sc))).
Proof.
  destruct (run_shape env sc)
    as [td [Htr [[[_ [_ [Hq _]]] _] [Hrel _]]]].
  destruct (body_follows_script env sc) as [k [Hk Hfull]].
  assert (Hfr : frames_reported (final_trace env sc)
                = frames_reported (trace (snd (run_body env sc)))).
  { rewrite Htr. apply releases_frames_reported. exact Hrel. }
  assert (Hro : release_order (final_trace env sc) = release_order td).
  { rewrite Htr, release_order_app, (quiet_release_order _ Hq). reflexivity. }
  exists k. rewrite Hfr, Hro, <- (releases_calls td Hrel).
  split.
  - rewrite Htr at 1. rewrite calls_app, Hk. reflexivity.
  - intros u Hu. rewrite Htr at 1. rewrite calls_app, (Hfull u Hu).
    reflexivity.
Qed.

(** X6.  The calls of every run are the calls the script lists, in the
    order of its text (the set-up and the entry navigation, the wait on
    the page, one wait per frame that [page.frames] reported, then the
    calls of each statement), up to the call that raised, followed by the
    close calls only.  A run that passes made all of them and then closed
    the context, the browser and the engine. *)
Theorem run_follows_script (env : Env) (sc : Scenario) :
  (exists k,
     calls (final_trace env sc)
     = firstn k (script_calls (frames_reported (final_trace env sc)) sc)
       ++ map close_call (release_order (final_trace env sc))) /\
  (verdict env sc = Pass ->
   calls (final_trace env sc)
   = script_calls (frames_reported (final_trace env sc)) sc
     ++ [ContextClose; BrowserClose; PwStop]).
Proof.
  destruct (final_calls_shape env sc) as [k [Hk Hfull]].
  split; [exists k; exact Hk |].
  intros Hpass.
  destruct (pass_facts env sc Hpass) as [[u Hu] [_ [Hclean Hacq]]].
  rewrite (Hfull u Hu).
  rewrite (proj2 (final_clean env sc Hclean)).
  unfold teardown_order. simpl. rewrite !Hacq. reflexivity.
Qed.

Lemma run_follows_script_witness :
  verdict all_ok TC014 = Pass /\
  calls (final_trace all_ok TC014)
  = script_calls 1 TC014 ++ [ContextClose; BrowserClose; PwStop].
Proof.
  assert (H : verdict all_ok TC014 = Pass) by (vm_compute; reflexivity).
  split; [exact H |].
  pose proof (proj2 (run_follows_script all_ok TC014) H) as Hc.
  assert (Hn : frames_reported (final_trace all_ok TC014) = 1%nat)
    by (vm_compute; reflexivity).
  rewrite Hn in Hc. exact Hc.
Defined.

(** X7.  The frames of the page are waited for one by one, in the order
    of [page.frames], each once: the frame waits of a run are the waits on
    frames 0, 1, ... up to the number of frames the page reported, or a
    prefix of them when the run ended earlier; all of them when the run
    passes.  With no frame reported there is no frame wait. *)
Theorem frames_are_waited_in_order (env : Env) (sc : Scenario) :
  (exists j,
     filter is_frame_wait (calls (final_trace env sc))
     = firstn j (frame_waits (frames_reported (final_trace env sc)))) /\
  (verdict env sc = Pass ->
   filter is_frame_wait (calls (final_trace env sc))
   = frame_waits (frames_reported (final_trace env sc))).
Proof.
  destruct (final_calls_shape env sc) as [k [Hk Hfull]].
  assert (Hcl : forall rs, filter is_frame_wait (map close_call rs) = []).
  { intros rs. apply filter_close_calls. intros r. destruct r; reflexivity. }
  split.
  - rewrite Hk, filter_app, Hcl, app_nil_r.
    destruct (filter_firstn_prefix is_frame_wait k
                (script_calls (frames_reported (final_trace env sc)) sc))
      as [j Hj].
    exists j. rewrite Hj, script_frame_waits. reflexivity.
  - intros Hpass. destruct (pass_facts env sc Hpass) as [[u Hu] _].
    rewrite (Hfull u Hu), filter_app, Hcl, app_nil_r.
    apply script_frame_waits.
Qed.

Lemma frames_are_waited_in_order_witness :
  verdict (fun _ c => if is_page_frames c then Returns 3%nat
                      else Returns 1%nat) TC014 = Pass /\
  filter is_frame_wait
    (calls (final_trace (fun _ c => if is_page_frames c then Returns 3%nat
                                    else Returns 1%nat) TC014))
  = [FrameWaitForLoadState 0 "domcontentloaded" 3000;
     FrameWaitForLoadState 1 "domcontentloaded" 3000;
     FrameWaitForLoadState 2 "domcontentloaded" 3000].
Proof.
  assert (H : verdict (fun _ c => if is_page_frames c then Returns 3%nat
                                  else Returns 1%nat) TC014 = Pass)
    by (vm_compute; reflexivity).
  split; [exact H |].
  pose proof (proj2 (frames_are_waited_in_order _ TC014) H) as Hc.
  assert (Hn : frames_reported
                 (final_trace (fun _ c => if is_page_frames c
                                          then Returns 3%nat
                                          else Returns 1%nat) TC014) = 3%nat)
    by (vm_compute; reflexivity).
  rewrite Hn in Hc. exact Hc.
Defined.

(** X8.  The Session is set up once per run, in a fixed order and with a
    fixed configuration: the set-up calls of a run are a prefix of
    [start], [launch] (headless, with the four arguments), [new_context],
    [set_default_timeout(5000)], [new_page].  No user-interface call is
    made before all five were made. *)
Theorem session_is_set_up_once (env : Env) (sc : Scenario) :
  (exists j,
     filter is_setup (calls (final_trace env sc))
     = firstn j [PwStart; ChromiumLaunch true launch_args; NewContext;
                 SetDefaultTimeout 5000; NewPage]) /\
  (forall c, In c (ui_calls (final_trace env sc)) ->
   filter is_setup (calls (final_trace env sc))
   = [PwStart; ChromiumLaunch true launch_args; NewContext;
      SetDefaultTimeout 5000; NewPage]).
Proof.
  destruct (final_calls_shape env sc) as [k [Hk _]].
  assert (Hcl : forall (p : Call -> bool) rs,
             (forall r, p (close_call r) = false) ->
             filter p (map close_call rs) = [])
    by (intros p rs; apply filter_close_calls).
  assert (Hrest : forallb (fun c => negb (is_setup c))
                    (frame_waits (frames_reported (final_trace env sc))
                     ++ flat_map step_calls (steps sc)) = true).
  { rewrite forallb_app, frame_waits_no_setup, step_calls_no_setup.
    reflexivity. }
  split.
  - rewrite Hk, filter_app, Hcl by (intros r; destruct r; reflexivity).
    rewrite app_nil_r.
    destruct (filter_firstn_prefix is_setup k
                (script_calls (frames_reported (final_trace env sc)) sc))
      as [j Hj].
    exists j. rewrite Hj. unfold script_calls. simpl.
    rewrite (filter_forallb_none _ _ Hrest). reflexivity.
  - intros c Hc. unfold ui_calls in Hc. rewrite Hk in Hc |- *.
    rewrite filter_app in Hc |- *.
    rewrite !Hcl in * by (intros r; destruct r; reflexivity).
    rewrite app_nil_r in Hc |- *. unfold script_calls in Hc |- *.
    destruct k as [| [| [| [| [| [| k]]]]]]; simpl in Hc;
      try (destruct Hc; fail).
    simpl. do 5 f_equal.
    apply filter_forallb_none.
    destruct k as [| [| k]]; simpl; try reflexivity.
    apply forallb_firstn. exact Hrest.
Qed.

Lemma session_is_set_up_once_witness :
  In (Goto (entry_url TC001) (Some "commit") 10000)
     (ui_calls (final_trace (raise_at 5 timeout_error) TC001)) /\
  filter is_setup (calls (final_trace (raise_at 5 timeout_error) TC001))
  = [PwStart; ChromiumLaunch true launch_args; NewContext;
     SetDefaultTimeout 5000; NewPage].
Proof.
  assert (H : In (Goto (entry_url TC001) (Some "commit") 10000)
                 (ui_calls (final_trace (raise_at 5 timeout_error) TC001)))
    by (vm_compute; left; reflexivity).
  split; [exact H |].
  apply (proj2 (session_is_set_up_once (raise_at 5 timeout_error) TC001) _ H).
Defined.

(** ** Failures while the Session is acquired *)

Section Acquiring.

Variables (env : Env) (sc : Scenario).

Lemma run_body_start_fails (e : Exn) :
  env 0%nat PwStart = Raises e ->
  run_body env sc = (inl e, record (PwStart, Raises e) init).
Proof.
  intros H0. unfold run_body. rewrite body_eq.
  rewrite bind_call_raises with (e := e); [reflexivity | exact H0].
Qed.

Lemma run_body_launch_fails (v0 : nat) (e : Exn) :
  env 0%nat PwStart = Returns v0 ->
  env 1%nat (ChromiumLaunch true launch_args) = Raises e ->
  run_body env sc
  = (inl e,
     {| pw := Some v0; browser := None; context := None;
        trace := [(PwStart, Returns v0);
                  (ChromiumLaunch true launch_args, Raises e)] |}).
Proof.
  intros H0 H1. unfold run_body. rewrite body_eq.
  rewrite bind_call_returns with (v := v0); [| exact H0].
  rewrite bind_set_pw.
  rewrite bind_call_raises with (e := e); [reflexivity | exact H1].
Qed.

Lemma run_body_new_context_fails (v0 v1 : nat) (e : Exn) :
  env 0%nat PwStart = Returns v0 ->
  env 1%nat (ChromiumLaunch true launch_args) = Returns v1 ->
  env 2%nat NewContext = Raises e ->
  run_body env sc
  = (inl e,
     {| pw := Some v0; browser := Some v1; context := None;
        trace := [(PwStart, Returns v0);
                  (ChromiumLaunch true launch_args, Returns v1);
                  (NewContext, Raises e)] |}).
Proof.
  intros H0 H1 H2. unfold run_body. rewrite body_eq.
  rewrite bind_call_returns with (v := v0); [| exact H0].
  rewrite bind_set_pw.
  rewrite bind_call_returns with (v := v1); [| exact H1].
  rewrite bind_set_browser.
  rewrite bind_call_raises with (e := e); [reflexivity | exact H2].
Qed.

End Acquiring.

(** X9.  When the Session cannot be acquired, the run touches neither
    page nor context and closes exactly what it holds.  If starting
    Playwright raises, nothing else is called and the verdict carries that
    error.  If launching the browser raises, the only further call is
    [pw.stop()].  If creating the context raises, [browser.close()] is
    called, then [pw.stop()] when that returned, and [context.close()] is
    never called. *)
Theorem failed_acquisition_closes_what_it_holds (env : Env) (sc : Scenario) :
  (forall e,
     env 0%nat PwStart = Raises e ->
     final_trace env sc = [(PwStart, Raises e)] /\
     verdict env sc = Fail (exn_msg e)) /\
  (forall v0 e,
     env 0%nat PwStart = Returns v0 ->
     env 1%nat (ChromiumLaunch true launch_args) = Raises e ->
     calls (final_trace env sc)
     = [PwStart; ChromiumLaunch true launch_args; PwStop] /\
     (teardown_clean (final_trace env sc) = true ->
      verdict env sc = Fail (exn_msg e))) /\
  (forall v0 v1 e,
     env 0%nat PwStart = Returns v0 ->
     env 1%nat (ChromiumLaunch true launch_args) = Returns v1 ->
     env 2%nat NewContext = Raises e ->
     firstn 4 (calls (final_trace env sc))
     = [PwStart; ChromiumLaunch true launch_args; NewContext; BrowserClose] /\
     release_count Context (final_trace env sc) = 0%nat /\
     (teardown_clean (final_trace env sc) = true ->
      calls (final_trace env sc)
      = [PwStart; ChromiumLaunch true launch_args; NewContext;
         BrowserClose; PwStop] /\
      verdict env sc = Fail (exn_msg e))).
Proof.
  split; [| split].
  - intros e H0. unfold final_trace, verdict. rewrite run_test_eq.
    rewrite (run_body_start_fails env sc e H0). split; reflexivity.
  - intros v0 e H0 H1. unfold final_trace, verdict. rewrite run_test_eq.
    rewrite (run_body_launch_fails env sc v0 e H0 H1).
    unfold teardown, when_set, call_. unfold bind, get, call, ret. simpl.
    destruct (env 2%nat PwStop) as [v | e']; simpl.
    + split; [reflexivity | intros _; reflexivity].
    + split; [reflexivity | intros H; discriminate H].
  - intros v0 v1 e H0 H1 H2. unfold final_trace, verdict.
    rewrite run_test_eq.
    rewrite (run_body_new_context_fails env sc v0 v1 e H0 H1 H2).
    unfold teardown, when_set, call_. unfold bind, get, call, ret. simpl.
    destruct (env 3%nat BrowserClose) as [v | e']; simpl.
    + destruct (env 4%nat PwStop) as [v' | e'']; simpl.
      * repeat split; reflexivity.
      * split; [reflexivity |]. split; [reflexivity |].
        intros H; discriminate H.
    + split; [reflexivity |]. split; [reflexivity |].
      intros H; discriminate H.
Qed.

Lemma failed_acquisition_closes_what_it_holds_witness :
  (raise_at 0 target_closed 0%nat PwStart = Raises target_closed /\
   final_trace (raise_at 0 target_closed) TC006
   = [(PwStart, Raises target_closed)]) /\
  (raise_at 1 target_closed 0%nat PwStart = Returns 1%nat /\
   raise_at 1 target_closed 1%nat (ChromiumLaunch true launch_args)
   = Raises target_closed /\
   calls (final_trace (raise_at 1 target_closed) TC006)
   = [PwStart; ChromiumLaunch true launch_args; PwStop]) /\
  (raise_at 2 target_closed 0%nat PwStart = Returns 1%nat /\
   raise_at 2 target_closed 1%nat (ChromiumLaunch true launch_args)
   = Returns 1%nat /\
   raise_at 2 target_closed 2%nat NewContext = Raises target_closed /\
   teardown_clean (final_trace (raise_at 2 target_closed) TC006) = true /\
   verdict (raise_at 2 target_closed) TC006
   = Fail "Target page, context or browser has been closed").
Proof.
  split; [| split].
  - split; [reflexivity |].
    apply (proj1 (failed_acquisition_closes_what_it_holds
                    (raise_at 0 target_closed) TC006) target_closed).
    reflexivity.
  - split; [reflexivity |]. split; [reflexivity |].
    apply (proj1 (proj2 (failed_acquisition_closes_what_it_holds
                           (raise_at 1 target_closed) TC006))
                 1%nat target_closed); reflexivity.
  - split; [reflexivity |]. split; [reflexivity |]. split; [reflexivity |].
    assert (Hc : teardown_clean
                   (final_trace (raise_at 2 target_closed) TC006) = true)
      by (vm_compute; reflexivity).
    split; [exact Hc |].
    apply (proj2 (proj2 (failed_acquisition_closes_what_it_holds
                           (raise_at 2 target_closed) TC006))
                 1%nat 1%nat target_closed); first [exact Hc | reflexivity].
Defined.

(** X10.  Teardown is terminal: once a close call has been made, every
    later call of the run is a close call; no step, wait or assertion
    runs after the [finally] block has started. *)
Theorem nothing_runs_after_teardown
  (env : Env) (sc : Scenario) (n : nat) (ev : Event) :
  nth_error (final_trace env sc) n = Some ev ->
  is_release (fst ev) = true ->
  forallb (fun x => is_release (fst x)) (skipn n (final_trace env sc)) = true.
Proof.
  intros Hn Hr.
  destruct (run_shape env sc)
    as [td [Htr [[[_ [_ [Hq _]]] _] [Hrel _]]]].
  pose proof (nth_error_decompose _ _ _ Hn) as Hsplit.
  assert (Hskip : skipn n (final_trace env sc)
                  = ev :: skipn (S n) (final_trace env sc)).
  { clear - Hn. revert n Hn.
    induction (final_trace env sc) as [| a l IH]; intros n Hn.
    - destruct n; discriminate Hn.
    - destruct n as [| n]; simpl in *.
      + injection Hn as ->. reflexivity.
      + apply IH. exact Hn. }
  rewrite Htr in Hsplit at 1. symmetry in Hsplit.
  destruct (locate _ _ _ _ _ Hsplit) as [[l [Hbt _]] | [l [_ Htd]]].
  - assert (Hin : In ev (trace (snd (run_body env sc)))).
    { rewrite Hbt. apply in_or_app. right. left. reflexivity. }
    apply (proj1 (forallb_forall _ _) Hq) in Hin.
    apply release_is_quiet_false in Hin. rewrite Hin in Hr. discriminate Hr.
  - rewrite Hskip. rewrite Htd, forallb_app in Hrel.
    apply andb_true_iff in Hrel. apply Hrel.
Qed.

Lemma nothing_runs_after_teardown_witness :
  nth_error (final_trace (raise_at 11 timeout_error) TC001) 12
  = Some (ContextClose, Returns 1%nat) /\
  forallb (fun x => is_release (fst x))
          (skipn 12 (final_trace (raise_at 11 timeout_error) TC001)) = true.
Proof.
  assert (H : nth_error (final_trace (raise_at 11 timeout_error) TC001) 12
              = Some (ContextClose, Returns 1%nat))
    by (vm_compute; reflexivity).
  split; [exact H |].
  apply (nothing_runs_after_teardown _ _ _ _ H). reflexivity.
Defined.

Lemma step_calls_length (ss : list Step) :
  (length (flat_map step_calls ss) <= 3 * length ss)%nat.
Proof.
  induction ss as [| s ss IH]; simpl; [lia |].
  rewrite length_app. destruct s; simpl; lia.
Qed.

Lemma script_calls_length (n : nat) (sc : Scenario) :
  length (script_calls n sc)
  = (8 + n + length (flat_map step_calls (steps sc)))%nat.
Proof.
  unfold script_calls, opening_calls, frame_waits.
  rewrite !length_app. simpl length. rewrite length_app, length_map, length_seq.
  lia.
Qed.

(** X11.  A run is bounded by its script: it makes at most eleven calls
    for set-up, entry navigation, page wait, frame query and teardown, one
    wait per frame the page reported, and three calls per statement of the
    straight line. *)
Theorem run_length_is_bounded (env : Env) (sc : Scenario) :
  (length (final_trace env sc)
   <= 11 + frames_reported (final_trace env sc) + 3 * length (steps sc))%nat.
Proof.
  destruct (final_calls_shape env sc) as [k [Hk _]].
  destruct (final_release_order env sc) as [j Hj].
  assert (Hlen : length (final_trace env sc)
                 = length (calls (final_trace env sc)))
    by (unfold calls; rewrite length_map; reflexivity).
  rewrite Hlen, Hk, length_app, length_map, Hj, !length_firstn.
  rewrite script_calls_length.
  pose proof (filter_length_le (fun r => acquired r (final_trace env sc))
                               teardown_order) as H3.
  pose proof (step_calls_length (steps sc)) as H4.
  change (length teardown_order) with 3%nat in H3. lia.
Qed.

(** ** Recovered waits and the text of the script *)

Lemma nth_error_firstn_some {A : Type} (k n : nat) (l : list A) (x : A) :
  nth_error (firstn k l) n = Some x -> nth_error l n = Some x.
Proof.
  revert k n. induction l as [| a l IH]; intros k n H.
  - rewrite firstn_nil in H. destruct n; discriminate H.
  - destruct k as [| k]; [destruct n; discriminate H |].
    destruct n as [| n]; simpl in *; [exact H | exact (IH k n H)].
Qed.

Lemma step_calls_no_load_wait (ss : list Step) :
  forallb (fun c => negb (is_load_wait c)) (flat_map step_calls ss) = true.
Proof.
  induction ss as [| s ss IH]; simpl; [reflexivity |].
  rewrite forallb_app, IH. destruct s; reflexivity.
Qed.

Lemma step_calls_nonempty (ss : list Step) :
  (0 < length ss)%nat -> (0 < length (flat_map step_calls ss))%nat.
Proof.
  destruct ss as [| s ss]; simpl; intros H; [lia |].
  rewrite length_app. destruct s; simpl; lia.
Qed.

(** In the text of a script with at least one statement, a load-state
    wait is never the last call. *)
Lemma script_wait_has_successor (m : nat) (sc : Scenario) (n : nat)
  (w : Call) :
  (0 < length (steps sc))%nat ->
  nth_error (script_calls m sc) n = Some w -> is_load_wait w = true ->
  exists c, nth_error (script_calls m sc) (S n) = Some c.
Proof.
  intros Hs Hn Hw.
  assert (Hsplit : script_calls m sc
                   = (opening_calls sc ++ PageFrames :: frame_waits m)
                     ++ flat_map step_calls (steps sc)).
  { unfold script_calls. rewrite <- app_assoc. reflexivity. }
  destruct (Nat.lt_ge_cases
              n (length (opening_calls sc ++ PageFrames :: frame_waits m)))
    as [Hlt | Hge].
  - destruct (nth_error (script_calls m sc) (S n)) as [c |] eqn:E;
      [exists c; reflexivity |].
    apply nth_error_None in E. rewrite Hsplit, length_app in E.
    pose proof (step_calls_nonempty (steps sc) Hs). lia.
  - rewrite Hsplit, nth_error_app2 in Hn by exact Hge.
    apply nth_error_In in Hn.
    apply (proj1 (forallb_forall _ _) (step_calls_no_load_wait (steps sc)))
      in Hn.
    rewrite Hw in Hn. discriminate Hn.
Qed.

(** C4 (as stated, refuted).  In [TC001] with every load-state wait timing
    out, the timeouts are recovered and the scenario passes, but nothing is
    logged: the handler is [pass]. *)
Lemma recovered_timeout_is_not_logged :
  existsb recovered_wait
    (final_trace (raise_on is_load_wait timeout_error) TC001) = true /\
  existsb (fun ev => is_log (fst ev))
    (final_trace (raise_on is_load_wait timeout_error) TC001) = false /\
  verdict (raise_on is_load_wait timeout_error) TC001 = Pass.
Proof. vm_compute. repeat split. Qed.

(** C4 (amended).  A load-state wait that fails with an
    [async_api.Error], a timeout in particular, is discarded silently:
    no run logs anything.  It never ends the [try] block, and execution
    continues with the next call of the block: the call that follows the
    wait in the text of the script is the next call of the run, and it is
    not a close call; only when the wait is the last call of the script
    (a script without statements) does the block return instead.  A run
    whose only raising calls are such waits passes. *)
Theorem load_wait_timeout_is_skipped (env : Env) (sc : Scenario) :
  existsb (fun ev => is_log (fst ev)) (final_trace env sc) = false /\
  (forall n ev,
     nth_error (final_trace env sc) n = Some ev ->
     recovered_wait ev = true ->
     nth_error (script_calls (frames_reported (final_trace env sc)) sc) n
     = Some (fst ev) /\
     match nth_error (script_calls (frames_reported (final_trace env sc)) sc)
                     (S n) with
     | Some c => nth_error (calls (final_trace env sc)) (S n) = Some c /\
                 is_release c = false
     | None => fst (run_body env sc) = inr tt
     end /\
     ((0 < length (steps sc))%nat ->
      exists c,
        nth_error (script_calls (frames_reported (final_trace env sc)) sc)
                  (S n) = Some c /\
        nth_error (calls (final_trace env sc)) (S n) = Some c /\
        is_release c = false)) /\
  (forallb (fun ev => returned ev || recovered_wait ev) (final_trace env sc)
   = true ->
   verdict env sc = Pass).
Proof.
  destruct (run_shape env sc)
    as [td [Htr [[[_ [_ [Hq _]]] Hb] [Hrel [_ [_ [Hclean _]]]]]]].
  split; [| split].
  - rewrite Htr, existsb_app. apply orb_false_iff. split.
    + apply not_true_is_false. intros H. apply existsb_exists in H.
      destruct H as [x [Hx Hlog]].
      apply (proj1 (forallb_forall _ _) Hq) in Hx. unfold quiet in Hx.
      rewrite Hlog, andb_false_r in Hx. discriminate Hx.
    + apply not_true_is_false. intros H. apply existsb_exists in H.
      destruct H as [x [Hx Hlog]].
      apply (proj1 (forallb_forall _ _) Hrel) in Hx.
      destruct x as [c rep]. destruct c; simpl in *; discriminate.
  - intros n ev Hn Hrec.
    assert (Hnr : is_release (fst ev) = false).
    { destruct ev as [c [v | e]]; [discriminate Hrec |].
      unfold recovered_wait in Hrec. simpl in Hrec.
      apply andb_true_iff in Hrec. destruct Hrec as [Hw _].
      destruct c; try discriminate Hw; reflexivity. }
    assert (Hlw : is_load_wait (fst ev) = true).
    { destruct ev as [c [v | e]]; [discriminate Hrec |].
      unfold recovered_wait in Hrec. simpl in Hrec.
      apply andb_true_iff in Hrec. apply Hrec. }
    assert (Hnf : fatal ev = false).
    { rewrite fatal_spec, Hrec, orb_true_r. reflexivity. }
    pose proof (nth_error_decompose _ _ _ Hn) as Hsplit.
    assert (Hlen : length (firstn n (final_trace env sc)) = n).
    { rewrite length_firstn. apply Nat.min_l.
      assert (n < length (final_trace env sc))%nat; [| lia].
      apply nth_error_Some. rewrite Hn. discriminate. }
    set (pre := firstn n (final_trace env sc)) in *.
    set (post := skipn (S n) (final_trace env sc)) in *.
    rewrite Htr in Hsplit at 1. symmetry in Hsplit.
    destruct (locate_in_body _ _ _ _ _ Hsplit Hrel Hnr) as [l [Hbt Hpost]].
    destruct (body_follows_script env sc) as [k [Hk Hfull]].
    assert (Hfr : frames_reported (final_trace env sc)
                  = frames_reported (trace (snd (run_body env sc)))).
    { rewrite Htr. apply releases_frames_reported. exact Hrel. }
    rewrite Hfr.
    set (S0 := script_calls
                 (frames_reported (trace (snd (run_body env sc)))) sc) in *.
    assert (Hcalls : calls (trace (snd (run_body env sc)))
                     = calls pre ++ fst ev :: calls l).
    { rewrite Hbt, calls_app. reflexivity. }
    assert (Hclen : length (calls pre) = n).
    { unfold calls. rewrite length_map. exact Hlen. }
    assert (Hat : nth_error S0 n = Some (fst ev)).
    { apply (nth_error_firstn_some k). rewrite <- Hk, Hcalls.
      rewrite nth_error_app2 by lia.
      rewrite Hclen, Nat.sub_diag. reflexivity. }
    assert (Hnext : forall nxt l', l = nxt :: l' ->
              nth_error S0 (S n) = Some (fst nxt) /\
              nth_error (calls (final_trace env sc)) (S n) = Some (fst nxt) /\
              is_release (fst nxt) = false).
    { intros nxt l' ->.
      assert (Hb1 : nth_error (calls (trace (snd (run_body env sc)))) (S n)
                    = Some (fst nxt)).
      { rewrite Hcalls. rewrite nth_error_app2 by lia.
        replace (S n - length (calls pre))%nat with 1%nat by lia.
        reflexivity. }
      split; [| split].
      - apply (nth_error_firstn_some k). rewrite <- Hk. exact Hb1.
      - rewrite Htr, calls_app. rewrite nth_error_app1; [exact Hb1 |].
        apply nth_error_Some. rewrite Hb1. discriminate.
      - apply release_is_quiet_false.
        apply (proj1 (forallb_forall _ _) Hq). rewrite Hbt.
        apply in_or_app. right. right. left. reflexivity. }
    assert (Hend : l = [] -> exists u, fst (run_body env sc) = inr u /\
                                       nth_error S0 (S n) = None).
    { intros ->.
      destruct (fst (run_body env sc)) as [e | u] eqn:Eb.
      - destruct Hb as [bpre [last [Heq [_ [Hfatal _]]]]].
        rewrite Hbt in Heq. apply app_inj_tail in Heq. destruct Heq as [_ ->].
        rewrite Hfatal in Hnf. discriminate Hnf.
      - exists u. split; [reflexivity |].
        apply nth_error_None. rewrite <- (Hfull u eq_refl), Hcalls.
        rewrite length_app. simpl. lia. }
    split; [exact Hat |]. split.
    + destruct l as [| nxt l'].
      * destruct (Hend eq_refl) as [u [Hu Hnone]]. rewrite Hnone.
        destruct u. exact Hu.
      * destruct (Hnext nxt l' eq_refl) as [H1 [H2 H3]]. rewrite H1.
        split; assumption.
    + intros Hsteps.
      destruct (script_wait_has_successor _ sc n (fst ev) Hsteps Hat Hlw)
        as [c Hc].
      fold S0 in Hc.
      destruct l as [| nxt l'].
      * destruct (Hend eq_refl) as [u [_ Hnone]].
        rewrite Hnone in Hc. discriminate Hc.
      * destruct (Hnext nxt l' eq_refl) as [H1 [H2 H3]].
        exists (fst nxt). repeat split; assumption.
  - intros Hall. rewrite Htr, forallb_app in Hall.
    apply andb_true_iff in Hall. destruct Hall as [Hbt Htd].
    assert (Hc : teardown_clean td = true).
    { unfold teardown_clean. apply forallb_forall. intros x Hx.
      pose proof (proj1 (forallb_forall _ _) Htd x Hx) as H1.
      pose proof (proj1 (forallb_forall _ _) Hrel x Hx) as H2.
      apply orb_true_iff in H1. destruct H1 as [H1 | H1].
      - rewrite H1. apply orb_true_r.
      - destruct x as [c [v | e]]; [discriminate H1 |].
        unfold recovered_wait in H1. simpl in *.
        destruct c; simpl in *; discriminate. }
    destruct (Hclean Hc) as [Hr _]. unfold verdict. rewrite Hr.
    destruct (fst (run_body env sc)) as [e | u]; [| reflexivity].
    destruct Hb as [bpre [last [Heq [_ [Hfatal _]]]]].
    assert (Hin : In last (trace (snd (run_body env sc)))).
    { rewrite Heq. apply in_or_app. right. left. reflexivity. }
    apply (proj1 (forallb_forall _ _) Hbt) in Hin.
    rewrite fatal_spec, Hin in Hfatal. discriminate Hfatal.
Qed.

Lemma load_wait_timeout_is_skipped_witness :
  (nth_error (final_trace (raise_on is_load_wait timeout_error) TC001) 8
   = Some (FrameWaitForLoadState 0 "domcontentloaded" 3000,
           Raises timeout_error) /\
   recovered_wait (FrameWaitForLoadState 0 "domcontentloaded" 3000,
                   Raises timeout_error) = true /\
   (0 < length (steps TC001))%nat /\
   exists c,
     nth_error
       (script_calls
          (frames_reported
             (final_trace (raise_on is_load_wait timeout_error) TC001))
          TC001) 9 = Some c /\
     nth_error
       (calls (final_trace (raise_on is_load_wait timeout_error) TC001)) 9
     = Some c /\
     is_release c = false) /\
  (forallb (fun ev => returned ev || recovered_wait ev)
     (final_trace (raise_on is_load_wait timeout_error) TC001) = true /\
   verdict (raise_on is_load_wait timeout_error) TC001 = Pass).
Proof.
  split.
  - assert (H1 : nth_error
                   (final_trace (raise_on is_load_wait timeout_error) TC001) 8
                 = Some (FrameWaitForLoadState 0 "domcontentloaded" 3000,
                         Raises timeout_error))
      by (vm_compute; reflexivity).
    assert (H2 : recovered_wait
                   (FrameWaitForLoadState 0 "domcontentloaded" 3000,
                    Raises timeout_error) = true)
      by reflexivity.
    assert (H3 : (0 < length (steps TC001))%nat) by (vm_compute; lia).
    split; [exact H1 |]. split; [exact H2 |]. split; [exact H3 |].
    apply (proj2 (proj2 (proj1 (proj2 (load_wait_timeout_is_skipped
                                         (raise_on is_load_wait timeout_error)
                                         TC001))
                               8%nat _ H1 H2)) H3).
  - split; [vm_compute; reflexivity |].
    apply (proj2 (proj2 (load_wait_timeout_is_skipped
                           (raise_on is_load_wait timeout_error) TC001)));
      vm_compute; reflexivity.
Defined.
